(** * BytePS TensorFlow binding: a shallow embedding of
      [byteps/tensorflow/__init__.py]

    The module is a glue layer between TensorFlow and the native BytePS
    engine.  Everything imported from [byteps.tensorflow.ops] (the engine
    entry points), from [byteps.tensorflow.compression] and from TensorFlow
    itself is outside the file; the engine is taken as a record of
    operations ([Ops]), the compression strategy as a record
    ([Compression]), and the TensorFlow primitives the file calls are
    modelled on flat tensors over an abstract platform ([Platform]: the
    element arithmetic, the optional attributes of the installed
    TensorFlow, Python's [int]).  Python exceptions are values of
    [Result]. *)

From Stdlib Require Import List String Ascii ZArith QArith Qround Bool Lia.
From Stdlib Require Import DecimalString DecimalPos DecimalZ.
Import ListNotations.

Local Open Scope Z_scope.
Local Open Scope list_scope.

(** ** Python exceptions *)

Inductive Exn : Type :=
| ValueError (msg : string)
| AssertionError (msg : string)
| IndexError
| TypeError
| AttributeError.

Inductive Result (A : Type) : Type :=
| Ok (a : A)
| Raise (e : Exn).

Arguments Ok {A} a.
Arguments Raise {A} e.

Definition bind {A B : Type} (c : Result A) (k : A -> Result B) : Result B :=
  match c with
  | Ok a => k a
  | Raise e => Raise e
  end.

Notation "x <- c ;; k" := (bind c (fun x => k))
  (at level 61, c at next level, right associativity).
Notation "' p <- c ;; k" := (bind c (fun x => let 'p := x in k))
  (at level 61, p pattern, c at next level, right associativity).

Definition is_ok {A : Type} (c : Result A) : bool :=
  match c with Ok _ => true | Raise _ => false end.

(** ** Tensors *)

Inductive DType : Type := float16 | float32 | float64 | int32 | int64.

Definition DType_eqb (a b : DType) : bool :=
  match a, b with
  | float16, float16 | float32, float32 | float64, float64
  | int32, int32 | int64, int64 => true
  | _, _ => false
  end.

(** [dtype.is_floating]. *)
Definition is_floating (d : DType) : bool :=
  match d with
  | float16 | float32 | float64 => true
  | int32 | int64 => false
  end.

(** What the module takes from outside the repository.

    The element arithmetic of TensorFlow, per element type: [eofZ d n] is
    the Python integer [n] converted to element type [d] (as [tf.cast] and
    the broadcast of the literal [1] do), [ecast a b] converts an element of
    type [a] to type [b], [egtb] is the comparison [>], and [ediv d] is the
    quotient [tf.div] computes in type [d] (the real quotient of a floating
    type, the floored quotient of an integer type; on a floating type
    [tf.math.divide] computes the same).

    The installed TensorFlow: whether it has the attributes [tf.div] and
    [tf.assign], which the module tests or uses.

    Python's [int] on a string, which returns an integer or raises. *)
Class Platform (elem : Type) : Type := {
  eadd : DType -> elem -> elem -> elem;
  ediv : DType -> elem -> elem -> elem;
  eofZ : DType -> Z -> elem;
  esub : DType -> elem -> elem -> elem;
  ecast : DType -> DType -> elem -> elem;
  egtb : elem -> elem -> bool;
  tf_has_div : bool;
  tf_has_assign : bool;
  py_int : string -> Result Z
}.

Section Glue.

Context {elem : Type} {E : Platform elem}.

(** A tensor: its graph name, element type, whether it is a
    [tf.IndexedSlices], and its elements in row-major order (the shape
    plays no part in this file). *)
Record Tensor : Type := mkTensor {
  name : string;
  dtype : DType;
  indexed_slices : bool;
  values : list elem
}.

Definition with_values (t : Tensor) (vs : list elem) : Tensor :=
  mkTensor (name t) (dtype t) (indexed_slices t) vs.

(** [tf.cast(n, dtype=d)] for a Python integer [n]: a scalar. *)
Definition tf_cast_int (n : Z) (d : DType) : Tensor :=
  mkTensor "Cast" d false [eofZ d n].

(** [tf.dtypes.cast(x, d)]. *)
Definition tf_dtypes_cast (x : Tensor) (d : DType) : Tensor :=
  mkTensor (name x) d (indexed_slices x) (map (ecast (dtype x) d) (values x)).

(** [tf.convert_to_tensor(x)]. *)
Definition tf_convert_to_tensor (x : Tensor) : Tensor :=
  mkTensor (name x) (dtype x) false (values x).

(** [tf.identity(x)]. *)
Definition tf_identity (x : Tensor) : Tensor := x.

(** [x + 1]: the literal is broadcast in the element type of [x]. *)
Definition tf_add_one (x : Tensor) : Tensor :=
  with_values x (map (fun v => eadd (dtype x) v (eofZ (dtype x) 1)) (values x)).

Fixpoint zip_with {A B C : Type} (f : A -> B -> C) (xs : list A) (ys : list B)
  : list C :=
  match xs, ys with
  | x :: xs', y :: ys' => f x y :: zip_with f xs' ys'
  | _, _ => []
  end.

(** The elements of [x] over those of [y] with the division [f], a
    one-element [y] being broadcast. *)
Definition elementwise_div (f : elem -> elem -> elem) (xs ys : list elem)
  : list elem :=
  match ys with
  | [s] => map (fun v => f v s) xs
  | _ => zip_with f xs ys
  end.

(** What [tf.div(x, y)] returns on tensors of one element type: the
    quotient in that type. *)
Definition tf_div_value (x y : Tensor) : Tensor :=
  with_values x (elementwise_div (ediv (dtype x)) (values x) (values y)).

(** What [tf.math.divide(x, y)] returns on tensors of one element type: the
    quotient in that type when it is floating; integer operands are both
    converted to [float64] first and the result is [float64]. *)
Definition tf_math_divide_value (x y : Tensor) : Tensor :=
  if is_floating (dtype x) then tf_div_value x y
  else
    mkTensor (name x) float64 (indexed_slices x)
      (elementwise_div (ediv float64)
         (map (ecast (dtype x) float64) (values x))
         (map (ecast (dtype y) float64) (values y))).

(** What [_div(x, y)] returns when it returns, with
    [_div = tf.div if hasattr(tf, 'div') else tf.math.divide]. *)
Definition quotient (x y : Tensor) : Tensor :=
  if tf_has_div then tf_div_value x y else tf_math_divide_value x y.

(** [_div(x, y)]: both functions raise [TypeError] when the element types
    of [x] and [y] differ. *)
Definition _div (x y : Tensor) : Result Tensor :=
  if DType_eqb (dtype x) (dtype y) then Ok (quotient x y)
  else Raise TypeError.

(** [tf.subtract(x, y)] on tensors of one shape. *)
Definition tf_subtract (x y : Tensor) : Tensor :=
  with_values x (zip_with (esub (dtype x)) (values x) (values y)).

(** [tf.reshape(h, [-1])]. *)
Definition tf_reshape_flat (h : Tensor) : Tensor := h.

(** [h[0] > h[1]] on the reshaped handle.  An index past the end of the
    handle is refused by TensorFlow when the slice is built, with a
    [ValueError]; the message here is the beginning of TensorFlow's. *)
Definition marker_gt (h : Tensor) : Result bool :=
  match values h with
  | a :: b :: _ => Ok (egtb a b)
  | [_] => Raise (ValueError "slice index 1 of dimension 0 out of bounds.")
  | [] => Raise (ValueError "slice index 0 of dimension 0 out of bounds.")
  end.

(** [tf.cond(pred, true_fn, false_fn)]. *)
Definition tf_cond {A : Type} (pred : bool) (true_fn false_fn : unit -> A) : A :=
  if pred then true_fn tt else false_fn tt.

(** ** The reduction operators: module-level string constants *)

Definition Average : string := "Average".
Definition Sum : string := "Sum".
Definition Adasum : string := "Adasum".

(** ** What the file imports from [byteps.tensorflow.ops] *)

Record Ops : Type := {
  size : Z;
  rank : Z;
  handle_average_backwards_compatibility :
    option string -> option bool -> Result string;
  _push_pull : Tensor -> string -> Tensor;
  _push_pull_xla : Tensor -> string -> Z -> Tensor * Tensor;
  _push_pull_xla_v2 : Tensor -> string -> Z -> Tensor * Tensor;
  _push_pull_kickoff_xla : Tensor -> string -> Z -> Tensor * string;
  _sync_all_tensors : list Tensor -> list string -> list Tensor;
  _my_barrier_handle_out : list Tensor -> Tensor;
  _sync_tensors_handle_out : Tensor -> Tensor -> string -> Tensor * Tensor;
  _sync_tensors_handle_out_v2 : Tensor -> Tensor -> string -> Z -> Tensor;
  _sync_tensor_tf_op : Tensor -> string -> Tensor;
  broadcast : Tensor -> Z -> string -> Tensor
}.

(** ** The compression strategy: [compress] and [decompress] *)

Record Compression : Type := {
  ctx : Type;
  compress : Tensor -> Tensor * ctx;
  decompress : Tensor -> ctx -> Tensor
}.

(** Modelled from the spec: [Compression.none] of
    [byteps.tensorflow.compression], which is not in the file; the spec
    says the default is identity (no compression). *)
Definition Compression_none : Compression :=
  {| ctx := unit;
     compress := fun t => (t, tt);
     decompress := fun t _ => t |}.

Variable O : Ops.

(** ** [push_pull]

    Device placement ([device_dense], [device_sparse]) has no effect on
    values and is left out of every function below. *)
Definition push_pull (tensor : Tensor) (scope : string) (average : option bool)
    (compression : Compression) (op : option string) (enable_async : bool)
  : Result Tensor :=
  op <- handle_average_backwards_compatibility O op average ;;
  let true_op := if String.eqb op Average then Sum else op in
  let byteps_size := tf_cast_int (size O) (dtype tensor) in
  let '(tensor_compressed, ctx) := compress compression tensor in
  let summed_tensor_compressed := _push_pull O tensor_compressed scope in
  let summed_tensor := decompress compression summed_tensor_compressed ctx in
  new_tensor <-
    (if negb enable_async then
       (if String.eqb op Average then _div summed_tensor byteps_size
        else Ok summed_tensor)
     else Ok summed_tensor) ;;
  Ok new_tensor.

(** ** The XLA per-tensor variants *)

Definition push_pull_xla (tensor : Tensor) (scope : string)
    (average : option bool) (compression : Compression) (op : option string)
    (enable_async : bool) (idx : Z) : Result (Tensor * string) :=
  op <- handle_average_backwards_compatibility O op average ;;
  let true_op := if String.eqb op Average then Sum else op in
  let byteps_size := tf_cast_int (size O) (dtype tensor) in
  let '(tensor_compressed, ctx) := compress compression tensor in
  let summed_tensor_compressed := _push_pull_xla O tensor_compressed scope idx in
  let handle := snd summed_tensor_compressed in
  let summed_tensor_compressed := fst summed_tensor_compressed in
  let tensor_name := name summed_tensor_compressed in
  let handle := tf_reshape_flat handle in
  pred <- marker_gt handle ;;
  let summed_tensor_compressed :=
    tf_cond pred
      (fun _ => tf_add_one (tf_identity summed_tensor_compressed))
      (fun _ => tf_identity summed_tensor_compressed) in
  let summed_tensor := decompress compression summed_tensor_compressed ctx in
  new_tensor <-
    (if negb enable_async then
       (if String.eqb op Average then _div summed_tensor byteps_size
        else Ok summed_tensor)
     else Ok summed_tensor) ;;
  Ok (new_tensor, tensor_name).

Definition push_pull_xla_handle_out (tensor : Tensor) (scope : string)
    (average : option bool) (compression : Compression) (op : option string)
    (enable_async : bool) (idx : Z) : Result (Tensor * string * Tensor) :=
  op <- handle_average_backwards_compatibility O op average ;;
  let true_op := if String.eqb op Average then Sum else op in
  let byteps_size := tf_cast_int (size O) (dtype tensor) in
  let '(tensor_compressed, ctx) := compress compression tensor in
  let '(summed_tensor_compressed, handle) :=
    _push_pull_xla O tensor_compressed scope idx in
  let tensor_name := name summed_tensor_compressed in
  let handle := tf_reshape_flat handle in
  pred <- marker_gt handle ;;
  let summed_tensor_compressed :=
    tf_cond pred
      (fun _ => tf_add_one (tf_identity summed_tensor_compressed))
      (fun _ => tf_identity summed_tensor_compressed) in
  (* the call to compression.decompress is commented out in the source *)
  let summed_tensor := summed_tensor_compressed in
  new_tensor <-
    (if negb enable_async then
       (if String.eqb op Average then _div summed_tensor byteps_size
        else Ok summed_tensor)
     else Ok summed_tensor) ;;
  Ok (new_tensor, tensor_name, handle).

Definition push_pull_xla_handle_out_v2 (tensor : Tensor) (scope : string)
    (average : option bool) (compression : Compression) (op : option string)
    (enable_async : bool) (idx : Z) : Result (Tensor * string * Tensor) :=
  op <- handle_average_backwards_compatibility O op average ;;
  let true_op := if String.eqb op Average then Sum else op in
  let byteps_size := tf_cast_int (size O) (dtype tensor) in
  let '(tensor_compressed, ctx) := compress compression tensor in
  let '(summed_tensor_compressed, handle) :=
    _push_pull_xla_v2 O tensor_compressed scope idx in
  let tensor_name := name summed_tensor_compressed in
  let handle := tf_reshape_flat handle in
  let summed_tensor := summed_tensor_compressed in
  new_tensor <-
    (if negb enable_async then
       (if String.eqb op Average then _div summed_tensor byteps_size
        else Ok summed_tensor)
     else Ok summed_tensor) ;;
  let tensor_decompressed := decompress compression new_tensor ctx in
  Ok (tensor_decompressed, tensor_name, handle).

(** [str(idx)]. *)
Definition str (n : Z) : string := NilZero.string_of_int (Z.to_int n).

Definition push_pull_kickoff (tensor : Tensor) (scope : string)
    (average : option bool) (compression : Compression) (op : option string)
    (enable_async : bool) (idx : Z) : Result (Tensor * string) :=
  op <- handle_average_backwards_compatibility O op average ;;
  let true_op := if String.eqb op Average then Sum else op in
  let tensor_compressed := tensor in
  let '(summed_tensor_compressed, name') :=
    _push_pull_kickoff_xla O tensor_compressed scope idx in
  let tensor_name := String.append (name summed_tensor_compressed) (str idx) in
  let new_tensor := summed_tensor_compressed in
  Ok (new_tensor, tensor_name).

(** ** Python list idioms used by the batch functions *)

(** [enumerate(l, start)]. *)
Fixpoint enumerate {A : Type} (start : Z) (l : list A) : list (Z * A) :=
  match l with
  | [] => []
  | x :: l' => (start, x) :: enumerate (start + 1) l'
  end.

(** A list comprehension whose element expression may raise: evaluated
    left to right, the first exception ends it. *)
Fixpoint sequence {A : Type} (l : list (Result A)) : Result (list A) :=
  match l with
  | [] => Ok []
  | c :: l' => x <- c ;; xs <- sequence l' ;; Ok (x :: xs)
  end.

(** [expr(idx, grad) if grad is not None else grad
     for idx, grad in enumerate(grads, 1)]. *)
Definition for_each_grad {A : Type} (f : Tensor -> Z -> Result A)
    (grads : list (option Tensor)) : Result (list (option A)) :=
  sequence (map (fun '(idx, grad) =>
                   match grad with
                   | Some g => r <- f g idx ;; Ok (Some r)
                   | None => Ok None
                   end) (enumerate 1 grads)).

(** The rows handed to [zip( *rows)]: a [None] row is not iterable. *)
Fixpoint iter_rows {A : Type} (rows : list (option A)) : Result (list A) :=
  match rows with
  | [] => Ok []
  | None :: _ => Raise TypeError
  | Some r :: rows' => rs <- iter_rows rows' ;; Ok (r :: rs)
  end.

(** [cols = list(zip( *rows))] followed by [list(cols[0]), list(cols[1])]:
    without rows [cols] is the empty list and [cols[0]] is out of range. *)
Definition zip_star2 {A B : Type} (rows : list (option (A * B)))
  : Result (list A * list B) :=
  rows' <- iter_rows rows ;;
  match rows' with
  | [] => Raise IndexError
  | _ :: _ => Ok (map fst rows', map snd rows')
  end.

(** The same with [cols[0]], [cols[1]] and [cols[2]]. *)
Definition zip_star3 {A B C : Type} (rows : list (option (A * B * C)))
  : Result (list A * list B * list C) :=
  rows' <- iter_rows rows ;;
  match rows' with
  | [] => Raise IndexError
  | _ :: _ => Ok (map (fun r => fst (fst r)) rows',
                  map (fun r => snd (fst r)) rows',
                  map snd rows')
  end.

(** [[tf.convert_to_tensor(grad)
      if grad is not None and isinstance(grad, tf.IndexedSlices)
      else grad for grad in grads]]. *)
Definition densify (grads : list (option Tensor)) : list (option Tensor) :=
  map (fun grad =>
         match grad with
         | Some g => if indexed_slices g then Some (tf_convert_to_tensor g)
                     else Some g
         | None => None
         end) grads.

(** The tensors of a gradient list; used where the list is known to hold
    no [None] (a [None] has raised [TypeError] in [zip_star2] before). *)
Fixpoint tensors_of (grads : list (option Tensor)) : list Tensor :=
  match grads with
  | [] => []
  | Some g :: grads' => g :: tensors_of grads'
  | None :: grads' => tensors_of grads'
  end.

(** [l[-1]]. *)
Fixpoint last_item {A : Type} (l : list A) : Result A :=
  match l with
  | [] => Raise IndexError
  | [x] => Ok x
  | _ :: l' => last_item l'
  end.

(** [with tf.name_scope(s) as scope]. *)
Definition tf_name_scope (s : string) : string := String.append s "/".

(** ** The batch functions *)

Definition sync_grads_one_shot (grads : list Tensor) (grad_names : list string)
  : list Tensor :=
  _sync_all_tensors O grads grad_names.

(** The [tf.print] calls only log and are left out. *)
Definition push_pull_all_grads_sync_one_shot_xla (grads : list (option Tensor))
    (compression : Compression) (sparse_as_dense : bool)
  : Result (list Tensor) :=
  let scope := tf_name_scope "DistributedGradientTape_Push_Pull" in
  let grads := if sparse_as_dense then densify grads else grads in
  new_grads_names <-
    for_each_grad (fun grad idx =>
      push_pull_xla grad scope None compression None false idx) grads ;;
  ' (avg_grads, grad_names) <- zip_star2 new_grads_names ;;
  let new_grad_names :=
    repeat "throwaway_dummy"%string (List.length grads) ++ grad_names in
  let tmp_avg_grads :=
    sync_grads_one_shot (tensors_of grads ++ avg_grads) new_grad_names in
  last <- last_item tmp_avg_grads ;;
  let tmp_tensor := tf_reshape_flat last in
  let avg_grads := removelast tmp_avg_grads in
  pred <- marker_gt tmp_tensor ;;
  Ok (tf_cond pred
        (fun _ => map (fun aa => tf_add_one (tf_identity aa)) avg_grads)
        (fun _ => map (fun aa => tf_identity aa) avg_grads)).

(** The first loop of the wrapper: [item.dtype] of [None] raises. *)
Fixpoint cast_half_to_single (grads : list (option Tensor))
  : Result (list bool * list (option Tensor)) :=
  match grads with
  | [] => Ok ([], [])
  | None :: _ => Raise AttributeError
  | Some item :: grads' =>
      ' (record, new_grads) <- cast_half_to_single grads' ;;
      if DType_eqb (dtype item) float16
      then Ok (true :: record, Some (tf_dtypes_cast item float32) :: new_grads)
      else Ok (false :: record, Some item :: new_grads)
  end.

(** The second loop of the wrapper, over [zip(record, new_grads)]. *)
Definition cast_back_to_half (record : list bool) (new_grads : list Tensor)
  : list Tensor :=
  zip_with (fun (a : bool) b => if a then tf_dtypes_cast b float16 else b)
           record new_grads.

Definition push_pull_all_grads_sync_one_shot_xla_wrapper
    (grads : list (option Tensor)) (compression : Compression)
    (sparse_as_dense : bool) : Result (list Tensor) :=
  ' (record, new_grads) <- cast_half_to_single grads ;;
  new_grads <- push_pull_all_grads_sync_one_shot_xla new_grads compression
                 sparse_as_dense ;;
  Ok (cast_back_to_half record new_grads).

Definition push_pull_all_grads_handle_xla (grads : list (option Tensor))
    (compression : Compression) (sparse_as_dense : bool)
  : Result (list Tensor) :=
  let scope := tf_name_scope "xxxxDistributedGradientTape_Push_Pull" in
  let grads := if sparse_as_dense then densify grads else grads in
  new_grads_names_and_handles <-
    for_each_grad (fun grad idx =>
      push_pull_xla_handle_out grad scope None compression None false idx)
      grads ;;
  ' (avg_grads, grad_names, handles) <- zip_star3 new_grads_names_and_handles ;;
  let barrier_handle := _my_barrier_handle_out O handles in
  let new_handles_grads :=
    map (fun '(tensor, item) =>
           _sync_tensors_handle_out O barrier_handle tensor item)
        (combine avg_grads grad_names) in
  sequence (map (fun '(item, aa) =>
                   pred <- marker_gt item ;;
                   Ok (tf_cond pred (fun _ => tf_identity aa)
                                    (fun _ => tf_identity aa)))
                new_handles_grads).

(** The [print(item)] loop only logs; [if False and sparse_as_dense] never
    converts. *)
Definition push_pull_all_grads_handle_xla_v2 (grads : list (option Tensor))
    (compression : Compression) (sparse_as_dense : bool)
  : Result (list Tensor) :=
  let scope := tf_name_scope "zzzzhhahHaDistributedGradientTape_Push_Pull" in
  let grads := if false && sparse_as_dense then densify grads else grads in
  new_grads_names_and_handles <-
    for_each_grad (fun grad idx =>
      push_pull_xla_handle_out_v2 grad scope None compression None false idx)
      grads ;;
  ' (avg_grads, grad_names, handles) <- zip_star3 new_grads_names_and_handles ;;
  let barrier_handle := _my_barrier_handle_out O handles in
  Ok (map (fun '(idx, (tensor, item)) =>
             _sync_tensors_handle_out_v2 O tensor barrier_handle item idx)
          (enumerate 1 (combine avg_grads grad_names))).

(** ** The environment *)

(** [os.environ] *)
Definition Environ : Type := string -> option string.

(** [enable_xla = os.environ.get('BYTEPS_ENABLE_XLA', '0')] and the test
    [enable_xla == '1']. *)
Definition enable_xla (env : Environ) : bool :=
  match env "BYTEPS_ENABLE_XLA"%string with
  | Some v => String.eqb v "1"
  | None => false
  end.

(** ** [_DistributedOptimizer] *)

Inductive OptimizerClass : Type :=
| LegacyOptimizer      (* isinstance(optimizer, _LegacyOptimizer) *)
| KerasOptimizer       (* isinstance(optimizer, tf.keras.optimizers.Optimizer) *)
| OtherObject.

(** The wrapped optimizer: its class, [type(optimizer).__name__], its
    printed form, what its [compute_gradients] returns (pairs of gradient
    and variable) and the values its [apply_gradients] leaves in the
    variables. *)
Record Optimizer : Type := {
  optimizer_class : OptimizerClass;
  type_name : string;
  printed : string;
  opt_compute_gradients : list (option Tensor * Tensor);
  opt_apply_gradients : list (option Tensor * Tensor) -> list Tensor
}.

Record _DistributedOptimizer : Type := {
  _name : string;
  _use_locking : bool;
  _optimizer : Optimizer;
  _compression : Compression;
  _sparse_as_dense : bool;
  _enable_async : bool
}.

(** [_DistributedOptimizer.__init__]; the argument [op] is not stored. *)
Definition _DistributedOptimizer_init (env : Environ) (optimizer : Optimizer)
    (name : option string) (use_locking : bool) (compression : Compression)
    (sparse_as_dense : bool) (op : string) : Result _DistributedOptimizer :=
  let name :=
    match name with
    | None => String.append "Distributed" (type_name optimizer)
    | Some n => n
    end in
  flag <- match env "BYTEPS_ENABLE_ASYNC"%string with
          | Some v => py_int v
          | None => Ok 0
          end ;;
  let enable_async := negb (flag =? 0) in
  _ <- (if enable_async then
          workers <- match env "DMLC_NUM_WORKER"%string with
                     | Some v => py_int v
                     | None => Raise TypeError
                     end ;;
          if workers >? 1 then Ok tt
          else Raise (AssertionError "Async is only valid for distributed training")
        else Ok tt) ;;
  Ok {| _name := name;
        _use_locking := use_locking;
        _optimizer := optimizer;
        _compression := compression;
        _sparse_as_dense := sparse_as_dense;
        _enable_async := enable_async |}.

(** The closure [push_pull_grads] built in [__init__] ([self._push_pull_grads];
    [tf.contrib.eager.defun] compiles it without changing what it computes). *)
Definition push_pull_grads (self : _DistributedOptimizer)
    (grads : list (option Tensor)) : Result (list (option Tensor)) :=
  let scope := tf_name_scope (String.append (_name self) "_Push_Pull") in
  let grads := if _sparse_as_dense self then densify grads else grads in
  sequence (map (fun grad =>
                   match grad with
                   | Some g =>
                       r <- push_pull g scope None (_compression self) None
                              (_enable_async self) ;;
                       Ok (Some r)
                   | None => Ok None
                   end) grads).

(** [a, b = zip( *pairs)]: without pairs there is nothing to unpack. *)
Definition unpack_pairs {A B : Type} (pairs : list (A * B))
  : Result (list A * list B) :=
  match pairs with
  | [] => Raise (ValueError "not enough values to unpack (expected 2, got 0)")
  | _ :: _ => Ok (map fst pairs, map snd pairs)
  end.

Definition compute_gradients (self : _DistributedOptimizer)
  : Result (list (option Tensor * Tensor)) :=
  let gradients := opt_compute_gradients (_optimizer self) in
  if (size O >? 1) && negb (_enable_async self) then
    ' (grads, vars) <- unpack_pairs gradients ;;
    avg_grads <- push_pull_grads self grads ;;
    Ok (combine avg_grads vars)
  else Ok gradients.

(** [apply_gradients], called with the pairs as first positional argument.
    The result is the list of values the variables hold once the returned op
    has run.  In the async branch [old_tensors[i]] becomes, for every index
    of [vars], the value of the variable after the wrapped optimizer's
    update (that of a variable the wrapped optimizer reports nothing for is
    the variable itself) minus the value read before; [tf.assign] is used
    unguarded, and a TensorFlow without it raises [AttributeError] at the
    first assignment. *)
Definition apply_gradients (self : _DistributedOptimizer)
    (grads_and_vars : list (option Tensor * Tensor)) : Result (list Tensor) :=
  if _enable_async self then
    ' (_, vars) <- unpack_pairs grads_and_vars ;;
    let old_tensors := map tf_convert_to_tensor vars in
    let applied := opt_apply_gradients (_optimizer self) grads_and_vars in
    let old_tensors :=
      map (fun '(i, (var, old)) =>
             tf_subtract (nth (Z.to_nat i) applied var) old)
          (enumerate 0 (combine vars old_tensors)) in
    updated_tensors <- push_pull_grads self (map Some old_tensors) ;;
    match updated_tensors with
    | [] => Ok []
    | _ :: _ =>
        if tf_has_assign then Ok (tensors_of updated_tensors)
        else Raise AttributeError
    end
  else Ok (opt_apply_gradients (_optimizer self) grads_and_vars).

(** ** [DistributedOptimizer] *)

(** What [byteps.tensorflow.keras.DistributedOptimizer] returns is outside
    the file. *)
Variable KerasDistributed : Type.
Variable bps_k_DistributedOptimizer :
  Optimizer -> option string -> Compression -> bool -> Result KerasDistributed.

Inductive Distributed : Type :=
| DistributedLegacy (d : _DistributedOptimizer)
| DistributedKeras (k : KerasDistributed).

Definition DistributedOptimizer (env : Environ) (optimizer : Optimizer)
    (name : option string) (use_locking : bool) (compression : Compression)
    (sparse_as_dense : bool) (backward_passes_per_step : Z) (op : string)
  : Result Distributed :=
  match optimizer_class optimizer with
  | LegacyOptimizer =>
      if String.eqb op Adasum then
        Raise (ValueError "op == Adasum is not supported yet with ")
      else
        if backward_passes_per_step >? 1 then
          Raise (ValueError
            "backward_passes_per_step>1 is not supported yet with op != Adasum")
        else
          d <- _DistributedOptimizer_init env optimizer name use_locking
                 compression sparse_as_dense op ;;
          Ok (DistributedLegacy d)
  | KerasOptimizer =>
      if String.eqb op Adasum then
        Raise (ValueError "op == Adasum is not supported yet with Keras")
      else if backward_passes_per_step >? 1 then
        Raise (ValueError
          "backward_passes_per_step > 1 is not supported yet with Keras")
      else
        k <- bps_k_DistributedOptimizer optimizer name compression
               sparse_as_dense ;;
        Ok (DistributedKeras k)
  | OtherObject =>
      Raise (ValueError (String.append
        "Provided optimizer doesn't inherit from either legacy TensorFlow or Keras optimizer: "
        (printed optimizer)))
  end.

(** ** [_DistributedGradientTape] *)

(** The tape: what the wrapped [tf.GradientTape.gradient] returns, and the
    attributes [__init__] stores ([op] is not among them). *)
Record _DistributedGradientTape : Type := {
  tape_gradient : list (option Tensor);
  tape_name : string;
  tape_compression : Compression;
  tape_sparse_as_dense : bool;
  tape_enable_xla : bool
}.

Definition _DistributedGradientTape_init (env : Environ)
    (tape : list (option Tensor)) (compression : Compression)
    (sparse_as_dense : bool) (op : string) : _DistributedGradientTape :=
  {| tape_gradient := tape;
     tape_name := "Distributed";
     tape_compression := compression;
     tape_sparse_as_dense := sparse_as_dense;
     tape_enable_xla := enable_xla env |}.

Definition tape_push_pull_grads (self : _DistributedGradientTape)
    (grads : list (option Tensor)) : Result (list (option Tensor)) :=
  let scope := tf_name_scope (String.append (tape_name self) "_Push_Pull") in
  let grads := if tape_sparse_as_dense self then densify grads else grads in
  sequence (map (fun grad =>
                   match grad with
                   | Some g =>
                       r <- push_pull g scope None (tape_compression self) None
                              false ;;
                       Ok (Some r)
                   | None => Ok None
                   end) grads).

Definition tape_push_pull_grads_xla (self : _DistributedGradientTape)
    (grads : list (option Tensor)) : Result (list Tensor) :=
  let scope := tf_name_scope (String.append (tape_name self) "_Push_Pull") in
  let grads := if tape_sparse_as_dense self then densify grads else grads in
  new_grads_names <-
    for_each_grad (fun grad idx =>
      push_pull_xla grad scope None (tape_compression self) None false idx)
      grads ;;
  ' (avg_grads, grad_names) <- zip_star2 new_grads_names ;;
  let new_grad_names :=
    repeat "throwaway_dummy"%string (List.length grads) ++ grad_names in
  let tmp_avg_grads :=
    sync_grads_one_shot (tensors_of grads ++ avg_grads) new_grad_names in
  last <- last_item tmp_avg_grads ;;
  let tmp_tensor := tf_reshape_flat last in
  pred <- marker_gt tmp_tensor ;;
  Ok (tf_cond pred
        (fun _ => map (fun aa => tf_add_one (tf_identity aa)) avg_grads)
        (fun _ => map (fun aa => tf_identity aa) avg_grads)).

Definition tape_push_pull_grads_xla_wrapper (self : _DistributedGradientTape)
    (grads : list (option Tensor)) : Result (list Tensor) :=
  ' (record, new_grads) <- cast_half_to_single grads ;;
  new_grads <- tape_push_pull_grads_xla self new_grads ;;
  Ok (cast_back_to_half record new_grads).

Definition tape__push_pull_grads (self : _DistributedGradientTape)
    (grads : list (option Tensor)) : Result (list (option Tensor)) :=
  if tape_enable_xla self then
    r <- tape_push_pull_grads_xla_wrapper self grads ;; Ok (map Some r)
  else tape_push_pull_grads self grads.

Definition gradient (self : _DistributedGradientTape)
  : Result (list (option Tensor)) :=
  let gradients := tape_gradient self in
  if size O >? 1 then
    avg_grads <- tape__push_pull_grads self gradients ;;
    Ok avg_grads
  else Ok gradients.

(** ** [broadcast_variables = broadcast_variables_regular]

    [None] is the bare [return]: no op is built.  Otherwise the result is
    the group of assignments, each a variable with the value assigned. *)
Definition broadcast_variables_regular (variables : list Tensor)
    (root_rank : Z) (scope : string) : option (list (Tensor * Tensor)) :=
  if size O <=? 1 then None
  else Some (map (fun var => (var, broadcast O var root_rank scope)) variables).

Definition broadcast_variables := broadcast_variables_regular.

(** ** The engine's contract, and vocabulary for the statements *)

(** Elementwise sum of two tensors of one shape. *)
Definition tf_add (x y : Tensor) : Tensor :=
  with_values x (zip_with (eadd (dtype x)) (values x) (values y)).

(** Modelled from the spec: the push-pull of the native engine
    ([_push_pull] of [byteps.tensorflow.ops], not in the file).  The spec's
    glossary: every participant contributes a tensor, all receive the
    summed result.  [t] is the local contribution, [others] the tensors
    the other ranks contribute under the same name. *)
Definition all_reduce_sum (t : Tensor) (others : list Tensor) : Tensor :=
  fold_left tf_add others t.

(** The sum of the elements the ranks hold at one position. *)
Definition sum_over_ranks (d : DType) (local : elem) (remote : list elem) : elem :=
  fold_left (eadd d) remote local.

(** The post-processing step shared by the push-pull variants, the
    division of the reduced tensor by [size()] converted to the element type
    of [tensor]: [divided] is the call of [_div], [averaged] what it
    returns when it returns. *)
Definition divided (tensor summed : Tensor) : Result Tensor :=
  _div summed (tf_cast_int (size O) (dtype tensor)).

Definition averaged (tensor summed : Tensor) : Tensor :=
  quotient summed (tf_cast_int (size O) (dtype tensor)).

(** The whole of the post-processing for operator [o] and the async flag:
    divide exactly when the operator is [Average] and async is off. *)
Definition post_process (o : string) (async : bool) (tensor x : Tensor)
  : Result Tensor :=
  if String.eqb o Average && negb async then divided tensor x else Ok x.

(** What [push_pull] holds before post-processing: the engine's result for
    the compressed tensor, decompressed with the context of [compress]. *)
Definition transferred (c : Compression) (tensor : Tensor) (scope : string)
  : Tensor :=
  decompress c (_push_pull O (fst (compress c tensor)) scope)
             (snd (compress c tensor)).

(** The marker correction of the XLA paths. *)
Definition corrected (m0 m1 : elem) (x : Tensor) : Tensor :=
  if egtb m0 m1 then tf_add_one x else x.

(** A handle tensor whose two completion markers can be read. *)
Definition readable_markers (h : Tensor) (m0 m1 : elem) : Prop :=
  exists rest, values h = m0 :: m1 :: rest.

(** A batch of tensors after the conversion of its sparse gradients, where
    the conversion is asked for. *)
Definition densified (sparse : bool) (ts : list Tensor) : list Tensor :=
  if sparse
  then map (fun g => if indexed_slices g then tf_convert_to_tensor g else g) ts
  else ts.

End Glue.

Arguments Tensor elem : clear implicits.
Arguments Ops elem : clear implicits.
Arguments Compression elem : clear implicits.
Arguments Optimizer elem : clear implicits.
Arguments _DistributedOptimizer elem : clear implicits.
Arguments _DistributedGradientTape elem : clear implicits.

(** ** A concrete world, for evaluation

    Python's [int], two platforms, and an engine for a group of [n] ranks in
    which every rank contributes the same tensor; the per-tensor handles
    carry the markers [m0], [m1], the barrier and the bulk sync carry [s0],
    [s1]. *)
Module Demo.

(** *** Python's [int] on a string

    Characters are taken as code points below 256.  [int] strips the
    surrounding white space, reads an optional sign, then decimal digits in
    which single underscores may separate digits; anything else raises
    [ValueError] with the literal's [repr] in the message, as in the
    Pythons that put no limit on the number of digits (before 3.11). *)

Definition is_space (c : ascii) : bool :=
  let n := nat_of_ascii c in
  (Nat.leb 9 n && Nat.leb n 13) || (Nat.leb 28 n && Nat.leb n 32)
  || Nat.eqb n 133 || Nat.eqb n 160.

Fixpoint lstrip (s : string) : string :=
  match s with
  | String c s' => if is_space c then lstrip s' else s
  | EmptyString => EmptyString
  end.

Fixpoint rev_string (acc s : string) : string :=
  match s with
  | EmptyString => acc
  | String c s' => rev_string (String c acc) s'
  end.

Definition strip (s : string) : string :=
  rev_string EmptyString (lstrip (rev_string EmptyString (lstrip s))).

Definition digit_of (c : ascii) : option Z :=
  let n := nat_of_ascii c in
  if Nat.leb 48 n && Nat.leb n 57 then Some (Z.of_nat (n - 48)) else None.

(** The digits after the first one: [after_digit] is whether the previous
    character was a digit (and not an underscore). *)
Fixpoint digits_value (acc : Z) (after_digit : bool) (s : string)
  : option Z :=
  match s with
  | EmptyString => if after_digit then Some acc else None
  | String c s' =>
      match digit_of c with
      | Some d => digits_value (10 * acc + d) true s'
      | None =>
          if Ascii.eqb c "_" && after_digit then digits_value acc false s'
          else None
      end
  end.

Definition unsigned_value (s : string) : option Z :=
  match s with
  | EmptyString => None
  | String c _ =>
      match digit_of c with
      | Some _ => digits_value 0 false s
      | None => None
      end
  end.

Definition hex_digit (n : nat) : ascii :=
  ascii_of_nat (if Nat.ltb n 10 then 48 + n else 87 + n).

Definition is_printable (c : ascii) : bool :=
  let n := nat_of_ascii c in
  (Nat.leb 32 n && Nat.leb n 126) || (Nat.leb 161 n && negb (Nat.eqb n 173)).

Definition single_quote : ascii := ascii_of_nat 39.
Definition double_quote : ascii := ascii_of_nat 34.
Definition backslash : ascii := ascii_of_nat 92.

Fixpoint contains (q : ascii) (s : string) : bool :=
  match s with
  | EmptyString => false
  | String c s' => Ascii.eqb c q || contains q s'
  end.

Fixpoint escaped (q : ascii) (s : string) : string :=
  match s with
  | EmptyString => EmptyString
  | String c s' =>
      let n := nat_of_ascii c in
      (if Ascii.eqb c backslash || Ascii.eqb c q then
         String backslash (String c EmptyString)
       else if Nat.eqb n 9 then String backslash "t"
       else if Nat.eqb n 10 then String backslash "n"
       else if Nat.eqb n 13 then String backslash "r"
       else if is_printable c then String c EmptyString
       else
         String backslash
           (String "x"
              (String (hex_digit (n / 16))
                 (String (hex_digit (n mod 16)) EmptyString))))
      ++ escaped q s'
  end.

(** [repr(s)]: single quotes, unless the string has a single quote and no
    double quote. *)
Definition repr (s : string) : string :=
  let q :=
    if contains single_quote s && negb (contains double_quote s)
    then double_quote else single_quote in
  String q (escaped q s ++ String q EmptyString).

Definition int (s : string) : Result Z :=
  let bad :=
    Raise (ValueError ("invalid literal for int() with base 10: " ++ repr s)) in
  match strip s with
  | String "-" s' =>
      match unsigned_value s' with Some n => Ok (- n) | None => bad end
  | String "+" s' =>
      match unsigned_value s' with Some n => Ok n | None => bad end
  | s' => match unsigned_value s' with Some n => Ok n | None => bad end
  end.

(** *** Two platforms

    Exact rational arithmetic for every element type: the quotient of an
    integer type is floored, a conversion to an integer type truncates.
    [Q_elem] is a TensorFlow with [tf.div] and [tf.assign], [Q_tf2] one with
    neither. *)

Definition Q_div (d : DType) (x y : Q) : Q :=
  if is_floating d then Qdiv x y else inject_Z (Qfloor (Qdiv x y)).

Definition Q_cast (a b : DType) (x : Q) : Q :=
  if is_floating b then x else inject_Z (Z.quot (Qnum x) (Zpos (Qden x))).

#[global] Instance Q_elem : Platform Q :=
  {| eadd := fun _ => Qplus;
     ediv := Q_div;
     eofZ := fun _ => inject_Z;
     esub := fun _ => Qminus;
     ecast := Q_cast;
     egtb := fun a b => negb (Qle_bool a b);
     tf_has_div := true;
     tf_has_assign := true;
     py_int := int |}.

Definition Q_tf2 : Platform Q :=
  {| eadd := fun _ => Qplus;
     ediv := Q_div;
     eofZ := fun _ => inject_Z;
     esub := fun _ => Qminus;
     ecast := Q_cast;
     egtb := fun a b => negb (Qle_bool a b);
     tf_has_div := false;
     tf_has_assign := false;
     py_int := int |}.

(** What the push-pull docstrings say of [op] and [average]: [op] wins,
    [average] chooses between [Average] and [Sum], and [Average] is the
    default. *)
Definition compat (op : option string) (average : option bool)
  : Result string :=
  match op, average with
  | Some o, None => Ok o
  | Some _, Some _ =>
      Raise (ValueError "The op parameter supersedes average.")
  | None, Some a => Ok (if a then Average else Sum)
  | None, None => Ok Average
  end.

Definition markers (m0 m1 : Q) : Tensor Q :=
  mkTensor "handle" int32 false [m0; m1].

Definition world (n : nat) (m0 m1 s0 s1 : Q) : Ops Q :=
  {| size := Z.of_nat n;
     rank := 0;
     handle_average_backwards_compatibility := compat;
     _push_pull := fun t _ => all_reduce_sum t (repeat t (n - 1));
     _push_pull_xla := fun t _ _ =>
       (all_reduce_sum t (repeat t (n - 1)), markers m0 m1);
     _push_pull_xla_v2 := fun t _ _ =>
       (all_reduce_sum t (repeat t (n - 1)), markers m0 m1);
     _push_pull_kickoff_xla := fun t _ _ => (t, name t);
     _sync_all_tensors := fun ts _ =>
       skipn (Nat.div2 (List.length ts)) ts ++ [markers s0 s1];
     _my_barrier_handle_out := fun _ => markers s0 s1;
     _sync_tensors_handle_out := fun _ t _ => (markers s0 s1, t);
     _sync_tensors_handle_out_v2 := fun t _ _ _ => t;
     _sync_tensor_tf_op := fun t _ => t;
     broadcast := fun t _ _ => t |}.

(** A half-precision strategy: cast to [float16] for the wire, keep the
    original element type as context, cast back on the way out. *)
Definition Compression_fp16 : Compression Q :=
  {| ctx := DType;
     compress := fun t => (tf_dtypes_cast t float16, dtype t);
     decompress := fun t d => tf_dtypes_cast t d |}.

Definition vec (nm : string) (d : DType) (vs : list Q) : Tensor Q :=
  mkTensor nm d false vs.

Definition sgd : Optimizer Q :=
  {| optimizer_class := LegacyOptimizer;
     type_name := "GradientDescentOptimizer";
     printed := "<GradientDescentOptimizer>";
     opt_compute_gradients :=
       [(Some (vec "g" float32 [4%Q; 6%Q]), vec "w" float32 [1%Q; 1%Q])];
     opt_apply_gradients := fun gv => map snd gv |}.

Definition environ (async workers : option string) : Environ :=
  fun key =>
    if String.eqb key "BYTEPS_ENABLE_ASYNC" then async
    else if String.eqb key "DMLC_NUM_WORKER" then workers
    else None.

End Demo.

(** * The rest of the module *)

(** Exceptions the functions below raise besides those of [Exn]. *)
Inductive PyRaise : Type :=
| NameError (name : string)
| RuntimeError (msg : string)
| Builtin (e : Exn).

Inductive Outcome (A : Type) : Type :=
| Returned (a : A)
| Raised (e : PyRaise).

Arguments Returned {A} a.
Arguments Raised {A} e.

Definition outcome_of {A : Type} (r : Result A) : Outcome A :=
  match r with
  | Ok a => Returned a
  | Raise e => Raised (Builtin e)
  end.

Section Rest.

Context {elem : Type} {E : Platform elem}.
Variable O : Ops elem.

(** Two more entry points of [byteps.tensorflow.ops], used by the broadcast
    variants only. *)
Variable broadcast_xla : Tensor elem -> Z -> string -> Tensor elem * string.
Variable broadcast_xla_blocking : Tensor elem -> Z -> string -> Tensor elem.

(** ** The remaining batch functions *)

(** The second comprehension unpacks every row ([for tensor, name in ...]):
    a [None] row cannot be unpacked and raises [TypeError], which is what
    [iter_rows] does. *)
Definition push_pull_all_grads_half_xla_half_tf
    (grads : list (option (Tensor elem))) (compression : Compression elem)
    (sparse_as_dense : bool) : Result (list (Tensor elem)) :=
  let scope := tf_name_scope "yyyyDistributedGradientTape_Push_Pull" in
  let grads := if sparse_as_dense then densify grads else grads in
  grads_and_names <-
    for_each_grad (fun grad idx =>
      push_pull_kickoff O grad scope None compression None false idx) grads ;;
  rows <- iter_rows grads_and_names ;;
  Ok (map (fun '(tensor, name) => _sync_tensor_tf_op O tensor name) rows).

(** [[hvd.push_pull(grad, ...) if grad is not None else grad
      for grad in grads]]: no name [hvd] is bound in the module, so the
    first gradient that is not [None] raises [NameError]. *)
Fixpoint hvd_push_pull_each (grads : list (option (Tensor elem)))
  : Outcome (list (option (Tensor elem))) :=
  match grads with
  | [] => Returned []
  | None :: grads' =>
      match hvd_push_pull_each grads' with
      | Returned r => Returned (None :: r)
      | Raised e => Raised e
      end
  | Some _ :: _ => Raised (NameError "hvd")
  end.

Definition push_pull_all_grads_all_tf_ops
    (grads : list (option (Tensor elem))) (compression : Compression elem)
    (sparse_as_dense : bool) : Outcome (list (option (Tensor elem))) :=
  let grads := if sparse_as_dense then densify grads else grads in
  hvd_push_pull_each grads.

Definition push_pull_all_grads_dummy (grads : list (option (Tensor elem)))
    (compression : Compression elem) (sparse_as_dense : bool)
  : Result (list (Tensor elem)) :=
  let scope := tf_name_scope "zzzzDistributedGradientTape_Push_Pull" in
  let grads := if sparse_as_dense then densify grads else grads in
  new_grads_names_and_handles <-
    for_each_grad (fun grad idx =>
      push_pull_xla_handle_out_v2 O grad scope None compression None false idx)
      grads ;;
  ' (avg_grads, grad_names, handles) <- zip_star3 new_grads_names_and_handles ;;
  let barrier_handle := _my_barrier_handle_out O handles in
  Ok (map (fun '(idx, (tensor, item)) =>
             _sync_tensors_handle_out_v2 O tensor barrier_handle item idx)
          (enumerate 1 (combine avg_grads grad_names))).

(** The module-level choice:
    [push_pull_all_grads = push_pull_all_grads_handle_xla_v2] when
    [enable_xla == '1'], [push_pull_all_grads_all_tf_ops] otherwise. *)
Definition push_pull_all_grads (env : Environ)
    (grads : list (option (Tensor elem))) (compression : Compression elem)
    (sparse_as_dense : bool) : Outcome (list (option (Tensor elem))) :=
  if enable_xla env then
    outcome_of (r <- push_pull_all_grads_handle_xla_v2 O grads compression
                       sparse_as_dense ;;
                Ok (map Some r))
  else push_pull_all_grads_all_tf_ops grads compression sparse_as_dense.

(** ** The broadcast variants *)

(** [broadcast_global_variables]; [_executing_eagerly()] and what
    [_global_variables()] returns are arguments. *)
Definition broadcast_global_variables (executing_eagerly : bool)
    (global_variables : list (Tensor elem)) (root_rank : Z)
  : Outcome (option (list (Tensor elem * Tensor elem))) :=
  if executing_eagerly then
    Raised (RuntimeError
      "bps.broadcast_global_variables() does not support eager execution. Please use `bps.broadcast_variables(<model/optimizer variables>)` instead.")
  else Returned (broadcast_variables O global_variables root_rank "").

Definition broadcast_variables_xla (variables : list (Tensor elem))
    (root_rank : Z) (scope : string)
  : Result (option (list (Tensor elem * Tensor elem))) :=
  if size O <=? 1 then Ok None
  else
    let new_tensors_names :=
      map (fun var => broadcast_xla var root_rank scope) variables in
    ' (new_tensors, new_tensor_names) <-
      zip_star2 (map Some new_tensors_names) ;;
    let new_tensor_names :=
      repeat "throwaway_dummy"%string (List.length variables)
      ++ new_tensor_names in
    let tmp_tensors :=
      _sync_all_tensors O (variables ++ new_tensors) new_tensor_names in
    last <- last_item tmp_tensors ;;
    let handle := tf_reshape_flat last in
    pred <- marker_gt handle ;;
    let new_tensors :=
      tf_cond pred
        (fun _ => map (fun aa => tf_add_one (tf_identity aa)) new_tensors)
        (fun _ => map (fun aa => tf_identity aa) new_tensors) in
    Ok (Some (combine variables new_tensors)).

(** The size test is commented out in the source. *)
Definition broadcast_variables_xla_blocking (variables : list (Tensor elem))
    (root_rank : Z) (scope : string) : list (Tensor elem * Tensor elem) :=
  map (fun var => (var, broadcast_xla_blocking var root_rank scope)) variables.

(** [return variables]; the statements after it are never reached. *)
Definition broadcast_variables_v1 (variables : list (Tensor elem))
    (root_rank : Z) (scope : string) : list (Tensor elem) :=
  variables.

(** ** [BroadcastGlobalVariablesHook] *)

(** The op [tf.group] returns: the graph it was built in and its
    assignments. *)
Record GroupOp : Type := {
  op_graph : Z;
  op_assignments : list (Tensor elem * Tensor elem)
}.

Record BroadcastGlobalVariablesHook : Type := {
  hook_root_rank : Z;
  hook_bcast_op : option GroupOp;
  hook_device : string
}.

Definition BroadcastGlobalVariablesHook_init (root_rank : Z) (device : string)
  : BroadcastGlobalVariablesHook :=
  {| hook_root_rank := root_rank;
     hook_bcast_op := None;
     hook_device := device |}.

(** [begin]; the default graph (in which a new op is built) and the state
    [broadcast_global_variables] reads are arguments.  [not self.bcast_op]
    holds for [None]. *)
Definition hook_begin (self : BroadcastGlobalVariablesHook)
    (executing_eagerly : bool) (default_graph : Z)
    (global_variables : list (Tensor elem))
  : Outcome BroadcastGlobalVariablesHook :=
  let rebuild :=
    match hook_bcast_op self with
    | None => true
    | Some op => negb (op_graph op =? default_graph)
    end in
  if rebuild then
    match broadcast_global_variables executing_eagerly global_variables
            (hook_root_rank self) with
    | Returned built =>
        Returned
          {| hook_root_rank := hook_root_rank self;
             hook_bcast_op :=
               option_map (fun assignments =>
                             {| op_graph := default_graph;
                                op_assignments := assignments |}) built;
             hook_device := hook_device self |}
    | Raised e => Raised e
    end
  else Returned self.

(** [after_create_session]: what is handed to [session.run]. *)
Definition hook_after_create_session (self : BroadcastGlobalVariablesHook)
  : option GroupOp :=
  hook_bcast_op self.

End Rest.

Arguments GroupOp elem : clear implicits.
Arguments BroadcastGlobalVariablesHook elem : clear implicits.

(** ** More of the concrete world *)
Module DemoRest.

(** A wrapped optimizer with the given pairs, whose [apply_gradients]
    subtracts each gradient from its variable. *)
Definition descent (pairs : list (option (Tensor Q) * Tensor Q)) : Optimizer Q :=
  {| optimizer_class := LegacyOptimizer;
     type_name := "GradientDescentOptimizer";
     printed := "<GradientDescentOptimizer>";
     opt_compute_gradients := pairs;
     opt_apply_gradients := fun gv =>
       map (fun p => match fst p with
                     | Some g => tf_subtract (snd p) g
                     | None => snd p
                     end) gv |}.

Definition wrapped (optimizer : Optimizer Q) (async : bool)
  : _DistributedOptimizer Q :=
  {| _name := "DistributedGradientDescentOptimizer";
     _use_locking := false;
     _optimizer := optimizer;
     _compression := Compression_none;
     _sparse_as_dense := false;
     _enable_async := async |}.

Definition tape (grads : list (option (Tensor Q))) (xla : bool)
  : _DistributedGradientTape Q :=
  {| tape_gradient := grads;
     tape_name := "Distributed";
     tape_compression := Compression_none;
     tape_sparse_as_dense := false;
     tape_enable_xla := xla |}.

Definition broadcast_xla (t : Tensor Q) (root_rank : Z) (scope : string)
  : Tensor Q * string :=
  (t, name t).

Definition g : Tensor Q := Demo.vec "g" float32 [4%Q; 6%Q].
Definition w : Tensor Q := Demo.vec "w" float32 [1%Q; 1%Q].
Definition b : Tensor Q := Demo.vec "b" float32 [0%Q].

End DemoRest.

(** * Properties *)

(** ** Lists, results and tensors *)

Lemma DType_eqb_eq (a b : DType) : DType_eqb a b = true <-> a = b.
Proof. destruct a, b; simpl; split; intro H; congruence. Qed.

Lemma zip_with_length {A B C : Type} (f : A -> B -> C) (xs : list A) :
  forall ys, List.length ys = List.length xs ->
             List.length (zip_with f xs ys) = List.length xs.
Proof.
  induction xs as [|x xs IH]; intros [|y ys] Hlen; simpl in *; try congruence.
  f_equal. apply IH. congruence.
Qed.

Lemma zip_with_nth {A B C : Type} (f : A -> B -> C) (da : A) (db : B) (dc : C) :
  forall xs ys i,
    (i < List.length xs)%nat -> List.length ys = List.length xs ->
    nth i (zip_with f xs ys) dc = f (nth i xs da) (nth i ys db).
Proof.
  induction xs as [|x xs IH]; intros [|y ys] i Hi Hlen; simpl in *;
    try lia; try congruence.
  destruct i as [|i]; [reflexivity|]. apply IH; [lia | congruence].
Qed.

Lemma sequence_map_Ok {A B : Type} (f : A -> B) (l : list A) :
  sequence (map (fun x => Ok (f x)) l) = Ok (map f l).
Proof.
  induction l as [|x l IH]; simpl; [reflexivity|]. now rewrite IH.
Qed.

Lemma iter_rows_Some {A : Type} (l : list A) : iter_rows (map Some l) = Ok l.
Proof.
  induction l as [|x l IH]; simpl; [reflexivity|]. now rewrite IH.
Qed.

Lemma enumerate_length {A : Type} (l : list A) :
  forall start, List.length (enumerate start l) = List.length l.
Proof. induction l as [|x l IH]; intro start; simpl; [|rewrite IH]; reflexivity. Qed.

Lemma enumerate_nth_error {A : Type} (l : list A) :
  forall start i x,
    nth_error l i = Some x ->
    nth_error (enumerate start l) i = Some (start + Z.of_nat i, x).
Proof.
  induction l as [|y l IH]; intros start [|i] x H; simpl in *; try discriminate.
  - injection H as ->. now rewrite Z.add_0_r.
  - rewrite (IH (start + 1) i x H). do 2 f_equal. lia.
Qed.

Section TensorFacts.

Context {elem : Type} {E : Platform elem}.

Lemma with_values_same (t : Tensor elem) : with_values t (values t) = t.
Proof. now destruct t. Qed.

Lemma all_reduce_sum_dtype (others : list (Tensor elem)) :
  forall t, dtype (all_reduce_sum t others) = dtype t.
Proof.
  induction others as [|o os IH]; intro t; simpl; [reflexivity|].
  unfold all_reduce_sum in *. simpl. now rewrite IH.
Qed.

Lemma all_reduce_sum_length (others : list (Tensor elem)) :
  forall t,
    Forall (fun o => List.length (values o) = List.length (values t)) others ->
    List.length (values (all_reduce_sum t others)) = List.length (values t).
Proof.
  induction others as [|o os IH]; intros t H; [reflexivity|].
  inversion H as [|? ? Ho Hos]; subst.
  unfold all_reduce_sum in *. simpl fold_left.
  assert (Hadd : List.length (values (tf_add t o)) = List.length (values t))
    by (simpl; now apply zip_with_length).
  rewrite IH; [exact Hadd|].
  rewrite Hadd. exact Hos.
Qed.

(** The engine's sum is elementwise: position [i] of the result is the sum
    of what the ranks hold at position [i]. *)
Lemma all_reduce_sum_nth (d : elem) (others : list (Tensor elem)) :
  forall t i,
    (i < List.length (values t))%nat ->
    Forall (fun o => List.length (values o) = List.length (values t)) others ->
    nth i (values (all_reduce_sum t others)) d =
    sum_over_ranks (dtype t) (nth i (values t) d)
                   (map (fun o => nth i (values o) d) others).
Proof.
  induction others as [|o os IH]; intros t i Hi H; [reflexivity|].
  inversion H as [|? ? Ho Hos]; subst.
  unfold all_reduce_sum, sum_over_ranks in *. simpl fold_left.
  assert (Hadd : List.length (values (tf_add t o)) = List.length (values t))
    by (simpl; now apply zip_with_length).
  rewrite IH.
  - simpl dtype. f_equal. simpl values.
    now apply (zip_with_nth (eadd (dtype t)) d d d).
  - now rewrite Hadd.
  - now rewrite Hadd.
Qed.

(** Where the division keeps the element type: a TensorFlow with [tf.div],
    or a floating dividend. *)
Lemma quotient_in_type (x y : Tensor elem) :
  tf_has_div = true \/ is_floating (dtype x) = true ->
  quotient x y = tf_div_value x y.
Proof.
  intros [H|H]; unfold quotient, tf_math_divide_value.
  - now rewrite H.
  - rewrite H. now destruct tf_has_div.
Qed.

(** Where it does not: [tf.math.divide] on integers. *)
Lemma quotient_of_integers (x y : Tensor elem) :
  tf_has_div = false -> is_floating (dtype x) = false ->
  quotient x y
  = mkTensor (name x) float64 (indexed_slices x)
      (elementwise_div (ediv float64)
         (map (ecast (dtype x) float64) (values x))
         (map (ecast (dtype y) float64) (values y))).
Proof.
  intros Hdiv Hint. unfold quotient, tf_math_divide_value.
  now rewrite Hdiv, Hint.
Qed.

Lemma _div_eq (x y : Tensor elem) :
  _div x y = if DType_eqb (dtype x) (dtype y) then Ok (quotient x y)
             else Raise TypeError.
Proof. reflexivity. Qed.

Lemma _div_returns_or_TypeError (x y : Tensor elem) :
  (exists r, _div x y = Ok r) \/ _div x y = Raise TypeError.
Proof.
  unfold _div. destruct (DType_eqb (dtype x) (dtype y)); eauto.
Qed.

Variable O : Ops elem.

(** The division by [size()]: refused with [TypeError] unless the reduced
    tensor has the element type of the tensor given to the push-pull. *)
Lemma divided_eq (tensor summed : Tensor elem) :
  divided O tensor summed
  = if DType_eqb (dtype summed) (dtype tensor)
    then Ok (averaged O tensor summed) else Raise TypeError.
Proof. reflexivity. Qed.

Lemma divided_same_type (tensor summed : Tensor elem) :
  dtype summed = dtype tensor ->
  divided O tensor summed = Ok (averaged O tensor summed).
Proof.
  intro H. rewrite divided_eq.
  now rewrite (proj2 (DType_eqb_eq (dtype summed) (dtype tensor)) H).
Qed.

Lemma divided_other_type (tensor summed : Tensor elem) :
  dtype summed <> dtype tensor ->
  divided O tensor summed = Raise TypeError.
Proof.
  intro H. rewrite divided_eq.
  destruct (DType_eqb (dtype summed) (dtype tensor)) eqn:Hd; [|reflexivity].
  apply DType_eqb_eq in Hd. contradiction.
Qed.

Lemma post_process_eq (o : string) (async : bool) (tensor x : Tensor elem) :
  post_process O o async tensor x
  = if String.eqb o Average && negb async
    then (if DType_eqb (dtype x) (dtype tensor)
          then Ok (averaged O tensor x) else Raise TypeError)
    else Ok x.
Proof. reflexivity. Qed.

Lemma post_process_returns_or_TypeError (o : string) (async : bool)
    (tensor x : Tensor elem) :
  (exists r, post_process O o async tensor x = Ok r)
  \/ post_process O o async tensor x = Raise TypeError.
Proof.
  rewrite post_process_eq.
  destruct (String.eqb o Average && negb async); [|eauto].
  destruct (DType_eqb (dtype x) (dtype tensor)); eauto.
Qed.

Lemma averaged_in_type (tensor summed : Tensor elem) :
  tf_has_div = true \/ is_floating (dtype summed) = true ->
  averaged O tensor summed
  = with_values summed
      (map (fun v => ediv (dtype summed) v (eofZ (dtype tensor) (size O)))
           (values summed)).
Proof. intro H. unfold averaged. now rewrite (quotient_in_type _ _ H). Qed.

Lemma averaged_values (tensor summed : Tensor elem) :
  tf_has_div = true \/ is_floating (dtype summed) = true ->
  values (averaged O tensor summed) =
  map (fun v => ediv (dtype summed) v (eofZ (dtype tensor) (size O)))
      (values summed).
Proof. intro H. now rewrite (averaged_in_type _ _ H). Qed.

Lemma averaged_dtype (tensor summed : Tensor elem) :
  tf_has_div = true \/ is_floating (dtype summed) = true ->
  dtype (averaged O tensor summed) = dtype summed.
Proof. intro H. now rewrite (averaged_in_type _ _ H). Qed.

Lemma averaged_nth (d : elem) (tensor summed : Tensor elem) (i : nat) :
  tf_has_div = true \/ is_floating (dtype summed) = true ->
  (i < List.length (values summed))%nat ->
  nth i (values (averaged O tensor summed)) d =
  ediv (dtype summed) (nth i (values summed) d) (eofZ (dtype tensor) (size O)).
Proof.
  intros H Hi. rewrite (averaged_values _ _ H).
  rewrite (nth_indep _ d (ediv (dtype summed) d (eofZ (dtype tensor) (size O))))
    by (now rewrite length_map).
  now rewrite (map_nth (fun v => ediv (dtype summed) v (eofZ (dtype tensor) (size O)))).
Qed.

(** The average of an integer tensor under [tf.math.divide]: a [float64]
    tensor, both operands converted before the division. *)
Lemma averaged_of_integers (tensor summed : Tensor elem) :
  tf_has_div = false -> is_floating (dtype summed) = false ->
  averaged O tensor summed
  = mkTensor (name summed) float64 (indexed_slices summed)
      (map (fun v => ediv float64 (ecast (dtype summed) float64 v)
                       (ecast (dtype tensor) float64
                          (eofZ (dtype tensor) (size O))))
           (values summed)).
Proof.
  intros Hdiv Hint. unfold averaged.
  rewrite (quotient_of_integers _ _ Hdiv Hint). cbn. now rewrite map_map.
Qed.

End TensorFacts.
(** ** [push_pull] *)

Section PushPull.

Context {elem : Type} {E : Platform elem}.
Variable O : Ops elem.

(** [push_pull] in one equation: the operator and the async flag only
    decide whether the transferred tensor is divided. *)
Lemma push_pull_eq (t : Tensor elem) (scope : string) (c : Compression elem)
    (op : option string) (o : string) (async : bool) :
  handle_average_backwards_compatibility O op None = Ok o ->
  push_pull O t scope None c op async
  = post_process O o async t (transferred O c t scope).
Proof.
  intro Hop. unfold push_pull, transferred, post_process, divided.
  rewrite Hop. cbn [bind].
  destruct (compress c t) as [tc cx]. cbn [fst snd].
  destruct async, (String.eqb o Average); cbn [andb negb bind];
    try reflexivity.
  now destruct (_div _ _).
Qed.

Lemma transferred_none (t : Tensor elem) (scope : string) :
  transferred O Compression_none t scope = _push_pull O t scope.
Proof. reflexivity. Qed.

(** C1.  On a TensorFlow without [tf.div] the average of an integer tensor
    is not computed in the tensor's element type: [push_pull] with
    [Average] returns a [float64] tensor, the elements of the sum and
    [size()] both converted to [float64] before the division. *)
Theorem push_pull_average_of_integers
    (t : Tensor elem) (scope : string) (others : list (Tensor elem)) :
  tf_has_div = false ->
  is_floating (dtype t) = false ->
  handle_average_backwards_compatibility O (Some Average) None = Ok Average ->
  _push_pull O t scope = all_reduce_sum t others ->
  let total := all_reduce_sum t others in
  exists r,
    push_pull O t scope None Compression_none (Some Average) false = Ok r
    /\ dtype r = float64
    /\ dtype r <> dtype t
    /\ values r
       = map (fun v => ediv float64 (ecast (dtype t) float64 v)
                         (ecast (dtype t) float64 (eofZ (dtype t) (size O))))
             (values total).
Proof.
  intros Hdiv Hint Havg Hengine total.
  assert (Hty : dtype total = dtype t) by apply all_reduce_sum_dtype.
  assert (Hint' : is_floating (dtype total) = false) by now rewrite Hty.
  exists (averaged O t total). split; [|split; [|split]].
  - rewrite (push_pull_eq _ _ _ _ _ _ Havg), transferred_none, Hengine.
    fold total. rewrite post_process_eq.
    change (String.eqb Average Average && negb false) with true. cbv iota.
    now rewrite (proj2 (DType_eqb_eq _ _) Hty).
  - now rewrite (averaged_of_integers O t total Hdiv Hint').
  - rewrite (averaged_of_integers O t total Hdiv Hint'). cbn [dtype].
    intro H. rewrite <- H in Hint. discriminate.
  - rewrite (averaged_of_integers O t total Hdiv Hint'). cbn [values].
    now rewrite Hty.
Qed.

(** X22.  Where the division keeps the element type (a TensorFlow with
    [tf.div], or a floating tensor), and with the engine summing the
    contributions of the ranks: [push_pull] with [Sum] returns that
    elementwise sum unchanged, and with [Average] (async off) returns it
    with every element divided by [size()] converted to the element type of
    the tensor; over all operators and both settings of the async flag the
    division is applied exactly when the operator is [Average] and async is
    off. *)
Theorem push_pull_sum_and_average
    (t : Tensor elem) (scope : string) (others : list (Tensor elem)) :
  tf_has_div = true \/ is_floating (dtype t) = true ->
  (forall op, handle_average_backwards_compatibility O (Some op) None = Ok op) ->
  _push_pull O t scope = all_reduce_sum t others ->
  Forall (fun o => List.length (values o) = List.length (values t)) others ->
  let total := all_reduce_sum t others in
  push_pull O t scope None Compression_none (Some Sum) false = Ok total
  /\ push_pull O t scope None Compression_none (Some Average) false
     = Ok (averaged O t total)
  /\ dtype (averaged O t total) = dtype t
  /\ List.length (values (averaged O t total)) = List.length (values t)
  /\ (forall i d, (i < List.length (values t))%nat ->
        let s := sum_over_ranks (dtype t) (nth i (values t) d)
                                (map (fun o => nth i (values o) d) others) in
        nth i (values total) d = s
        /\ nth i (values (averaged O t total)) d
           = ediv (dtype t) s (eofZ (dtype t) (size O)))
  /\ (forall op async,
        push_pull O t scope None Compression_none (Some op) async
        = Ok (if String.eqb op Average && negb async
              then averaged O t total else total)).
Proof.
  intros Hkeep Hcompat Hengine Hshape total.
  assert (Hlen : List.length (values total) = List.length (values t))
    by (now apply all_reduce_sum_length).
  assert (Hty : dtype total = dtype t) by apply all_reduce_sum_dtype.
  assert (Hkeep' : tf_has_div = true \/ is_floating (dtype total) = true)
    by now rewrite Hty.
  assert (Hall : forall op async,
             push_pull O t scope None Compression_none (Some op) async
             = Ok (if String.eqb op Average && negb async
                   then averaged O t total else total)).
  { intros op async. rewrite (push_pull_eq _ _ _ _ op) by apply Hcompat.
    rewrite transferred_none, Hengine. fold total. rewrite post_process_eq.
    rewrite (proj2 (DType_eqb_eq _ _) Hty).
    now destruct (String.eqb op Average && negb async). }
  repeat split.
  - exact (Hall Sum false).
  - exact (Hall Average false).
  - now rewrite (averaged_dtype O t total Hkeep').
  - now rewrite (averaged_values O t total Hkeep'), length_map.
  - now apply all_reduce_sum_nth.
  - rewrite (averaged_nth O d t total i Hkeep') by (now rewrite Hlen).
    rewrite Hty. f_equal. now apply all_reduce_sum_nth.
  - exact Hall.
Qed.

End PushPull.

(** ** The operator and the async flag *)

Section Operators.

Context {elem : Type} {E : Platform elem}.
Variable O : Ops elem.
Variable KerasDistributed : Type.
Variable bps_k_DistributedOptimizer :
  Optimizer elem -> option string -> Compression elem -> bool ->
  Result KerasDistributed.

(** The factory refuses [Adasum] for every kind of optimizer. *)
Lemma DistributedOptimizer_rejects_Adasum (env : Environ)
    (optimizer : Optimizer elem) (name : option string) (use_locking : bool)
    (c : Compression elem) (sparse : bool) (passes : Z) :
  exists msg,
    DistributedOptimizer KerasDistributed bps_k_DistributedOptimizer env
      optimizer name use_locking c sparse passes Adasum
    = Raise (ValueError msg).
Proof.
  unfold DistributedOptimizer.
  destruct (optimizer_class optimizer); simpl; eexists; reflexivity.
Qed.

(** C2.  [push_pull] called with [Adasum] is not rejected: it returns a
    tensor, the same one it returns for [Sum], whatever the async flag. *)
Theorem push_pull_runs_Adasum_as_Sum (t : Tensor elem) (scope : string)
    (c : Compression elem) (async : bool) :
  handle_average_backwards_compatibility O (Some Adasum) None = Ok Adasum ->
  handle_average_backwards_compatibility O (Some Sum) None = Ok Sum ->
  push_pull O t scope None c (Some Adasum) async = Ok (transferred O c t scope)
  /\ push_pull O t scope None c (Some Adasum) async
     = push_pull O t scope None c (Some Sum) async
  /\ is_ok (push_pull O t scope None c (Some Adasum) async) = true.
Proof.
  intros Hada Hsum.
  rewrite (push_pull_eq O t scope c _ _ async Hada).
  rewrite (push_pull_eq O t scope c _ _ async Hsum).
  rewrite !post_process_eq.
  change (String.eqb Adasum Average) with false.
  change (String.eqb Sum Average) with false.
  cbn [andb is_ok]. repeat split.
Qed.

Lemma push_pull_grads_async (self : _DistributedOptimizer elem) (o : string) :
  _enable_async self = true ->
  handle_average_backwards_compatibility O None None = Ok o ->
  forall grads,
    sequence (map (fun grad : option (Tensor elem) =>
                     match grad with
                     | Some g =>
                         r <- push_pull O g
                                (tf_name_scope (String.append (_name self) "_Push_Pull"))
                                None (_compression self) None (_enable_async self) ;;
                         Ok (Some r)
                     | None => Ok None
                     end) grads)
    = Ok (map (option_map (fun g =>
                 transferred O (_compression self) g
                   (tf_name_scope (String.append (_name self) "_Push_Pull"))))
              grads).
Proof.
  intros Hasync Hop grads. rewrite Hasync.
  induction grads as [|[g|] grads IH]; simpl; [reflexivity| |].
  - rewrite (push_pull_eq O g _ _ None o _ Hop).
    rewrite post_process_eq, andb_false_r. simpl. rewrite IH. reflexivity.
  - rewrite IH. reflexivity.
Qed.

(** C3.  With async on, [push_pull] with [Average] returns the transferred
    tensor undivided (with the default compression: exactly what the engine
    returned), and so does the optimizer's [push_pull_grads] for every
    gradient when the optimizer was built in async mode. *)
Theorem async_average_is_not_divided (o : string) :
  handle_average_backwards_compatibility O (Some Average) None = Ok Average ->
  handle_average_backwards_compatibility O None None = Ok o ->
  (forall (t : Tensor elem) scope c,
      push_pull O t scope None c (Some Average) true
      = Ok (transferred O c t scope))
  /\ (forall (t : Tensor elem) scope,
         push_pull O t scope None Compression_none (Some Average) true
         = Ok (_push_pull O t scope))
  /\ (forall (self : _DistributedOptimizer elem) grads,
         _enable_async self = true ->
         push_pull_grads O self grads
         = Ok (map (option_map (fun g =>
                      transferred O (_compression self) g
                        (tf_name_scope (String.append (_name self) "_Push_Pull"))))
                   (if _sparse_as_dense self then densify grads else grads))).
Proof.
  intros Havg Hdefault. repeat split.
  - intros t scope c. rewrite (push_pull_eq O t scope c _ _ true Havg).
    now rewrite post_process_eq, andb_false_r.
  - intros t scope.
    rewrite (push_pull_eq O t scope Compression_none _ _ true Havg).
    now rewrite post_process_eq, andb_false_r.
  - intros self grads Hasync. unfold push_pull_grads.
    now apply push_pull_grads_async with (o := o).
Qed.

(** With a single participant the reducing branches are not taken:
    [compute_gradients] and [gradient] return the local gradients,
    [broadcast_variables] builds no op. *)
Lemma single_participant_skips_the_engine :
  size O = 1 ->
  (forall self : _DistributedOptimizer elem,
      compute_gradients O self = Ok (opt_compute_gradients (_optimizer self)))
  /\ (forall self : _DistributedGradientTape elem,
         gradient O self = Ok (tape_gradient self))
  /\ (forall (variables : list (Tensor elem)) root_rank scope,
         broadcast_variables O variables root_rank scope = None).
Proof.
  intro Hsize. repeat split.
  - intro self. unfold compute_gradients. now rewrite Hsize.
  - intro self. unfold gradient. now rewrite Hsize.
  - intros variables root_rank scope.
    unfold broadcast_variables, broadcast_variables_regular. now rewrite Hsize.
Qed.

(** C4.  With a single participant [compute_gradients], [gradient] and
    [broadcast_variables] pass through, but [push_pull] has no test of
    [size()]: it still divides by 1, and on a TensorFlow without [tf.div]
    the [Average] of an integer tensor comes back as a [float64] tensor,
    not as the input. *)
Theorem single_participant_average_of_integers :
  size O = 1 ->
  (forall t scope, _push_pull O t scope = all_reduce_sum t []) ->
  handle_average_backwards_compatibility O (Some Average) None = Ok Average ->
  (forall (t : Tensor elem) scope,
      tf_has_div = false -> is_floating (dtype t) = false ->
      exists r,
        push_pull O t scope None Compression_none (Some Average) false = Ok r
        /\ dtype r = float64
        /\ r <> t
        /\ values r
           = map (fun v => ediv float64 (ecast (dtype t) float64 v)
                             (ecast (dtype t) float64 (eofZ (dtype t) 1)))
                 (values t))
  /\ (forall self : _DistributedOptimizer elem,
         compute_gradients O self = Ok (opt_compute_gradients (_optimizer self)))
  /\ (forall self : _DistributedGradientTape elem,
         gradient O self = Ok (tape_gradient self))
  /\ (forall (variables : list (Tensor elem)) root_rank scope,
         broadcast_variables O variables root_rank scope = None).
Proof.
  intros Hsize Hengine Havg. split.
  - intros t scope Hdiv Hint. exists (averaged O t t).
    assert (Hav := averaged_of_integers O t t Hdiv Hint).
    split; [|split; [|split]].
    + rewrite (push_pull_eq O t scope Compression_none _ _ false Havg).
      rewrite transferred_none, Hengine. cbn [all_reduce_sum fold_left].
      rewrite post_process_eq.
      change (String.eqb Average Average && negb false) with true. cbv iota.
      now rewrite (proj2 (DType_eqb_eq _ _) eq_refl).
    + now rewrite Hav.
    + intro H. rewrite <- H in Hint at 1. rewrite Hav in Hint. discriminate.
    + rewrite Hav. cbn [values]. now rewrite Hsize.
  - exact (single_participant_skips_the_engine Hsize).
Qed.

(** X23.  With a single participant, where the division keeps the element
    type (a TensorFlow with [tf.div], or a floating tensor): [push_pull]
    returns its input for every operator and either setting of the async
    flag, with every compression that gives the tensor back, provided the
    engine returns what it is given and dividing an element of the tensor
    by 1 gives the element. *)
Theorem single_participant_is_identity (t : Tensor elem) (scope : string)
    (c : Compression elem) (op : option string) (o : string) (async : bool) :
  size O = 1 ->
  handle_average_backwards_compatibility O op None = Ok o ->
  _push_pull O (fst (compress c t)) scope = fst (compress c t) ->
  decompress c (fst (compress c t)) (snd (compress c t)) = t ->
  tf_has_div = true \/ is_floating (dtype t) = true ->
  Forall (fun v => ediv (dtype t) v (eofZ (dtype t) 1) = v) (values t) ->
  push_pull O t scope None c op async = Ok t.
Proof.
  intros Hsize Hop Hengine Hback Hkeep Hone.
  rewrite (push_pull_eq O t scope c op o async Hop).
  unfold transferred. rewrite Hengine, Hback. rewrite post_process_eq.
  destruct (String.eqb o Average && negb async); [|reflexivity].
  rewrite (proj2 (DType_eqb_eq _ _) eq_refl). f_equal.
  rewrite (averaged_in_type O t t Hkeep), Hsize.
  rewrite <- (with_values_same t) at 3. f_equal.
  rewrite <- (map_id (values t)) at 2.
  apply map_ext_in. intros v Hv.
  exact (proj1 (Forall_forall _ _) Hone v Hv).
Qed.

End Operators.
(** ** The per-tensor XLA variants, each in one equation *)

Section Variants.

Context {elem : Type} {E : Platform elem}.
Variable O : Ops elem.

Lemma marker_gt_readable (h : Tensor elem) (m0 m1 : elem) :
  readable_markers h m0 m1 -> marker_gt h = Ok (egtb m0 m1).
Proof. intros [rest H]. unfold marker_gt. now rewrite H. Qed.

Lemma tf_cond_corrected (m0 m1 : elem) (x : Tensor elem) :
  tf_cond (egtb m0 m1) (fun _ => tf_add_one (tf_identity x))
          (fun _ => tf_identity x)
  = corrected m0 m1 x.
Proof. unfold tf_cond, corrected, tf_identity. now destruct (egtb m0 m1). Qed.

Lemma push_pull_xla_eq (t : Tensor elem) (scope : string)
    (c : Compression elem) (op : option string) (o : string) (async : bool)
    (idx : Z) (s h : Tensor elem) (m0 m1 : elem) :
  handle_average_backwards_compatibility O op None = Ok o ->
  _push_pull_xla O (fst (compress c t)) scope idx = (s, h) ->
  readable_markers h m0 m1 ->
  push_pull_xla O t scope None c op async idx
  = (x <- post_process O o async t
            (decompress c (corrected m0 m1 s) (snd (compress c t))) ;;
     Ok (x, name s)).
Proof.
  intros Hop Heng Hm. unfold push_pull_xla. rewrite Hop. cbn [bind].
  destruct (compress c t) as [tc cx]. cbn [fst snd] in *. rewrite Heng.
  cbn [fst snd]. unfold tf_reshape_flat.
  rewrite (marker_gt_readable h m0 m1 Hm). cbn [bind].
  rewrite tf_cond_corrected. unfold post_process, divided.
  destruct async, (String.eqb o Average); cbn [andb negb bind]; reflexivity.
Qed.

Lemma push_pull_xla_handle_out_eq (t : Tensor elem) (scope : string)
    (c : Compression elem) (op : option string) (o : string) (async : bool)
    (idx : Z) (s h : Tensor elem) (m0 m1 : elem) :
  handle_average_backwards_compatibility O op None = Ok o ->
  _push_pull_xla O (fst (compress c t)) scope idx = (s, h) ->
  readable_markers h m0 m1 ->
  push_pull_xla_handle_out O t scope None c op async idx
  = (x <- post_process O o async t (corrected m0 m1 s) ;;
     Ok (x, name s, h)).
Proof.
  intros Hop Heng Hm. unfold push_pull_xla_handle_out. rewrite Hop.
  cbn [bind].
  destruct (compress c t) as [tc cx]. cbn [fst snd] in *. rewrite Heng.
  unfold tf_reshape_flat. rewrite (marker_gt_readable h m0 m1 Hm).
  cbn [bind]. rewrite tf_cond_corrected. unfold post_process, divided.
  destruct async, (String.eqb o Average); cbn [andb negb bind]; reflexivity.
Qed.

Lemma push_pull_xla_handle_out_v2_eq (t : Tensor elem) (scope : string)
    (c : Compression elem) (op : option string) (o : string) (async : bool)
    (idx : Z) :
  handle_average_backwards_compatibility O op None = Ok o ->
  push_pull_xla_handle_out_v2 O t scope None c op async idx
  = (let wire := _push_pull_xla_v2 O (fst (compress c t)) scope idx in
     x <- post_process O o async t (fst wire) ;;
     Ok (decompress c x (snd (compress c t)), name (fst wire), snd wire)).
Proof.
  intros Hop. unfold push_pull_xla_handle_out_v2. rewrite Hop. cbn [bind].
  destruct (compress c t) as [tc cx]. cbn [fst snd].
  destruct (_push_pull_xla_v2 O tc scope idx) as [s h]. cbn [fst snd].
  unfold tf_reshape_flat, post_process, divided.
  destruct async, (String.eqb o Average); cbn [andb negb bind]; reflexivity.
Qed.

Lemma push_pull_kickoff_eq (t : Tensor elem) (scope : string)
    (c : Compression elem) (op : option string) (o : string) (async : bool)
    (idx : Z) :
  handle_average_backwards_compatibility O op None = Ok o ->
  push_pull_kickoff O t scope None c op async idx
  = Ok (fst (_push_pull_kickoff_xla O t scope idx),
        String.append (name (fst (_push_pull_kickoff_xla O t scope idx)))
                      (str idx)).
Proof.
  intros Hop. unfold push_pull_kickoff. rewrite Hop. simpl.
  now destruct (_push_pull_kickoff_xla O t scope idx).
Qed.

(** Each variant returns, or raises the [TypeError] of the division. *)
Lemma push_pull_returns_or_TypeError (t : Tensor elem) (scope : string)
    (c : Compression elem) (op : option string) (o : string) (async : bool) :
  handle_average_backwards_compatibility O op None = Ok o ->
  (exists r, push_pull O t scope None c op async = Ok r)
  \/ push_pull O t scope None c op async = Raise TypeError.
Proof.
  intro Hop. rewrite (push_pull_eq O t scope c op o async Hop).
  apply post_process_returns_or_TypeError.
Qed.

Lemma push_pull_xla_returns_or_TypeError (c : Compression elem) (o : string)
    (scope : string) :
  handle_average_backwards_compatibility O None None = Ok o ->
  (forall t sc idx, exists m0 m1,
      readable_markers (snd (_push_pull_xla O t sc idx)) m0 m1) ->
  forall g idx,
    (exists r, push_pull_xla O g scope None c None false idx = Ok r)
    \/ push_pull_xla O g scope None c None false idx = Raise TypeError.
Proof.
  intros Hop Hh g idx.
  destruct (_push_pull_xla O (fst (compress c g)) scope idx) as [s h] eqn:He.
  destruct (Hh (fst (compress c g)) scope idx) as (m0 & m1 & Hm).
  rewrite He in Hm. cbn [snd] in Hm.
  rewrite (push_pull_xla_eq g scope c None o false idx s h m0 m1 Hop He Hm).
  destruct (post_process_returns_or_TypeError O o false g
              (decompress c (corrected m0 m1 s) (snd (compress c g))))
    as [[r Hr]|Hr]; rewrite Hr; cbn [bind]; eauto.
Qed.

Lemma push_pull_xla_handle_out_returns_or_TypeError (c : Compression elem)
    (o : string) (scope : string) :
  handle_average_backwards_compatibility O None None = Ok o ->
  (forall t sc idx, exists m0 m1,
      readable_markers (snd (_push_pull_xla O t sc idx)) m0 m1) ->
  forall g idx,
    (exists r, push_pull_xla_handle_out O g scope None c None false idx = Ok r)
    \/ push_pull_xla_handle_out O g scope None c None false idx
       = Raise TypeError.
Proof.
  intros Hop Hh g idx.
  destruct (_push_pull_xla O (fst (compress c g)) scope idx) as [s h] eqn:He.
  destruct (Hh (fst (compress c g)) scope idx) as (m0 & m1 & Hm).
  rewrite He in Hm. cbn [snd] in Hm.
  rewrite (push_pull_xla_handle_out_eq g scope c None o false idx s h m0 m1
             Hop He Hm).
  destruct (post_process_returns_or_TypeError O o false g (corrected m0 m1 s))
    as [[r Hr]|Hr]; rewrite Hr; cbn [bind]; eauto.
Qed.

Lemma push_pull_xla_handle_out_v2_returns_or_TypeError (c : Compression elem)
    (o : string) (scope : string) :
  handle_average_backwards_compatibility O None None = Ok o ->
  forall g idx,
    (exists r,
        push_pull_xla_handle_out_v2 O g scope None c None false idx = Ok r)
    \/ push_pull_xla_handle_out_v2 O g scope None c None false idx
       = Raise TypeError.
Proof.
  intros Hop g idx.
  rewrite (push_pull_xla_handle_out_v2_eq g scope c None o false idx Hop).
  cbv zeta.
  destruct (post_process_returns_or_TypeError O o false g
              (fst (_push_pull_xla_v2 O (fst (compress c g)) scope idx)))
    as [[r Hr]|Hr]; rewrite Hr; cbn [bind]; eauto.
Qed.

End Variants.
(** ** The batch functions *)

Section Batches.

Context {elem : Type} {E : Platform elem}.
Variable O : Ops elem.

Lemma enumerate_map {A B : Type} (f : A -> B) (l : list A) :
  forall start,
    enumerate start (map f l)
    = map (fun p => (fst p, f (snd p))) (enumerate start l).
Proof.
  induction l as [|x l IH]; intro start; simpl; [reflexivity|].
  now rewrite IH.
Qed.

Lemma enumerate_twice {A : Type} (l : list A) :
  forall start,
    enumerate start (enumerate start l)
    = map (fun p => (fst p, p)) (enumerate start l).
Proof.
  induction l as [|x l IH]; intro start; simpl; [reflexivity|].
  now rewrite IH.
Qed.

Lemma combine_map {A B C : Type} (f : A -> B) (g : A -> C) (l : list A) :
  combine (map f l) (map g l) = map (fun x => (f x, g x)) l.
Proof. induction l as [|x l IH]; simpl; [reflexivity|]. now rewrite IH. Qed.

Lemma densify_Some (ts : list (Tensor elem)) :
  densify (map Some ts)
  = map Some (map (fun g => if indexed_slices g then tf_convert_to_tensor g
                            else g) ts).
Proof.
  unfold densify. rewrite !map_map. apply map_ext. intro g.
  now destruct (indexed_slices g).
Qed.

Lemma batch_densified (sparse : bool) (ts : list (Tensor elem)) :
  (if sparse then densify (map Some ts) else map Some ts)
  = map Some (densified sparse ts).
Proof. destruct sparse; [apply densify_Some | reflexivity]. Qed.

Lemma densified_same (sparse : bool) (ts : list (Tensor elem)) :
  Forall2 (fun a b => dtype b = dtype a /\ values b = values a)
          ts (densified sparse ts).
Proof.
  destruct sparse; cbn [densified].
  - induction ts as [|x ts IH]; simpl; constructor; [|exact IH].
    now destruct (indexed_slices x).
  - induction ts; constructor; auto.
Qed.

Lemma densified_length (sparse : bool) (ts : list (Tensor elem)) :
  List.length (densified sparse ts) = List.length ts.
Proof. symmetry. exact (Forall2_length (densified_same sparse ts)). Qed.

Lemma densified_cons (sparse : bool) (g : Tensor elem)
    (gs : list (Tensor elem)) :
  exists g' gs', densified sparse (g :: gs) = g' :: gs'.
Proof. destruct sparse; cbn; eauto. Qed.

Lemma tensors_of_Some (l : list (Tensor elem)) : tensors_of (map Some l) = l.
Proof. induction l as [|x l IH]; simpl; [reflexivity|]. now rewrite IH. Qed.

(** A comprehension over gradients none of which is [None], where the body
    returns [rs], position by position. *)
Lemma for_each_grad_Forall2 {A : Type} (f : Tensor elem -> Z -> Result A)
    (ts : list (Tensor elem)) (rs : list A) :
  Forall2 (fun p r => f (snd p) (fst p) = Ok r) (enumerate 1 ts) rs ->
  for_each_grad f (map Some ts) = Ok (map Some rs).
Proof.
  unfold for_each_grad. generalize 1. revert rs.
  induction ts as [|t ts IH]; intros rs start H; simpl in *;
    inversion H as [|p r l rs' Hr Hrest]; subst; [reflexivity|].
  cbn [fst snd] in Hr. rewrite Hr. cbn [bind].
  rewrite (IH rs' (start + 1) Hrest). reflexivity.
Qed.

(** The same with a body that always returns. *)
Lemma for_each_grad_total {A : Type} (f : Tensor elem -> Z -> Result A)
    (f' : Tensor elem -> Z -> A) (ts : list (Tensor elem)) :
  (forall g idx, f g idx = Ok (f' g idx)) ->
  for_each_grad f (map Some ts)
  = Ok (map Some (map (fun p => f' (snd p) (fst p)) (enumerate 1 ts))).
Proof.
  intro Hf. apply for_each_grad_Forall2. generalize 1.
  induction ts as [|t ts IH]; intro start; simpl; constructor; auto.
Qed.

(** The same where the body returns on the gradients of the list. *)
Lemma for_each_grad_Forall {A : Type} (f : Tensor elem -> Z -> Result A)
    (f' : Tensor elem -> Z -> A) (ts : list (Tensor elem)) :
  Forall (fun p => f (snd p) (fst p) = Ok (f' (snd p) (fst p)))
         (enumerate 1 ts) ->
  for_each_grad f (map Some ts)
  = Ok (map Some (map (fun p => f' (snd p) (fst p)) (enumerate 1 ts))).
Proof.
  intro H. apply for_each_grad_Forall2. revert H. generalize (enumerate 1 ts).
  intro l. induction 1; simpl; constructor; auto.
Qed.

(** A comprehension whose body raises nothing but [TypeError] raises
    nothing else. *)
Lemma for_each_grad_raises_only_TypeError {A : Type}
    (f : Tensor elem -> Z -> Result A) :
  (forall g idx, (exists r, f g idx = Ok r) \/ f g idx = Raise TypeError) ->
  forall grads e, for_each_grad f grads = Raise e -> e = TypeError.
Proof.
  intros Hf grads. unfold for_each_grad. generalize 1.
  induction grads as [|[g|] grads IH]; intros start e Hs;
    cbn [enumerate map sequence] in Hs.
  - discriminate.
  - destruct (Hf g start) as [[r Hr]|Hr]; rewrite Hr in Hs;
      cbn [bind] in Hs; [|congruence].
    destruct (sequence _) eqn:Hl in Hs; cbn [bind] in Hs; [discriminate|].
    injection Hs as <-. exact (IH _ _ Hl).
  - cbn [bind] in Hs.
    destruct (sequence _) eqn:Hl in Hs; cbn [bind] in Hs; [discriminate|].
    injection Hs as <-. exact (IH _ _ Hl).
Qed.

(** A comprehension that returns keeps a [None] where the list holds one. *)
Lemma for_each_grad_keeps_None {A : Type} (f : Tensor elem -> Z -> Result A) :
  forall grads rows,
    for_each_grad f grads = Ok rows -> In None grads -> In None rows.
Proof.
  intros grads. unfold for_each_grad. generalize 1.
  induction grads as [|[g|] grads IH]; intros start rows Hs Hin;
    cbn [enumerate map sequence] in Hs.
  - destruct Hin.
  - destruct Hin as [Hin|Hin]; [discriminate|].
    destruct (f g start) as [r|e]; cbn [bind] in Hs; [|discriminate].
    destruct (sequence _) as [rows'|e] eqn:Hl in Hs; cbn [bind] in Hs;
      [|discriminate].
    injection Hs as <-. right. exact (IH _ _ Hl Hin).
  - cbn [bind] in Hs.
    destruct (sequence _) as [rows'|e] eqn:Hl in Hs; cbn [bind] in Hs;
      [|discriminate].
    injection Hs as <-. now left.
Qed.

(** A body that returns or raises [TypeError], on a list holding a [None]:
    the comprehension raises [TypeError] or returns rows among which is a
    [None]. *)
Lemma for_each_grad_with_None {A : Type} (f : Tensor elem -> Z -> Result A) :
  (forall g idx, (exists r, f g idx = Ok r) \/ f g idx = Raise TypeError) ->
  forall grads, In None grads ->
    for_each_grad f grads = Raise TypeError
    \/ exists rows, for_each_grad f grads = Ok rows /\ In None rows.
Proof.
  intros Hf grads Hin.
  destruct (for_each_grad f grads) as [rows|e] eqn:Hs.
  - right. exists rows. split; [reflexivity|].
    exact (for_each_grad_keeps_None f grads rows Hs Hin).
  - left. now rewrite (for_each_grad_raises_only_TypeError f Hf grads e Hs).
Qed.

(** A body that returns or raises [TypeError] and raises on one gradient of
    the list at every position: the comprehension raises [TypeError]. *)
Lemma for_each_grad_TypeError {A : Type} (f : Tensor elem -> Z -> Result A)
    (g : Tensor elem) :
  (forall g idx, (exists r, f g idx = Ok r) \/ f g idx = Raise TypeError) ->
  (forall idx, f g idx = Raise TypeError) ->
  forall grads, In (Some g) grads -> for_each_grad f grads = Raise TypeError.
Proof.
  intros Hf Hg grads Hin.
  destruct (for_each_grad f grads) as [rows|e] eqn:Hs.
  - exfalso. revert rows Hs. unfold for_each_grad. generalize 1.
    induction grads as [|[g0|] grads IH]; intros start rows Hs;
      cbn [enumerate map sequence] in Hs.
    + destruct Hin.
    + destruct Hin as [Hin|Hin].
      * injection Hin as ->. rewrite Hg in Hs. discriminate.
      * destruct (f g0 start); cbn [bind] in Hs; [|discriminate].
        destruct (sequence _) as [rows'|e] eqn:Hl in Hs; cbn [bind] in Hs;
          [|discriminate].
        exact (IH Hin _ _ Hl).
    + destruct Hin as [Hin|Hin]; [discriminate|].
      cbn [bind] in Hs.
      destruct (sequence _) as [rows'|e] eqn:Hl in Hs; cbn [bind] in Hs;
        [|discriminate].
      exact (IH Hin _ _ Hl).
  - now rewrite (for_each_grad_raises_only_TypeError f Hf grads e Hs).
Qed.

Lemma zip_star3_Some {A B C : Type} (r : A * B * C) (rs : list (A * B * C)) :
  zip_star3 (map Some (r :: rs))
  = Ok (map (fun r => fst (fst r)) (r :: rs),
        map (fun r => snd (fst r)) (r :: rs),
        map snd (r :: rs)).
Proof. unfold zip_star3. now rewrite iter_rows_Some. Qed.

Lemma zip_star2_Some {A B : Type} (r : A * B) (rs : list (A * B)) :
  zip_star2 (map Some (r :: rs)) = Ok (map fst (r :: rs), map snd (r :: rs)).
Proof. unfold zip_star2. now rewrite iter_rows_Some. Qed.

Lemma iter_rows_None {A : Type} (rows : list (option A)) :
  In None rows -> iter_rows rows = Raise TypeError.
Proof.
  induction rows as [|[r|] rows IH]; intro H.
  - destruct H.
  - destruct H as [H|H]; [discriminate|]. simpl. now rewrite (IH H).
  - reflexivity.
Qed.

Lemma last_item_app {A : Type} (l : list A) (x : A) :
  last_item (l ++ [x]) = Ok x.
Proof.
  induction l as [|y l IH]; [reflexivity|].
  simpl. destruct (l ++ [x]) eqn:Hl; [now destruct l | exact IH].
Qed.

Lemma Forall2_cons_left {A B : Type} (R : A -> B -> Prop) (x : A)
    (xs : list A) (ys : list B) :
  Forall2 R (x :: xs) ys -> exists y ys', ys = y :: ys'.
Proof. intro H. inversion H; subst. eauto. Qed.

(** What [push_pull_xla_handle_out_v2] returns for the default operator [o]
    where its division type-checks. *)
Lemma push_pull_xla_handle_out_v2_divides (c : Compression elem) (o : string)
    (scope : string) (t : Tensor elem) (idx : Z) :
  handle_average_backwards_compatibility O None None = Ok o ->
  (String.eqb o Average = true ->
   dtype (fst (_push_pull_xla_v2 O (fst (compress c t)) scope idx)) = dtype t) ->
  push_pull_xla_handle_out_v2 O t scope None c None false idx
  = Ok (let wire := _push_pull_xla_v2 O (fst (compress c t)) scope idx in
        (decompress c
           (if String.eqb o Average then averaged O t (fst wire) else fst wire)
           (snd (compress c t)),
         name (fst wire), snd wire)).
Proof.
  intros Hop Hty.
  rewrite (push_pull_xla_handle_out_v2_eq O t scope c None o false idx Hop).
  cbv zeta. rewrite post_process_eq.
  destruct (String.eqb o Average); cbn [andb negb]; [|reflexivity].
  now rewrite (proj2 (DType_eqb_eq _ _) (Hty eq_refl)).
Qed.

Lemma push_pull_xla_handle_out_v2_refuses (c : Compression elem)
    (scope : string) (t : Tensor elem) (idx : Z) :
  handle_average_backwards_compatibility O None None = Ok Average ->
  dtype (fst (_push_pull_xla_v2 O (fst (compress c t)) scope idx)) <> dtype t ->
  push_pull_xla_handle_out_v2 O t scope None c None false idx
  = Raise TypeError.
Proof.
  intros Hop Hty.
  rewrite (push_pull_xla_handle_out_v2_eq O t scope c None Average false idx
             Hop).
  cbv zeta. unfold post_process.
  change (String.eqb Average Average && negb false) with true. cbv iota.
  now rewrite (divided_other_type O _ _ Hty).
Qed.

(** C6.  The barrier-based bulk sync does not return [n] tensors for every
    batch.  On the empty batch it raises [IndexError] (it indexes the
    columns of an empty [zip]); on a batch holding a [None] it raises
    [TypeError]; and when the default operator is [Average] and the tensor
    the engine returns for some gradient has another element type than the
    gradient (the compressed tensor is divided before it is decompressed)
    it raises [TypeError] as well. *)
Theorem barrier_sync_raises_on_some_batches (c : Compression elem)
    (sparse : bool) (o : string) :
  handle_average_backwards_compatibility O None None = Ok o ->
  let scope := tf_name_scope "zzzzhhahHaDistributedGradientTape_Push_Pull" in
  push_pull_all_grads_handle_xla_v2 O [] c sparse = Raise IndexError
  /\ (forall grads,
         In None grads ->
         push_pull_all_grads_handle_xla_v2 O grads c sparse = Raise TypeError)
  /\ (forall grads g,
         In (Some g) grads ->
         o = Average ->
         (forall idx,
             dtype (fst (_push_pull_xla_v2 O (fst (compress c g)) scope idx))
             <> dtype g) ->
         push_pull_all_grads_handle_xla_v2 O grads c sparse = Raise TypeError).
Proof.
  intros Hop scope. split; [|split].
  - reflexivity.
  - intros grads Hin. unfold push_pull_all_grads_handle_xla_v2.
    cbn [andb]. cbv zeta. fold scope.
    destruct (for_each_grad_with_None _
                (push_pull_xla_handle_out_v2_returns_or_TypeError O c o scope
                   Hop) grads Hin)
      as [Hs|(rows & Hs & Hnone)]; rewrite Hs; cbn [bind];
      [reflexivity|].
    unfold zip_star3. now rewrite (iter_rows_None rows Hnone).
  - intros grads g Hin Ho Hty. subst o.
    unfold push_pull_all_grads_handle_xla_v2. cbn [andb]. cbv zeta.
    fold scope.
    rewrite (for_each_grad_TypeError _ g
               (push_pull_xla_handle_out_v2_returns_or_TypeError O c Average
                  scope Hop)
               (fun idx => push_pull_xla_handle_out_v2_refuses c scope g idx
                             Hop (Hty idx))
               grads Hin).
    reflexivity.
Qed.

(** X24.  For a batch [g1 .. gn] of tensors on which the division
    type-checks, the barrier-based bulk sync returns [n] tensors: the one
    at position [i] is the engine's sync, under the barrier built from the
    handles in order and with index [i], of the reduced tensor the engine
    returned for the compressed gradient at position [i], divided by
    [size()] when the default operator is [Average] and then decompressed.
    No property of the handles (so no order of completion) enters. *)
Theorem barrier_sync_keeps_positions (c : Compression elem) (sparse : bool)
    (o : string) (g : Tensor elem) (gs : list (Tensor elem)) :
  handle_average_backwards_compatibility O None None = Ok o ->
  let scope := tf_name_scope "zzzzhhahHaDistributedGradientTape_Push_Pull" in
  let wire := fun (t : Tensor elem) (idx : Z) =>
                _push_pull_xla_v2 O (fst (compress c t)) scope idx in
  let reduced := fun (t : Tensor elem) (idx : Z) =>
                   decompress c
                     (if String.eqb o Average
                      then averaged O t (fst (wire t idx))
                      else fst (wire t idx))
                     (snd (compress c t)) in
  let barrier :=
    _my_barrier_handle_out O
      (map (fun p => snd (wire (snd p) (fst p))) (enumerate 1 (g :: gs))) in
  let result :=
    map (fun p => _sync_tensors_handle_out_v2 O (reduced (snd p) (fst p))
                    barrier (name (fst (wire (snd p) (fst p)))) (fst p))
        (enumerate 1 (g :: gs)) in
  Forall (fun p => String.eqb o Average = true ->
                   dtype (fst (wire (snd p) (fst p))) = dtype (snd p))
         (enumerate 1 (g :: gs)) ->
  push_pull_all_grads_handle_xla_v2 O (map Some (g :: gs)) c sparse
  = Ok result
  /\ List.length result = List.length (g :: gs)
  /\ forall i t,
       nth_error (g :: gs) i = Some t ->
       nth_error result i
       = Some (_sync_tensors_handle_out_v2 O (reduced t (Z.of_nat i + 1))
                 barrier (name (fst (wire t (Z.of_nat i + 1))))
                 (Z.of_nat i + 1)).
Proof.
  intros Hop scope wire reduced barrier result Hty.
  set (F := fun (t : Tensor elem) (idx : Z) =>
              (reduced t idx, name (fst (wire t idx)), snd (wire t idx))).
  assert (HF : Forall (fun p =>
                 push_pull_xla_handle_out_v2 O (snd p) scope None c None false
                   (fst p) = Ok (F (snd p) (fst p)))
                 (enumerate 1 (g :: gs))).
  { revert Hty. apply Forall_impl. intros [idx t] H. cbn [fst snd] in *.
    exact (push_pull_xla_handle_out_v2_divides c o scope t idx Hop H). }
  set (pushed := map (fun p => F (snd p) (fst p)) (enumerate 1 (g :: gs))).
  split; [|split].
  - unfold push_pull_all_grads_handle_xla_v2. fold scope. cbn [andb].
    cbv zeta.
    rewrite (for_each_grad_Forall _ F (g :: gs) HF). fold pushed.
    cbn [bind].
    assert (Hne : exists r rs, pushed = r :: rs)
      by (unfold pushed; simpl; eauto).
    destruct Hne as (r & rs & Hpushed).
    rewrite Hpushed at 1. rewrite zip_star3_Some. rewrite <- Hpushed.
    cbn [bind]. f_equal.
    rewrite combine_map, enumerate_map, map_map.
    unfold result, pushed.
    rewrite enumerate_map, enumerate_twice, !map_map.
    apply map_ext. intros [idx t]. cbn [fst snd F].
    f_equal.
  - unfold result. now rewrite length_map, enumerate_length.
  - intros i t Hi. unfold result. rewrite nth_error_map.
    rewrite (enumerate_nth_error (g :: gs) 1 i t Hi).
    cbn [option_map fst snd].
    now replace (1 + Z.of_nat i) with (Z.of_nat i + 1) by lia.
Qed.

(** The one-shot bulk sync: the per-tensor results are handed to the
    engine's bulk sync after the gradients themselves, and the tensors the
    bulk sync returns are corrected by the markers of the handle it returns
    last. *)
Lemma one_shot_corrects_by_last_handle (c : Compression elem) (sparse : bool)
    (g : Tensor elem) (gs : list (Tensor elem))
    (rs : list (Tensor elem * string)) (synced : list (Tensor elem))
    (last : Tensor elem) (s0 s1 : elem) :
  let scope := tf_name_scope "DistributedGradientTape_Push_Pull" in
  let batch := densified sparse (g :: gs) in
  Forall2 (fun p r => push_pull_xla O (snd p) scope None c None false (fst p)
                      = Ok r) (enumerate 1 batch) rs ->
  _sync_all_tensors O (batch ++ map fst rs)
    (repeat "throwaway_dummy"%string (List.length batch) ++ map snd rs)
  = synced ++ [last] ->
  readable_markers last s0 s1 ->
  push_pull_all_grads_sync_one_shot_xla O (map Some (g :: gs)) c sparse
  = Ok (map (corrected s0 s1) synced).
Proof.
  intros scope batch Hrs Hsync Hread.
  unfold push_pull_all_grads_sync_one_shot_xla. cbv zeta.
  rewrite batch_densified. fold batch. fold scope.
  rewrite (for_each_grad_Forall2 _ batch rs Hrs). cbn [bind].
  destruct (densified_cons sparse g gs) as (g' & gs' & Hb).
  fold batch in Hb.
  assert (Hne : exists r rs', rs = r :: rs').
  { rewrite Hb in Hrs. exact (Forall2_cons_left _ _ _ _ Hrs). }
  destruct Hne as (r & rs' & ->).
  rewrite zip_star2_Some. cbn [bind].
  rewrite tensors_of_Some, length_map. unfold sync_grads_one_shot.
  rewrite Hsync, last_item_app. cbn [bind]. unfold tf_reshape_flat.
  rewrite (marker_gt_readable last s0 s1 Hread). cbn [bind].
  rewrite removelast_last. f_equal.
  unfold tf_cond, corrected, tf_identity.
  destruct (egtb s0 s1); [reflexivity | now rewrite map_id].
Qed.

Lemma sync_after_barrier_is_plain (barrier : Tensor elem) :
  (forall b t nm, exists m0 m1,
      readable_markers (fst (_sync_tensors_handle_out O b t nm)) m0 m1) ->
  forall l : list (Tensor elem * string),
    sequence
      (map (fun '(item, aa) =>
              pred <- marker_gt item ;;
              Ok (tf_cond pred (fun _ => tf_identity aa)
                               (fun _ => tf_identity aa)))
           (map (fun '(tensor, item) =>
                   _sync_tensors_handle_out O barrier tensor item) l))
    = Ok (map (fun p => snd (_sync_tensors_handle_out O barrier (fst p) (snd p)))
              l).
Proof.
  intros Hs l. induction l as [|[tensor nm] l IH]; [reflexivity|].
  cbn [map sequence fst snd].
  destruct (Hs barrier tensor nm) as (m0 & m1 & Hm).
  destruct (_sync_tensors_handle_out O barrier tensor nm) as [item aa].
  cbn [fst snd] in *. rewrite (marker_gt_readable item m0 m1 Hm).
  cbn [bind]. rewrite IH. cbn [bind]. unfold tf_cond, tf_identity.
  now destruct (egtb m0 m1).
Qed.

(** X25.  The barrier-based sync of [push_pull_all_grads_handle_xla]
    compares the markers of every handle the engine's sync returns and then
    returns the synced tensor on both branches: the result is what the
    engine's sync returned for the per-tensor results, in order, under the
    barrier built from their handles, whichever marker is larger. *)
Theorem handle_xla_returns_synced (c : Compression elem) (sparse : bool)
    (g : Tensor elem) (gs : list (Tensor elem))
    (rs : list (Tensor elem * string * Tensor elem)) :
  let scope := tf_name_scope "xxxxDistributedGradientTape_Push_Pull" in
  let batch := densified sparse (g :: gs) in
  let barrier := _my_barrier_handle_out O (map snd rs) in
  Forall2 (fun p r =>
             push_pull_xla_handle_out O (snd p) scope None c None false (fst p)
             = Ok r) (enumerate 1 batch) rs ->
  (forall b t nm, exists m0 m1,
      readable_markers (fst (_sync_tensors_handle_out O b t nm)) m0 m1) ->
  push_pull_all_grads_handle_xla O (map Some (g :: gs)) c sparse
  = Ok (map (fun r => snd (_sync_tensors_handle_out O barrier (fst (fst r))
                             (snd (fst r)))) rs)
  /\ List.length rs = List.length (g :: gs).
Proof.
  intros scope batch barrier Hrs Hs. split.
  - unfold push_pull_all_grads_handle_xla. cbv zeta.
    rewrite batch_densified. fold batch. fold scope.
    rewrite (for_each_grad_Forall2 _ batch rs Hrs). cbn [bind].
    destruct (densified_cons sparse g gs) as (g' & gs' & Hb).
    fold batch in Hb.
    assert (Hne : exists r rs', rs = r :: rs').
    { rewrite Hb in Hrs. exact (Forall2_cons_left _ _ _ _ Hrs). }
    destruct Hne as (r & rs' & Hrs').
    rewrite Hrs' at 1. rewrite zip_star3_Some. rewrite <- Hrs'.
    cbn [bind]. fold barrier.
    rewrite (sync_after_barrier_is_plain barrier Hs).
    rewrite combine_map, map_map. reflexivity.
  - rewrite <- (Forall2_length Hrs), enumerate_length.
    apply densified_length.
Qed.

Lemma corrected_values (m0 m1 : elem) (x : Tensor elem) :
  values (corrected m0 m1 x)
  = if egtb m0 m1
    then map (fun v => eadd (dtype x) v (eofZ (dtype x) 1)) (values x)
    else values x.
Proof. unfold corrected. now destruct (egtb m0 m1). Qed.

(** C5 (as amended).  The per-tensor paths [push_pull_xla] and
    [push_pull_xla_handle_out] and the one-shot bulk sync add 1 to every
    element when the first marker of the handle exceeds the second, and
    leave the tensor as it is otherwise; the correction comes before the
    decompression and the division.  [push_pull_xla_handle_out_v2], on
    which the barrier-based bulk sync [push_pull_all_grads_handle_xla_v2]
    is built, does not look at the markers: it hands the handle on as the
    engine returned it and post-processes the reduced tensor as it is. *)
Theorem marker_correction_by_path (c : Compression elem) :
  (forall m0 m1 (x : Tensor elem),
      values (corrected m0 m1 x)
      = if egtb m0 m1
        then map (fun v => eadd (dtype x) v (eofZ (dtype x) 1)) (values x)
        else values x)
  /\ (forall t scope op o async idx s h m0 m1,
         handle_average_backwards_compatibility O op None = Ok o ->
         _push_pull_xla O (fst (compress c t)) scope idx = (s, h) ->
         readable_markers h m0 m1 ->
         push_pull_xla O t scope None c op async idx
         = (x <- post_process O o async t
                   (decompress c (corrected m0 m1 s) (snd (compress c t))) ;;
            Ok (x, name s))
         /\ push_pull_xla_handle_out O t scope None c op async idx
            = (x <- post_process O o async t (corrected m0 m1 s) ;;
               Ok (x, name s, h)))
  /\ (forall sparse g gs rs synced last s0 s1,
         let scope := tf_name_scope "DistributedGradientTape_Push_Pull" in
         let batch := densified sparse (g :: gs) in
         Forall2 (fun p r =>
                    push_pull_xla O (snd p) scope None c None false (fst p)
                    = Ok r) (enumerate 1 batch) rs ->
         _sync_all_tensors O (batch ++ map fst rs)
           (repeat "throwaway_dummy"%string (List.length batch) ++ map snd rs)
         = synced ++ [last] ->
         readable_markers last s0 s1 ->
         push_pull_all_grads_sync_one_shot_xla O (map Some (g :: gs)) c sparse
         = Ok (map (corrected s0 s1) synced))
  /\ (forall t scope op o async idx,
         handle_average_backwards_compatibility O op None = Ok o ->
         push_pull_xla_handle_out_v2 O t scope None c op async idx
         = (let wire := _push_pull_xla_v2 O (fst (compress c t)) scope idx in
            x <- post_process O o async t (fst wire) ;;
            Ok (decompress c x (snd (compress c t)), name (fst wire),
                snd wire))).
Proof.
  split; [|split; [|split]].
  - apply corrected_values.
  - intros t scope op o async idx s h m0 m1 Hop He Hm. split.
    + exact (push_pull_xla_eq O t scope c op o async idx s h m0 m1 Hop He Hm).
    + exact (push_pull_xla_handle_out_eq O t scope c op o async idx s h m0 m1
               Hop He Hm).
  - intros sparse g gs rs synced last s0 s1.
    exact (one_shot_corrects_by_last_handle c sparse g gs rs synced last s0 s1).
  - intros t scope op o async idx Hop.
    exact (push_pull_xla_handle_out_v2_eq O t scope c op o async idx Hop).
Qed.

(** C9.  On the empty gradient list the wrapper raises [IndexError]: the
    one-shot function indexes the columns of an empty [zip]. *)
Theorem one_shot_wrapper_raises_on_empty_list (c : Compression elem)
    (sparse : bool) :
  push_pull_all_grads_sync_one_shot_xla_wrapper O [] c sparse = Raise IndexError
  /\ push_pull_all_grads_sync_one_shot_xla O [] c sparse = Raise IndexError.
Proof. split; unfold push_pull_all_grads_sync_one_shot_xla_wrapper,
         push_pull_all_grads_sync_one_shot_xla; now destruct sparse. Qed.

End Batches.
(** ** Compression, the operator argument, and configuration *)

Section Bracketing.

Context {elem : Type} {E : Platform elem}.
Variable O : Ops elem.

Lemma corrected_dtype (m0 m1 : elem) (x : Tensor elem) :
  dtype (corrected m0 m1 x) = dtype x.
Proof. unfold corrected. now destruct (egtb m0 m1). Qed.

(** C8.  [push_pull_xla_handle_out] compresses the tensor and never
    decompresses the result: it post-processes and returns the tensor of
    the wire.  Without division the returned tensor has the element type
    of the wire; with division (operator [Average], async off) a wire
    tensor of another element type than the input makes the function raise
    [TypeError].  The sibling [push_pull_xla] decompresses before it
    post-processes. *)
Theorem handle_out_skips_decompress (c : Compression elem) (t : Tensor elem)
    (scope : string) (op : option string) (o : string) (async : bool)
    (idx : Z) (s h : Tensor elem) (m0 m1 : elem) :
  handle_average_backwards_compatibility O op None = Ok o ->
  _push_pull_xla O (fst (compress c t)) scope idx = (s, h) ->
  readable_markers h m0 m1 ->
  push_pull_xla_handle_out O t scope None c op async idx
  = (x <- post_process O o async t (corrected m0 m1 s) ;; Ok (x, name s, h))
  /\ (String.eqb o Average && negb async = false ->
      push_pull_xla_handle_out O t scope None c op async idx
      = Ok (corrected m0 m1 s, name s, h)
      /\ dtype (corrected m0 m1 s) = dtype s)
  /\ (String.eqb o Average && negb async = true ->
      dtype s <> dtype t ->
      push_pull_xla_handle_out O t scope None c op async idx = Raise TypeError)
  /\ push_pull_xla O t scope None c op async idx
     = (x <- post_process O o async t
               (decompress c (corrected m0 m1 s) (snd (compress c t))) ;;
        Ok (x, name s)).
Proof.
  intros Hop He Hm.
  pose proof (push_pull_xla_handle_out_eq O t scope c op o async idx s h m0 m1
                Hop He Hm) as Hout.
  split; [exact Hout|]. split; [|split].
  - intro Hno. rewrite Hout. unfold post_process. rewrite Hno.
    split; [reflexivity | apply corrected_dtype].
  - intros Hdiv Hty. rewrite Hout. unfold post_process. rewrite Hdiv.
    rewrite divided_other_type; [reflexivity|].
    now rewrite corrected_dtype.
  - exact (push_pull_xla_eq O t scope c op o async idx s h m0 m1 Hop He Hm).
Qed.

(** X26.  Where each variant puts the compression: [push_pull] and
    [push_pull_xla] compress before the transfer and decompress the
    transferred tensor before the post-processing;
    [push_pull_xla_handle_out_v2] compresses before the transfer and
    decompresses after the post-processing; [push_pull_kickoff] hands the
    tensor to the engine uncompressed and returns the engine's result.
    With the default compression [push_pull], [push_pull_xla] and the two
    handle-out variants post-process the reduced tensor itself. *)
Theorem compression_bracketing_by_variant (t : Tensor elem) (scope : string)
    (op : option string) (o : string) (async : bool) (idx : Z) :
  handle_average_backwards_compatibility O op None = Ok o ->
  let post := post_process O o async t in
  (forall c : Compression elem,
      push_pull O t scope None c op async
      = post (decompress c (_push_pull O (fst (compress c t)) scope)
                         (snd (compress c t))))
  /\ (forall (c : Compression elem) s h m0 m1,
         _push_pull_xla O (fst (compress c t)) scope idx = (s, h) ->
         readable_markers h m0 m1 ->
         push_pull_xla O t scope None c op async idx
         = (x <- post (decompress c (corrected m0 m1 s) (snd (compress c t))) ;;
            Ok (x, name s)))
  /\ (forall c : Compression elem,
         let wire := _push_pull_xla_v2 O (fst (compress c t)) scope idx in
         push_pull_xla_handle_out_v2 O t scope None c op async idx
         = (x <- post (fst wire) ;;
            Ok (decompress c x (snd (compress c t)), name (fst wire),
                snd wire)))
  /\ (forall c : Compression elem,
         let wire := _push_pull_kickoff_xla O t scope idx in
         push_pull_kickoff O t scope None c op async idx
         = Ok (fst wire, String.append (name (fst wire)) (str idx)))
  /\ (push_pull O t scope None Compression_none op async
      = post (_push_pull O t scope)
      /\ (forall s h m0 m1,
             _push_pull_xla O t scope idx = (s, h) ->
             readable_markers h m0 m1 ->
             push_pull_xla O t scope None Compression_none op async idx
             = (x <- post (corrected m0 m1 s) ;; Ok (x, name s))
             /\ push_pull_xla_handle_out O t scope None Compression_none op
                  async idx
                = (x <- post (corrected m0 m1 s) ;; Ok (x, name s, h)))
      /\ push_pull_xla_handle_out_v2 O t scope None Compression_none op async idx
         = (x <- post (fst (_push_pull_xla_v2 O t scope idx)) ;;
            Ok (x, name (fst (_push_pull_xla_v2 O t scope idx)),
                snd (_push_pull_xla_v2 O t scope idx)))).
Proof.
  intros Hop post.
  assert (H1 : forall c : Compression elem,
             push_pull O t scope None c op async
             = post (decompress c (_push_pull O (fst (compress c t)) scope)
                                (snd (compress c t))))
    by (intro c; exact (push_pull_eq O t scope c op o async Hop)).
  assert (H2 : forall (c : Compression elem) s h m0 m1,
             _push_pull_xla O (fst (compress c t)) scope idx = (s, h) ->
             readable_markers h m0 m1 ->
             push_pull_xla O t scope None c op async idx
             = (x <- post (decompress c (corrected m0 m1 s)
                             (snd (compress c t))) ;;
                Ok (x, name s)))
    by (intros c s h m0 m1 He Hm;
        exact (push_pull_xla_eq O t scope c op o async idx s h m0 m1 Hop He Hm)).
  assert (H3 : forall c : Compression elem,
             let wire := _push_pull_xla_v2 O (fst (compress c t)) scope idx in
             push_pull_xla_handle_out_v2 O t scope None c op async idx
             = (x <- post (fst wire) ;;
                Ok (decompress c x (snd (compress c t)), name (fst wire),
                    snd wire)))
    by (intro c; exact (push_pull_xla_handle_out_v2_eq O t scope c op o async
                          idx Hop)).
  split; [exact H1|]. split; [exact H2|]. split; [exact H3|].
  split; [intro c; exact (push_pull_kickoff_eq O t scope c op o async idx Hop)|].
  split; [exact (H1 Compression_none)|].
  split; [|exact (H3 Compression_none)].
  intros s h m0 m1 He Hm. split.
  - exact (H2 Compression_none s h m0 m1 He Hm).
  - exact (push_pull_xla_handle_out_eq O t scope Compression_none op o async
             idx s h m0 m1 Hop He Hm).
Qed.

(** C10 (as amended).  The engine call of [push_pull] does not depend on
    the operator: the operator only decides whether the transferred tensor
    is divided by [size()], which happens exactly when it is [Average] and
    async is off; [Sum] and [Adasum] give the same result.  The division is
    the call of [_div]; where the transferred tensor has the element type
    of the input it returns the quotient. *)
Theorem operator_only_selects_division (t : Tensor elem) (scope : string)
    (c : Compression elem) (async : bool) :
  (forall op, handle_average_backwards_compatibility O (Some op) None = Ok op) ->
  (forall op,
      push_pull O t scope None c (Some op) async
      = if String.eqb op Average && negb async
        then divided O t (transferred O c t scope)
        else Ok (transferred O c t scope))
  /\ (dtype (transferred O c t scope) = dtype t ->
      forall op,
        push_pull O t scope None c (Some op) async
        = Ok (if String.eqb op Average && negb async
              then averaged O t (transferred O c t scope)
              else transferred O c t scope))
  /\ push_pull O t scope None c (Some Sum) async
     = push_pull O t scope None c (Some Adasum) async
  /\ (forall op1 op2,
         String.eqb op1 Average = String.eqb op2 Average ->
         push_pull O t scope None c (Some op1) async
         = push_pull O t scope None c (Some op2) async).
Proof.
  intro Hcompat.
  assert (H : forall op,
             push_pull O t scope None c (Some op) async
             = if String.eqb op Average && negb async
               then divided O t (transferred O c t scope)
               else Ok (transferred O c t scope))
    by (intro op; apply push_pull_eq, Hcompat).
  split; [exact H|]. split; [|split].
  - intros Hty op. rewrite (H op), (divided_same_type O _ _ Hty).
    now destruct (String.eqb op Average && negb async).
  - now rewrite (H Sum), (H Adasum).
  - intros op1 op2 Heq. rewrite (H op1), (H op2). now rewrite Heq.
Qed.

Variable KerasDistributed : Type.
Variable bps_k_DistributedOptimizer :
  Optimizer elem -> option string -> Compression elem -> bool ->
  Result KerasDistributed.

(** C7.  With the async flag set and a configured worker count not greater
    than 1, [_DistributedOptimizer.__init__] fails its assertion, and so
    [DistributedOptimizer] raises for every optimizer it does not hand to
    the Keras binding. *)
Theorem async_needs_two_workers (env : Environ) (optimizer : Optimizer elem)
    (name : option string) (use_locking : bool) (c : Compression elem)
    (sparse : bool) (op : string) (sflag sworkers : string) (flag workers : Z) :
  env "BYTEPS_ENABLE_ASYNC"%string = Some sflag -> py_int sflag = Ok flag ->
  flag <> 0 ->
  env "DMLC_NUM_WORKER"%string = Some sworkers -> py_int sworkers = Ok workers ->
  workers <= 1 ->
  _DistributedOptimizer_init env optimizer name use_locking c sparse op
  = Raise (AssertionError "Async is only valid for distributed training")
  /\ (optimizer_class optimizer <> KerasOptimizer ->
      forall passes, exists e,
        DistributedOptimizer KerasDistributed bps_k_DistributedOptimizer env
          optimizer name use_locking c sparse passes op = Raise e)
  /\ (optimizer_class optimizer = LegacyOptimizer ->
      op <> Adasum ->
      forall passes, passes <= 1 ->
        DistributedOptimizer KerasDistributed bps_k_DistributedOptimizer env
          optimizer name use_locking c sparse passes op
        = Raise (AssertionError "Async is only valid for distributed training")).
Proof.
  intros Hflag Hpflag Hnz Hw Hpw Hle.
  assert (Hinit : _DistributedOptimizer_init env optimizer name use_locking c
                    sparse op
                  = Raise (AssertionError
                             "Async is only valid for distributed training")).
  { unfold _DistributedOptimizer_init. rewrite Hflag, Hpflag. cbn [bind].
    destruct (Z.eqb_spec flag 0) as [|_]; [contradiction|]. cbn [negb].
    rewrite Hw, Hpw. cbn [bind].
    destruct (Z.gtb_spec workers 1) as [|_]; [lia|]. reflexivity. }
  split; [exact Hinit|]. split.
  - intros Hclass passes. unfold DistributedOptimizer.
    destruct (optimizer_class optimizer);
      [|congruence|eexists; reflexivity].
    destruct (String.eqb op Adasum); [eexists; reflexivity|].
    destruct (passes >? 1); [eexists; reflexivity|].
    rewrite Hinit. eexists; reflexivity.
  - intros Hclass Hop passes Hpasses. unfold DistributedOptimizer.
    rewrite Hclass. apply String.eqb_neq in Hop. rewrite Hop.
    destruct (Z.gtb_spec passes 1) as [|_]; [lia|]. now rewrite Hinit.
Qed.

End Bracketing.
(** ** The one-shot wrapper on a non-empty batch *)

Section OneShotWrapper.

Context {elem : Type} {E : Platform elem}.
Variable O : Ops elem.

Lemma Forall2_compose {A B C : Type} (R1 : A -> B -> Prop)
    (R2 : B -> C -> Prop) (R : A -> C -> Prop) :
  (forall a b c, R1 a b -> R2 b c -> R a c) ->
  forall l1 l2 l3, Forall2 R1 l1 l2 -> Forall2 R2 l2 l3 -> Forall2 R l1 l3.
Proof.
  intros HR l1 l2 l3 H12. revert l3.
  induction H12 as [|a b l1 l2 Hab _ IH]; intros l3 H23;
    inversion H23; subst; constructor; eauto.
Qed.

Lemma Forall2_enumerate {A B : Type} (P : A -> B -> Prop) (l : list A) :
  forall start rs,
    Forall2 (fun p r => P (snd p) r) (enumerate start l) rs -> Forall2 P l rs.
Proof.
  induction l as [|x l IH]; intros start rs H; simpl in H;
    inversion H; subst; constructor; eauto.
Qed.

Lemma Forall2_map_right {A B C : Type} (P : A -> C -> Prop) (f : B -> C)
    (l : list A) (rs : list B) :
  Forall2 (fun a r => P a (f r)) l rs -> Forall2 P l (map f rs).
Proof. induction 1; simpl; constructor; assumption. Qed.

Lemma Forall2_map_left {A B C : Type} (P : B -> C -> Prop) (f : A -> B)
    (l : list A) (rs : list C) :
  Forall2 (fun a r => P (f a) r) l rs -> Forall2 P (map f l) rs.
Proof. induction 1; simpl; constructor; assumption. Qed.

Lemma Forall_exists_Forall2 {A B : Type} (R : A -> B -> Prop) (l : list A) :
  Forall (fun a => exists b, R a b) l -> exists l', Forall2 R l l'.
Proof.
  induction 1 as [|a l [b Hb] _ [l' IH]].
  - exists []. constructor.
  - exists (b :: l'). now constructor.
Qed.

Lemma Forall_enumerate {A : Type} (P : A -> Prop) (l : list A) :
  Forall P l -> forall start, Forall (fun p => P (snd p)) (enumerate start l).
Proof. induction 1; intro start; simpl; constructor; auto. Qed.

(** The first loop of the wrapper on a list of tensors. *)
Lemma cast_half_to_single_Some (ts : list (Tensor elem)) :
  cast_half_to_single (map Some ts)
  = Ok (map (fun t => DType_eqb (dtype t) float16) ts,
        map Some (map (fun t => if DType_eqb (dtype t) float16
                                then tf_dtypes_cast t float32 else t) ts)).
Proof.
  induction ts as [|t ts IH]; [reflexivity|].
  cbn [map cast_half_to_single]. rewrite IH. cbn [bind].
  now destruct (DType_eqb (dtype t) float16).
Qed.

(** The second loop restores [float16] where the first loop recorded it. *)
Lemma cast_back_to_half_dtypes (ts : list (Tensor elem)) :
  forall rs,
    Forall2 (fun t r => dtype r = dtype (if DType_eqb (dtype t) float16
                                         then tf_dtypes_cast t float32 else t))
            ts rs ->
    Forall2 (fun t r => dtype r = dtype t) ts
            (cast_back_to_half (map (fun t => DType_eqb (dtype t) float16) ts) rs).
Proof.
  induction ts as [|t ts IH]; intros rs H; inversion H; subst;
    cbn [map cast_back_to_half zip_with]; constructor.
  - destruct (DType_eqb (dtype t) float16) eqn:Hd.
    + apply DType_eqb_eq in Hd. now rewrite Hd.
    + assumption.
  - now apply IH.
Qed.

(** [push_pull_xla] with the default compression on an engine that keeps
    element types: it returns, and keeps the element type where the
    division does. *)
Lemma push_pull_xla_keeps_dtype (o : string) (scope : string) :
  handle_average_backwards_compatibility O None None = Ok o ->
  (forall t sc idx, exists m0 m1,
      readable_markers (snd (_push_pull_xla O t sc idx)) m0 m1) ->
  (forall t sc idx, dtype (fst (_push_pull_xla O t sc idx)) = dtype t) ->
  forall g idx,
    String.eqb o Average = false \/ tf_has_div = true
    \/ is_floating (dtype g) = true ->
    exists r,
      push_pull_xla O g scope None Compression_none None false idx = Ok r
      /\ dtype (fst r) = dtype g.
Proof.
  intros Hop Hh Hd g idx Hkeep.
  destruct (_push_pull_xla O (fst (compress Compression_none g)) scope idx)
    as [s h] eqn:He.
  destruct (Hh (fst (compress Compression_none g)) scope idx) as (m0 & m1 & Hm).
  rewrite He in Hm. cbn [snd] in Hm.
  rewrite (push_pull_xla_eq O g scope Compression_none None o false idx s h
             m0 m1 Hop He Hm).
  cbn [decompress Compression_none].
  assert (Hs : dtype s = dtype g).
  { specialize (Hd g scope idx). cbn [compress Compression_none fst] in He.
    now rewrite He in Hd. }
  assert (Hc : dtype (corrected m0 m1 s) = dtype g)
    by now rewrite corrected_dtype.
  rewrite post_process_eq.
  destruct (String.eqb o Average) eqn:Ho; cbn [andb negb].
  - rewrite (proj2 (DType_eqb_eq _ _) Hc). cbn [bind].
    eexists. split; [reflexivity|]. cbn [fst].
    rewrite averaged_dtype; [exact Hc|].
    destruct Hkeep as [Hk|[Hk|Hk]]; [discriminate | now left | right].
    now rewrite Hc.
  - cbn [bind]. eexists. split; [reflexivity | exact Hc].
Qed.

(** X19.  For a non-empty list of tensors, an engine that keeps element
    types and whose bulk sync returns one tensor per gradient followed by
    its handle, the default compression, and a division that keeps the
    element type (the default operator is not [Average], or TensorFlow has
    [tf.div], or every gradient is floating): the wrapper returns a list of
    the same length with the element types of its input. *)
Lemma one_shot_wrapper_keeps_dtypes (sparse : bool) (o : string)
    (g : Tensor elem) (gs : list (Tensor elem)) :
  String.eqb o Average = false \/ tf_has_div = true
  \/ Forall (fun t => is_floating (dtype t) = true) (g :: gs) ->
  handle_average_backwards_compatibility O None None = Ok o ->
  (forall t sc idx, exists m0 m1,
      readable_markers (snd (_push_pull_xla O t sc idx)) m0 m1) ->
  (forall t sc idx, dtype (fst (_push_pull_xla O t sc idx)) = dtype t) ->
  (forall tensors avg names,
      List.length tensors = List.length avg ->
      exists synced last s0 s1,
        _sync_all_tensors O (tensors ++ avg) names = synced ++ [last]
        /\ readable_markers last s0 s1
        /\ Forall2 (fun a s => dtype s = dtype a) avg synced) ->
  exists ret,
    push_pull_all_grads_sync_one_shot_xla_wrapper O (map Some (g :: gs))
      Compression_none sparse = Ok ret
    /\ Forall2 (fun t r => dtype r = dtype t) (g :: gs) ret
    /\ List.length ret = List.length (g :: gs).
Proof.
  intros Hkeep Hop Hh Hd Hsync.
  unfold push_pull_all_grads_sync_one_shot_xla_wrapper.
  rewrite cast_half_to_single_Some. cbn [bind].
  set (up := fun t : Tensor elem =>
               if DType_eqb (dtype t) float16 then tf_dtypes_cast t float32
               else t).
  set (scope := tf_name_scope "DistributedGradientTape_Push_Pull").
  set (batch := densified sparse (up g :: map up gs)).
  set (P := fun t : Tensor elem =>
              String.eqb o Average = false \/ tf_has_div = true
              \/ is_floating (dtype t) = true).
  assert (HP : Forall P (g :: gs)).
  { destruct Hkeep as [Hk|[Hk|Hk]].
    - apply Forall_forall. intros t _. now left.
    - apply Forall_forall. intros t _. right. now left.
    - revert Hk. apply Forall_impl. intros t Ht. right. now right. }
  assert (Hup : Forall2 (fun t u => dtype u = dtype (up t)) (g :: gs) batch).
  { apply (Forall2_compose (fun t u => u = up t)
             (fun a b => dtype b = dtype a /\ values b = values a)
             _ (fun a b c Hab Hbc => eq_trans (proj1 Hbc) (f_equal dtype Hab))
             (g :: gs) (up g :: map up gs) batch).
    - change (up g :: map up gs) with (map up (g :: gs)).
      generalize (g :: gs). intro l. induction l; simpl; constructor; auto.
    - apply densified_same. }
  assert (HPb : Forall P batch).
  { apply Forall_forall. intros u Hu.
    destruct (proj1 (Forall_forall P (g :: gs)) HP) with (x := g)
      as [Hk|[Hk|_]]; [now left | now left | now (right; left) |].
    clear - HP Hup Hu.
    induction Hup as [|t u' l l' Htu _ IH]; [destruct Hu|].
    inversion HP as [|? ? Ht Hl]; subst.
    destruct Hu as [<-|Hu]; [|exact (IH Hl Hu)].
    destruct Ht as [Hk|[Hk|Hk]]; [now left | now (right; left) |].
    right. right. rewrite Htu. unfold up.
    destruct (DType_eqb (dtype t) float16); [reflexivity | exact Hk]. }
  destruct (Forall_exists_Forall2
              (fun p r =>
                 push_pull_xla O (snd p) scope None Compression_none None false
                   (fst p) = Ok r
                 /\ dtype (fst r) = dtype (snd p))
              (enumerate 1 batch)) as (rs & Hrs).
  { generalize (Forall_enumerate P batch HPb 1).
    apply Forall_impl. intros [idx t] Ht. cbn [fst snd] in *.
    exact (push_pull_xla_keeps_dtype o scope Hop Hh Hd t idx Ht). }
  assert (Hrun : Forall2 (fun p r =>
                    push_pull_xla O (snd p) scope None Compression_none None
                      false (fst p) = Ok r) (enumerate 1 batch) rs)
    by (revert Hrs; apply Forall2_impl; now intros p r [H _]).
  assert (Havg : Forall2 (fun t a => dtype a = dtype t) batch (map fst rs)).
  { apply Forall2_map_right.
    apply (Forall2_enumerate (fun t r => dtype (fst r) = dtype t) _ 1).
    revert Hrs. apply Forall2_impl. now intros p r [_ H]. }
  destruct (Hsync batch (map fst rs)
              (repeat "throwaway_dummy"%string (List.length batch)
               ++ map snd rs) (Forall2_length Havg))
    as (synced & last & s0 & s1 & Hout & Hread & Hsynced).
  change (map up (g :: gs)) with (up g :: map up gs).
  rewrite (one_shot_corrects_by_last_handle O Compression_none sparse (up g)
             (map up gs) rs synced last s0 s1 Hrun Hout Hread).
  cbn [bind].
  assert (Hret : Forall2 (fun t r => dtype r = dtype (up t)) (g :: gs)
                   (map (corrected s0 s1) synced)).
  { apply Forall2_map_right.
    apply (Forall2_compose (fun t u => dtype u = dtype (up t))
             (fun (u x : Tensor elem) => dtype x = dtype u) _
             (fun a b x Hab Hbx =>
                eq_trans (corrected_dtype s0 s1 x) (eq_trans Hbx Hab))
             (g :: gs) batch synced Hup).
    apply (Forall2_compose (fun (u a : Tensor elem) => dtype a = dtype u)
             (fun (a x : Tensor elem) => dtype x = dtype a) _
             (fun u a x Hua Hax => eq_trans Hax Hua)
             batch (map fst rs) synced Havg Hsynced). }
  eexists. split; [reflexivity|]. split.
  - exact (cast_back_to_half_dtypes (g :: gs) _ Hret).
  - symmetry.
    exact (Forall2_length (cast_back_to_half_dtypes (g :: gs) _ Hret)).
Qed.

End OneShotWrapper.
(** * More of the module: the optimizer *)

Section OptimizerFacts.

Context {elem : Type} {E : Platform elem}.
Variable O : Ops elem.
Variable KerasDistributed : Type.
Variable bps_k_DistributedOptimizer :
  Optimizer elem -> option string -> Compression elem -> bool ->
  Result KerasDistributed.

Lemma densify_option_map (grads : list (option (Tensor elem))) :
  densify grads
  = map (option_map (fun g => if indexed_slices g then tf_convert_to_tensor g
                              else g)) grads.
Proof.
  unfold densify. apply map_ext. intros [g|]; [|reflexivity].
  simpl. now destruct (indexed_slices g).
Qed.

Lemma batch_option_map (sparse : bool) (grads : list (option (Tensor elem))) :
  (if sparse then densify grads else grads)
  = map (option_map (fun g => if sparse && indexed_slices g
                              then tf_convert_to_tensor g else g)) grads.
Proof.
  destruct sparse; cbn [andb].
  - apply densify_option_map.
  - rewrite <- (map_id grads) at 1. apply map_ext. now intros [g|].
Qed.

Lemma forallb_same {A : Type} (f g : A -> bool) (l : list A) :
  (forall x, f x = g x) -> forallb f l = forallb g l.
Proof.
  intro H. induction l as [|x l IH]; simpl; [reflexivity|].
  now rewrite H, IH.
Qed.

Lemma forallb_of_map {A B : Type} (f : B -> bool) (g : A -> B) (l : list A) :
  forallb f (map g l) = forallb (fun x => f (g x)) l.
Proof. induction l as [|x l IH]; simpl; [reflexivity|]. now rewrite IH. Qed.

(** The comprehension [[push_pull(grad, ...) if grad is not None else grad
    for grad in grads]] of the optimizer and of the tape: it returns when
    the division type-checks on every tensor that is divided, and raises
    [TypeError] otherwise. *)
Lemma push_pull_each (scope : string) (c : Compression elem) (async : bool)
    (o : string) :
  handle_average_backwards_compatibility O None None = Ok o ->
  forall grads,
    sequence (map (fun grad : option (Tensor elem) =>
                     match grad with
                     | Some g =>
                         r <- push_pull O g scope None c None async ;;
                         Ok (Some r)
                     | None => Ok None
                     end) grads)
    = if forallb (fun grad : option (Tensor elem) =>
                    match grad with
                    | Some g =>
                        negb (String.eqb o Average && negb async)
                        || DType_eqb (dtype (transferred O c g scope)) (dtype g)
                    | None => true
                    end) grads
      then Ok (map (option_map (fun g =>
                      if String.eqb o Average && negb async
                      then averaged O g (transferred O c g scope)
                      else transferred O c g scope)) grads)
      else Raise TypeError.
Proof.
  intros Hop grads.
  induction grads as [|[g|] grads IH]; cbn [map sequence forallb];
    [reflexivity| |].
  - rewrite (push_pull_eq O g scope c None o async Hop), post_process_eq.
    destruct (String.eqb o Average && negb async); cbn [negb orb].
    + destruct (DType_eqb (dtype (transferred O c g scope)) (dtype g));
        cbn [bind andb]; [|reflexivity].
      rewrite IH. now destruct (forallb _ grads).
    + cbn [bind andb]. rewrite IH. now destruct (forallb _ grads).
  - cbn [bind andb]. rewrite IH. now destruct (forallb _ grads).
Qed.

Lemma combine_fst_snd {A B C : Type} (f : A -> C) (l : list (A * B)) :
  combine (map f (map fst l)) (map snd l)
  = map (fun p => (f (fst p), snd p)) l.
Proof.
  induction l as [|[a b] l IH]; simpl; [reflexivity|]. now rewrite IH.
Qed.

(** X1.  With more than one participant and async off, [compute_gradients]
    returns one pair per pair of the wrapped optimizer, in order, with the
    same variable; a gradient that is [None] stays [None], every other
    gradient is replaced by its push-pull, divided by [size()] exactly when
    the default operator is [Average].  It returns when that division
    type-checks on every gradient and raises the [TypeError] of the
    division otherwise. *)
Theorem compute_gradients_reduces_in_place (self : _DistributedOptimizer elem)
    (o : string) (gv : option (Tensor elem) * Tensor elem)
    (gvs : list (option (Tensor elem) * Tensor elem)) :
  size O > 1 ->
  _enable_async self = false ->
  handle_average_backwards_compatibility O None None = Ok o ->
  opt_compute_gradients (_optimizer self) = gv :: gvs ->
  let scope := tf_name_scope (String.append (_name self) "_Push_Pull") in
  let dense := fun g : Tensor elem =>
                 if _sparse_as_dense self && indexed_slices g
                 then tf_convert_to_tensor g else g in
  let reduce := fun g : Tensor elem =>
                  if String.eqb o Average
                  then averaged O g (transferred O (_compression self) g scope)
                  else transferred O (_compression self) g scope in
  let result := map (fun p => (option_map (fun g => reduce (dense g)) (fst p),
                               snd p)) (gv :: gvs) in
  let divides := fun g : Tensor elem =>
                   negb (String.eqb o Average)
                   || DType_eqb
                        (dtype (transferred O (_compression self) g scope))
                        (dtype g) in
  compute_gradients O self
  = (if forallb (fun p => match fst p with
                          | Some g => divides (dense g)
                          | None => true
                          end) (gv :: gvs)
     then Ok result else Raise TypeError)
  /\ map snd result = map snd (gv :: gvs)
  /\ List.length result = List.length (gv :: gvs)
  /\ (forall i, nth_error (map fst result) i = Some None
                <-> nth_error (map fst (gv :: gvs)) i = Some None).
Proof.
  intros Hsize Hsync Hop Hgrads scope dense reduce result divides.
  split; [|split; [|split]].
  - unfold compute_gradients. rewrite Hgrads, Hsync.
    destruct (Z.gtb_spec (size O) 1) as [_|]; [|lia].
    cbn [andb negb unpack_pairs bind].
    unfold push_pull_grads. rewrite Hsync. fold scope.
    rewrite (push_pull_each scope (_compression self) false o Hop).
    rewrite batch_option_map. fold dense.
    rewrite !forallb_of_map.
    replace (forallb _ (gv :: gvs))
      with (forallb (fun p : option (Tensor elem) * Tensor elem =>
                       match fst p with
                       | Some g => divides (dense g)
                       | None => true
                       end) (gv :: gvs)).
    + destruct (forallb _ (gv :: gvs)); cbn [bind]; [|reflexivity].
      f_equal. unfold result.
      rewrite map_map, combine_fst_snd. apply map_ext.
      intros [[g|] v]; [|reflexivity]. cbn [fst snd option_map]. f_equal.
      f_equal. unfold reduce. now rewrite andb_true_r.
    + apply forallb_same. intros [[g|] v]; [|reflexivity].
      cbn [fst option_map]. unfold divides. now rewrite andb_true_r.
  - unfold result. rewrite map_map. reflexivity.
  - unfold result. now rewrite length_map.
  - intro i. unfold result. rewrite map_map. rewrite !nth_error_map.
    destruct (nth_error (gv :: gvs) i) as [[[g|] v]|]; cbn; split;
      intro H; congruence.
Qed.

(** X2.  On an empty list of pairs the two reducing paths raise
    [ValueError] ([zip] of nothing cannot be unpacked), the others return:
    [compute_gradients] raises with more than one participant and async off
    and returns the empty list otherwise; [apply_gradients] raises in async
    mode and hands over to the wrapped optimizer otherwise. *)
Theorem empty_pairs_raise_on_the_reducing_paths
    (self : _DistributedOptimizer elem) :
  opt_compute_gradients (_optimizer self) = [] ->
  (size O > 1 -> _enable_async self = false ->
   exists msg, compute_gradients O self = Raise (ValueError msg))
  /\ (size O <= 1 \/ _enable_async self = true ->
      compute_gradients O self = Ok [])
  /\ (_enable_async self = true ->
      exists msg, apply_gradients O self [] = Raise (ValueError msg))
  /\ (_enable_async self = false ->
      apply_gradients O self []
      = Ok (opt_apply_gradients (_optimizer self) [])).
Proof.
  intro Hgrads. unfold compute_gradients, apply_gradients. rewrite Hgrads.
  repeat split.
  - intros Hsize Hsync. rewrite Hsync.
    destruct (Z.gtb_spec (size O) 1) as [_|]; [|lia].
    eexists. reflexivity.
  - intros [Hsize | Hasync].
    + destruct (Z.gtb_spec (size O) 1) as [|_]; [lia|]. reflexivity.
    + rewrite Hasync. now rewrite andb_false_r.
  - intro Hasync. rewrite Hasync. eexists. reflexivity.
  - intro Hsync. now rewrite Hsync.
Qed.

Lemma combine_with_map {A B : Type} (f : A -> B) (l : list A) :
  combine l (map f l) = map (fun x => (x, f x)) l.
Proof. induction l as [|x l IH]; simpl; [reflexivity|]. now rewrite IH. Qed.

(** What the async branch of [apply_gradients] hands to [tf.assign]: for
    every variable, in order, the transfer of its delta, undivided. *)
Lemma apply_gradients_transfers (self : _DistributedOptimizer elem)
    (o : string) (gv : option (Tensor elem) * Tensor elem)
    (gvs : list (option (Tensor elem) * Tensor elem)) :
  _enable_async self = true ->
  handle_average_backwards_compatibility O None None = Ok o ->
  let scope := tf_name_scope (String.append (_name self) "_Push_Pull") in
  let dense := fun g : Tensor elem =>
                 if _sparse_as_dense self && indexed_slices g
                 then tf_convert_to_tensor g else g in
  let applied := opt_apply_gradients (_optimizer self) (gv :: gvs) in
  let delta := fun p : Z * Tensor elem =>
                 tf_subtract (nth (Z.to_nat (fst p)) applied (snd p))
                             (tf_convert_to_tensor (snd p)) in
  apply_gradients O self (gv :: gvs)
  = if tf_has_assign
    then Ok (map (fun p => transferred O (_compression self) (dense (delta p))
                             scope)
                 (enumerate 0 (map snd (gv :: gvs))))
    else Raise AttributeError.
Proof.
  intros Hasync Hop scope dense applied delta.
  unfold apply_gradients. rewrite Hasync. cbn [unpack_pairs bind].
  fold applied. unfold push_pull_grads. fold scope.
  rewrite batch_option_map. fold dense.
  rewrite (push_pull_grads_async O self o Hasync Hop).
  cbn [bind]. rewrite combine_with_map, enumerate_map, !map_map.
  cbn [map enumerate fst snd].
  destruct tf_has_assign; [|reflexivity].
  cbn [tensors_of option_map]. do 2 f_equal.
  generalize (0 + 1). generalize (map snd gvs). intro l.
  induction l as [|x l IH]; intro start; cbn [map enumerate tensors_of];
    [reflexivity|].
  cbn [fst snd option_map tensors_of]. now rewrite IH.
Qed.

(** X3.  [apply_gradients] in async mode uses [tf.assign] unguarded: on a
    TensorFlow without it, every non-empty list of pairs raises
    [AttributeError]. *)
Theorem apply_gradients_needs_tf_assign (self : _DistributedOptimizer elem)
    (o : string) (gv : option (Tensor elem) * Tensor elem)
    (gvs : list (option (Tensor elem) * Tensor elem)) :
  _enable_async self = true ->
  handle_average_backwards_compatibility O None None = Ok o ->
  tf_has_assign = false ->
  apply_gradients O self (gv :: gvs) = Raise AttributeError.
Proof.
  intros Hasync Hop Hassign.
  rewrite (apply_gradients_transfers self o gv gvs Hasync Hop).
  now rewrite Hassign.
Qed.


(** X4.  [DistributedOptimizer] uses its [op] argument only to refuse
    [Adasum]: two calls that differ in an operator other than [Adasum]
    return the same result, so an optimizer built with [op=Sum] reduces
    exactly as one built with [op=Average]. *)
Theorem DistributedOptimizer_ignores_op (env : Environ)
    (optimizer : Optimizer elem) (name : option string) (use_locking : bool)
    (c : Compression elem) (sparse : bool) (passes : Z) (op1 op2 : string) :
  op1 <> Adasum -> op2 <> Adasum ->
  DistributedOptimizer KerasDistributed bps_k_DistributedOptimizer env
    optimizer name use_locking c sparse passes op1
  = DistributedOptimizer KerasDistributed bps_k_DistributedOptimizer env
      optimizer name use_locking c sparse passes op2.
Proof.
  intros H1 H2. unfold DistributedOptimizer.
  apply String.eqb_neq in H1. apply String.eqb_neq in H2.
  rewrite H1, H2. reflexivity.
Qed.


(** X6.  Whatever [_DistributedOptimizer.__init__] returns stores its
    arguments, is named after the wrapped optimizer unless a name is
    given, is in async mode only when [int] of [DMLC_NUM_WORKER] is above
    1, and is in sync mode exactly when [BYTEPS_ENABLE_ASYNC] is unset or
    [int] of it is 0. *)
Theorem constructed_optimizer_invariant (env : Environ)
    (optimizer : Optimizer elem) (name : option string) (use_locking : bool)
    (c : Compression elem) (sparse : bool) (op : string)
    (d : _DistributedOptimizer elem) :
  _DistributedOptimizer_init env optimizer name use_locking c sparse op = Ok d ->
  _optimizer d = optimizer
  /\ _compression d = c
  /\ _sparse_as_dense d = sparse
  /\ _use_locking d = use_locking
  /\ _name d = match name with
               | None => String.append "Distributed" (type_name optimizer)
               | Some n => n
               end
  /\ (_enable_async d = true ->
      exists s w, env "DMLC_NUM_WORKER"%string = Some s
                  /\ py_int s = Ok w /\ w > 1)
  /\ (_enable_async d = false <->
      env "BYTEPS_ENABLE_ASYNC"%string = None
      \/ exists s, env "BYTEPS_ENABLE_ASYNC"%string = Some s
                   /\ py_int s = Ok 0).
Proof.
  unfold _DistributedOptimizer_init. intro H.
  destruct (env "BYTEPS_ENABLE_ASYNC"%string) as [sflag|] eqn:Hflag.
  - destruct (py_int sflag) as [flag|e] eqn:Hp; [|discriminate].
    cbn [bind] in H.
    destruct (Z.eqb_spec flag 0) as [Hz|Hnz]; cbn [negb] in H.
    + cbn [bind] in H. injection H as <-. cbn.
      repeat split; try discriminate.
      * intros _. right. exists sflag. now subst.
    + destruct (env "DMLC_NUM_WORKER"%string) as [sw|] eqn:Hw; [|discriminate].
      destruct (py_int sw) as [w|e] eqn:Hpw; [|discriminate].
      cbn [bind] in H.
      destruct (Z.gtb_spec w 1) as [Hgt|Hle]; [|discriminate].
      cbn [bind] in H. injection H as <-. cbn.
      repeat split; try discriminate.
      * intros _. exists sw, w. repeat split; [assumption | lia].
      * intros [Hnone | (s & Hs & Hps)]; [discriminate|].
        injection Hs as <-. rewrite Hp in Hps. injection Hps as ->.
        contradiction.
  - cbn [bind negb Z.eqb] in H. injection H as <-. cbn.
    repeat split; try discriminate. intros _. now left.
Qed.

End OptimizerFacts.
(** * More of the module: gradient lists *)

Section GradientLists.

Context {elem : Type} {E : Platform elem}.
Variable O : Ops elem.

Lemma cast_half_to_single_None (grads : list (option (Tensor elem))) :
  In None grads -> cast_half_to_single grads = Raise AttributeError.
Proof.
  induction grads as [|[g|] grads IH]; intro H.
  - destruct H.
  - destruct H as [H|H]; [discriminate|].
    cbn [cast_half_to_single]. now rewrite (IH H).
  - reflexivity.
Qed.

Lemma In_None_densify (grads : list (option (Tensor elem))) :
  In None grads -> In None (densify grads).
Proof.
  intro H. unfold densify.
  change (@None (Tensor elem))
    with ((fun grad : option (Tensor elem) =>
             match grad with
             | Some g => if indexed_slices g then Some (tf_convert_to_tensor g)
                         else Some g
             | None => None
             end) None).
  now apply in_map.
Qed.

Lemma In_None_batch (sparse : bool) (grads : list (option (Tensor elem))) :
  In None grads -> In None (if sparse then densify grads else grads).
Proof. destruct sparse; [apply In_None_densify | auto]. Qed.

(** X7.  The two XLA wrappers read [item.dtype] of every gradient: a list
    holding a [None] raises [AttributeError], and so does the tape's
    [gradient] when XLA is enabled and there is more than one participant. *)
Theorem xla_wrappers_raise_on_a_None_gradient
    (grads : list (option (Tensor elem))) (c : Compression elem)
    (sparse : bool) (self : _DistributedGradientTape elem) :
  In None grads ->
  push_pull_all_grads_sync_one_shot_xla_wrapper O grads c sparse
  = Raise AttributeError
  /\ tape_push_pull_grads_xla_wrapper O self grads = Raise AttributeError
  /\ (tape_enable_xla self = true -> size O > 1 ->
      tape_gradient self = grads -> gradient O self = Raise AttributeError).
Proof.
  intro H. pose proof (cast_half_to_single_None grads H) as Hc.
  assert (Ht : tape_push_pull_grads_xla_wrapper O self grads
               = Raise AttributeError)
    by (unfold tape_push_pull_grads_xla_wrapper; now rewrite Hc).
  split; [|split].
  - unfold push_pull_all_grads_sync_one_shot_xla_wrapper. now rewrite Hc.
  - exact Ht.
  - intros Hxla Hsize Hg. unfold gradient, tape__push_pull_grads.
    destruct (Z.gtb_spec (size O) 1) as [_|]; [|lia].
    rewrite Hxla, Hg, Ht. reflexivity.
Qed.

Lemma push_pull_kickoff_returns (c : Compression elem) (o : string)
    (scope : string) :
  handle_average_backwards_compatibility O None None = Ok o ->
  forall g idx,
    (exists r, push_pull_kickoff O g scope None c None false idx = Ok r)
    \/ push_pull_kickoff O g scope None c None false idx = Raise TypeError.
Proof.
  intros Hop g idx. left. eexists.
  exact (push_pull_kickoff_eq O g scope c None o false idx Hop).
Qed.

(** The rows of a comprehension over a list holding a [None] cannot be
    unzipped. *)
Lemma zip_star2_after_None {A B : Type}
    (f : Tensor elem -> Z -> Result (A * B))
    (grads : list (option (Tensor elem))) :
  (forall g idx, (exists r, f g idx = Ok r) \/ f g idx = Raise TypeError) ->
  In None grads ->
  (rows <- for_each_grad f grads ;; zip_star2 rows) = Raise TypeError.
Proof.
  intros Hf Hin.
  destruct (for_each_grad_with_None f Hf grads Hin)
    as [Hs|(rows & Hs & Hnone)]; rewrite Hs; cbn [bind]; [reflexivity|].
  unfold zip_star2. now rewrite (iter_rows_None rows Hnone).
Qed.

Lemma zip_star3_after_None {A B C : Type}
    (f : Tensor elem -> Z -> Result (A * B * C))
    (grads : list (option (Tensor elem))) :
  (forall g idx, (exists r, f g idx = Ok r) \/ f g idx = Raise TypeError) ->
  In None grads ->
  (rows <- for_each_grad f grads ;; zip_star3 rows) = Raise TypeError.
Proof.
  intros Hf Hin.
  destruct (for_each_grad_with_None f Hf grads Hin)
    as [Hs|(rows & Hs & Hnone)]; rewrite Hs; cbn [bind]; [reflexivity|].
  unfold zip_star3. now rewrite (iter_rows_None rows Hnone).
Qed.

Lemma bind_assoc_Raise {A B C : Type} (c : Result A) (k : A -> Result B)
    (k' : B -> Result C) (e : Exn) :
  (x <- c ;; k x) = Raise e ->
  (x <- c ;; y <- k x ;; k' y) = Raise e.
Proof.
  destruct c as [a|e0]; cbn [bind]; intro H; [now rewrite H | congruence].
Qed.

(** X8.  The batch functions pass a [None] gradient through their first
    comprehension and then fail on it: a list holding a [None] raises
    [TypeError] in every one of them (in those that compare markers,
    provided the per-tensor handles can be read). *)
Theorem batch_functions_raise_on_a_None_gradient
    (grads : list (option (Tensor elem))) (c : Compression elem)
    (sparse : bool) (o : string) (self : _DistributedGradientTape elem) :
  handle_average_backwards_compatibility O None None = Ok o ->
  In None grads ->
  push_pull_all_grads_handle_xla_v2 O grads c sparse = Raise TypeError
  /\ push_pull_all_grads_dummy O grads c sparse = Raise TypeError
  /\ push_pull_all_grads_half_xla_half_tf O grads c sparse = Raise TypeError
  /\ ((forall t sc idx, exists m0 m1,
          readable_markers (snd (_push_pull_xla O t sc idx)) m0 m1) ->
      push_pull_all_grads_sync_one_shot_xla O grads c sparse = Raise TypeError
      /\ push_pull_all_grads_handle_xla O grads c sparse = Raise TypeError
      /\ tape_push_pull_grads_xla O self grads = Raise TypeError).
Proof.
  intros Hop Hin. split; [|split; [|split]].
  - unfold push_pull_all_grads_handle_xla_v2. cbn [andb]. cbv zeta.
    apply bind_assoc_Raise, zip_star3_after_None; [|exact Hin].
    exact (push_pull_xla_handle_out_v2_returns_or_TypeError O c o _ Hop).
  - unfold push_pull_all_grads_dummy. cbv zeta.
    apply bind_assoc_Raise, zip_star3_after_None;
      [|exact (In_None_batch sparse grads Hin)].
    exact (push_pull_xla_handle_out_v2_returns_or_TypeError O c o _ Hop).
  - unfold push_pull_all_grads_half_xla_half_tf. cbv zeta.
    destruct (for_each_grad_with_None _
                (push_pull_kickoff_returns c o
                   (tf_name_scope "yyyyDistributedGradientTape_Push_Pull") Hop)
                (if sparse then densify grads else grads)
                (In_None_batch sparse grads Hin))
      as [Hs|(rows & Hs & Hnone)]; rewrite Hs; cbn [bind]; [reflexivity|].
    now rewrite (iter_rows_None rows Hnone).
  - intro Hh. split; [|split].
    + unfold push_pull_all_grads_sync_one_shot_xla. cbv zeta.
      apply bind_assoc_Raise, zip_star2_after_None;
        [|exact (In_None_batch sparse grads Hin)].
      exact (push_pull_xla_returns_or_TypeError O c o _ Hop Hh).
    + unfold push_pull_all_grads_handle_xla. cbv zeta.
      apply bind_assoc_Raise, zip_star3_after_None;
        [|exact (In_None_batch sparse grads Hin)].
      exact (push_pull_xla_handle_out_returns_or_TypeError O c o _ Hop Hh).
    + unfold tape_push_pull_grads_xla. cbv zeta.
      apply bind_assoc_Raise, zip_star2_after_None;
        [|exact (In_None_batch (tape_sparse_as_dense self) grads Hin)].
      exact (push_pull_xla_returns_or_TypeError O (tape_compression self) o _
               Hop Hh).
Qed.

(** X9.  On the empty list the batch functions that index the columns of
    [zip] raise [IndexError]; the kickoff-and-sync function, which does not,
    returns the empty list. *)
Theorem batch_functions_on_the_empty_list (c : Compression elem)
    (sparse : bool) (self : _DistributedGradientTape elem) :
  push_pull_all_grads_handle_xla O [] c sparse = Raise IndexError
  /\ push_pull_all_grads_handle_xla_v2 O [] c sparse = Raise IndexError
  /\ push_pull_all_grads_dummy O [] c sparse = Raise IndexError
  /\ tape_push_pull_grads_xla O self [] = Raise IndexError
  /\ tape_push_pull_grads_xla_wrapper O self [] = Raise IndexError
  /\ push_pull_all_grads_half_xla_half_tf O [] c sparse = Ok [].
Proof.
  unfold push_pull_all_grads_handle_xla, push_pull_all_grads_handle_xla_v2,
    push_pull_all_grads_dummy, tape_push_pull_grads_xla_wrapper,
    tape_push_pull_grads_xla, push_pull_all_grads_half_xla_half_tf.
  destruct sparse, (tape_sparse_as_dense self); repeat split.
Qed.

End GradientLists.
(** * More of the module: the tape, the default path, kickoff and broadcast *)

Section TapeAndBroadcast.

Context {elem : Type} {E : Platform elem}.
Variable O : Ops elem.

(** X10.  The XLA path of the tape hands the gradients and the per-tensor
    results to the bulk sync but returns the per-tensor results themselves,
    corrected by the markers of the handle the bulk sync returns last: the
    tensors the bulk sync returns are not used. *)
Theorem tape_xla_path_returns_the_unsynced_tensors
    (self : _DistributedGradientTape elem) (g : Tensor elem)
    (gs : list (Tensor elem)) (rs : list (Tensor elem * string))
    (outs : list (Tensor elem)) (last : Tensor elem) (s0 s1 : elem) :
  let scope := tf_name_scope (String.append (tape_name self) "_Push_Pull") in
  let batch := densified (tape_sparse_as_dense self) (g :: gs) in
  Forall2 (fun p r =>
             push_pull_xla O (snd p) scope None (tape_compression self) None
               false (fst p) = Ok r) (enumerate 1 batch) rs ->
  _sync_all_tensors O (batch ++ map fst rs)
    (repeat "throwaway_dummy"%string (List.length batch) ++ map snd rs)
  = outs ++ [last] ->
  readable_markers last s0 s1 ->
  tape_push_pull_grads_xla O self (map Some (g :: gs))
  = Ok (map (corrected s0 s1) (map fst rs))
  /\ List.length (map fst rs) = List.length (g :: gs).
Proof.
  intros scope batch Hrs Hsync Hread. split.
  - unfold tape_push_pull_grads_xla. cbv zeta.
    rewrite batch_densified. fold batch. fold scope.
    rewrite (for_each_grad_Forall2 _ batch rs Hrs). cbn [bind].
    destruct (densified_cons (tape_sparse_as_dense self) g gs)
      as (g' & gs' & Hb).
    fold batch in Hb.
    assert (Hne : exists r rs', rs = r :: rs').
    { rewrite Hb in Hrs. exact (Forall2_cons_left _ _ _ _ Hrs). }
    destruct Hne as (r & rs' & Hrs').
    rewrite Hrs' at 1. rewrite zip_star2_Some. rewrite <- Hrs'.
    cbn [bind].
    rewrite tensors_of_Some, length_map. unfold sync_grads_one_shot.
    rewrite Hsync, last_item_app. cbn [bind]. unfold tf_reshape_flat.
    rewrite (marker_gt_readable last s0 s1 Hread). cbn [bind]. f_equal.
    unfold tf_cond, corrected, tf_identity.
    destruct (egtb s0 s1); [reflexivity | now rewrite map_id].
  - rewrite length_map, <- (Forall2_length Hrs), enumerate_length.
    apply densified_length.
Qed.

(** X18.  Without XLA and with more than one participant, [gradient]
    returns the gradients of the wrapped tape in order, a [None] left as it
    is and every tensor replaced by its push-pull, divided by [size()]
    exactly when the default operator is [Average]: the tape never passes
    an async flag.  It returns when that division type-checks on every
    gradient and raises the [TypeError] of the division otherwise. *)
Theorem tape_gradient_reduces_in_place (self : _DistributedGradientTape elem)
    (o : string) :
  size O > 1 ->
  tape_enable_xla self = false ->
  handle_average_backwards_compatibility O None None = Ok o ->
  let scope := tf_name_scope (String.append (tape_name self) "_Push_Pull") in
  let dense := fun g : Tensor elem =>
                 if tape_sparse_as_dense self && indexed_slices g
                 then tf_convert_to_tensor g else g in
  let reduce := fun g : Tensor elem =>
                  if String.eqb o Average
                  then averaged O g (transferred O (tape_compression self) g scope)
                  else transferred O (tape_compression self) g scope in
  let divides := fun g : Tensor elem =>
                   negb (String.eqb o Average)
                   || DType_eqb
                        (dtype (transferred O (tape_compression self) g scope))
                        (dtype g) in
  gradient O self
  = (if forallb (fun grad => match grad with
                             | Some g => divides (dense g)
                             | None => true
                             end) (tape_gradient self)
     then Ok (map (option_map (fun g => reduce (dense g))) (tape_gradient self))
     else Raise TypeError)
  /\ (forall r, gradient O self = Ok r ->
                List.length r = List.length (tape_gradient self)).
Proof.
  intros Hsize Hxla Hop scope dense reduce divides.
  assert (Hrun : gradient O self
                 = (if forallb (fun grad => match grad with
                                            | Some g => divides (dense g)
                                            | None => true
                                            end) (tape_gradient self)
                    then Ok (map (option_map (fun g => reduce (dense g)))
                               (tape_gradient self))
                    else Raise TypeError)).
  { unfold gradient, tape__push_pull_grads, tape_push_pull_grads.
    destruct (Z.gtb_spec (size O) 1) as [_|]; [|lia].
    rewrite Hxla. fold scope.
    rewrite (push_pull_each O scope (tape_compression self) false o Hop).
    rewrite batch_option_map. fold dense. rewrite forallb_of_map.
    replace (forallb _ (tape_gradient self))
      with (forallb (fun grad : option (Tensor elem) =>
                       match grad with
                       | Some g => divides (dense g)
                       | None => true
                       end) (tape_gradient self)).
    - destruct (forallb _ (tape_gradient self)); cbn [bind]; [|reflexivity].
      f_equal. rewrite map_map. apply map_ext. intros [g|]; [|reflexivity].
      cbn [option_map]. f_equal. unfold reduce. now rewrite andb_true_r.
    - apply forallb_same. intros [g|]; [|reflexivity].
      cbn [option_map]. unfold divides. now rewrite andb_true_r. }
  split; [exact Hrun|].
  intros r Hr. rewrite Hrun in Hr.
  destruct (forallb _ (tape_gradient self)); [|discriminate].
  injection Hr as <-. now rewrite length_map.
Qed.

Lemma hvd_push_pull_each_Some (grads : list (option (Tensor elem))) :
  (exists g, In (Some g) grads) ->
  hvd_push_pull_each grads = Raised (NameError "hvd").
Proof.
  intros [g H]. induction grads as [|[x|] grads IH]; [destruct H| |].
  - reflexivity.
  - destruct H as [H|H]; [discriminate|]. simpl. now rewrite (IH H).
Qed.

Lemma hvd_push_pull_each_None (grads : list (option (Tensor elem))) :
  (forall x, In x grads -> x = None) ->
  hvd_push_pull_each grads = Returned grads.
Proof.
  induction grads as [|[x|] grads IH]; intro H; [reflexivity| |].
  - specialize (H (Some x) (or_introl eq_refl)). discriminate.
  - simpl. rewrite IH; [reflexivity|]. intros x Hx. apply H. now right.
Qed.

(** X11.  Unless [BYTEPS_ENABLE_XLA] is exactly ["1"], [push_pull_all_grads]
    is the function that calls [hvd.push_pull], a name the module never
    binds: it raises [NameError] on every list that holds a tensor, and
    returns the list when every entry is [None]. *)
Theorem push_pull_all_grads_without_xla (env : Environ)
    (grads : list (option (Tensor elem))) (c : Compression elem)
    (sparse : bool) :
  enable_xla env = false ->
  ((exists g, In (Some g) grads) ->
   push_pull_all_grads O env grads c sparse = Raised (NameError "hvd"))
  /\ ((forall x, In x grads -> x = None) ->
      push_pull_all_grads O env grads c sparse = Returned grads).
Proof.
  intro Hxla. unfold push_pull_all_grads, push_pull_all_grads_all_tf_ops.
  rewrite Hxla. split.
  - intros [g Hg]. apply hvd_push_pull_each_Some.
    destruct sparse; [|eauto].
    rewrite densify_option_map.
    eexists. apply (in_map (option_map _) _ _ Hg).
  - intro Hall.
    assert (Hd : (if sparse then densify grads else grads) = grads).
    { destruct sparse; [|reflexivity]. rewrite densify_option_map.
      rewrite <- (map_id grads) at 2. apply map_ext_in.
      intros x Hx. now rewrite (Hall x Hx). }
    rewrite Hd. now apply hvd_push_pull_each_None.
Qed.

(** X12.  [push_pull_all_grads_half_xla_half_tf] on a list of tensors, the
    empty one included, returns for every position the sync of what the
    kickoff of that gradient returned, under the kickoff's tensor name
    followed by the position; the compression argument has no effect and
    nothing is divided. *)
Theorem half_xla_half_tf_syncs_each_kickoff (c : Compression elem)
    (sparse : bool) (o : string) (ts : list (Tensor elem)) :
  handle_average_backwards_compatibility O None None = Ok o ->
  let scope := tf_name_scope "yyyyDistributedGradientTape_Push_Pull" in
  let dense := fun g : Tensor elem =>
                 if sparse && indexed_slices g then tf_convert_to_tensor g
                 else g in
  push_pull_all_grads_half_xla_half_tf O (map Some ts) c sparse
  = Ok (map (fun p =>
               _sync_tensor_tf_op O
                 (fst (_push_pull_kickoff_xla O (snd p) scope (fst p)))
                 (String.append
                    (name (fst (_push_pull_kickoff_xla O (snd p) scope (fst p))))
                    (str (fst p))))
            (enumerate 1 (map dense ts)))
  /\ (forall c' : Compression elem,
         push_pull_all_grads_half_xla_half_tf O (map Some ts) c' sparse
         = push_pull_all_grads_half_xla_half_tf O (map Some ts) c sparse).
Proof.
  intros Hop scope dense.
  assert (H : forall c0 : Compression elem,
             push_pull_all_grads_half_xla_half_tf O (map Some ts) c0 sparse
             = Ok (map (fun p =>
                          _sync_tensor_tf_op O
                            (fst (_push_pull_kickoff_xla O (snd p) scope (fst p)))
                            (String.append
                               (name (fst (_push_pull_kickoff_xla O (snd p)
                                             scope (fst p))))
                               (str (fst p))))
                       (enumerate 1 (map dense ts)))).
  { intro c0. unfold push_pull_all_grads_half_xla_half_tf. cbv zeta. fold scope.
    replace (if sparse then densify (map Some ts) else map Some ts)
      with (map Some (map dense ts)).
    - rewrite (for_each_grad_total _
                 (fun g idx =>
                    (fst (_push_pull_kickoff_xla O g scope idx),
                     String.append
                       (name (fst (_push_pull_kickoff_xla O g scope idx)))
                       (str idx)))
                 (map dense ts)
                 (fun g idx => push_pull_kickoff_eq O g scope c0 None o false
                                 idx Hop)).
      cbn [bind]. rewrite iter_rows_Some. cbn [bind]. f_equal.
      rewrite map_map. reflexivity.
    - unfold dense. destruct sparse; cbn [andb].
      + now rewrite densify_Some.
      + now rewrite map_id. }
  split; [apply H|]. intro c'. now rewrite (H c'), (H c).
Qed.

Lemma append_inj_r (s a b : string) :
  String.append s a = String.append s b -> a = b.
Proof.
  induction s as [|ch s IH]; simpl; intro H; [exact H|].
  injection H as H. auto.
Qed.

Lemma str_inj (i j : Z) : str i = str j -> i = j.
Proof.
  unfold str. intro H. apply DecimalZ.to_int_inj.
  assert (Hnn : forall z, Z.to_int z <> Decimal.Pos Decimal.Nil
                          /\ Z.to_int z <> Decimal.Neg Decimal.Nil).
  { intros [|p|p]; simpl; split; try discriminate;
      intro Hp; injection Hp as Hp;
      exact (DecimalPos.Unsigned.to_uint_nonnil p Hp). }
  destruct (Hnn i) as [Hi1 Hi2]. destruct (Hnn j) as [Hj1 Hj2].
  pose proof (NilZero.isi (Z.to_int i) Hi1 Hi2) as Ei.
  pose proof (NilZero.isi (Z.to_int j) Hj1 Hj2) as Ej.
  rewrite H in Ei. rewrite Ei in Ej. now injection Ej.
Qed.

(** X13.  The tensor names [push_pull_kickoff] returns tell positions
    apart: when the engine returns tensors of one name for two different
    positions, the two names returned differ. *)
Theorem kickoff_names_differ_by_position (t1 t2 : Tensor elem)
    (scope : string) (c : Compression elem) (op : option string) (o : string)
    (async : bool) (i j : Z) (r1 r2 : Tensor elem) (n1 n2 : string) :
  handle_average_backwards_compatibility O op None = Ok o ->
  push_pull_kickoff O t1 scope None c op async i = Ok (r1, n1) ->
  push_pull_kickoff O t2 scope None c op async j = Ok (r2, n2) ->
  name r1 = name r2 ->
  i <> j ->
  n1 <> n2.
Proof.
  intros Hop H1 H2 Hname Hij Heq.
  rewrite (push_pull_kickoff_eq O t1 scope c op o async i Hop) in H1.
  rewrite (push_pull_kickoff_eq O t2 scope c op o async j Hop) in H2.
  injection H1 as <- <-. injection H2 as <- <-.
  rewrite Hname in Heq. apply append_inj_r in Heq. apply str_inj in Heq.
  contradiction.
Qed.

Variable broadcast_xla : Tensor elem -> Z -> string -> Tensor elem * string.

(** X14.  With more than one participant [broadcast_variables_xla] assigns
    to every variable, in order, the tensor [broadcast_xla] returned for
    it, with 1 added to every element when the first marker of the handle
    the bulk sync returns last exceeds the second; without variables it
    raises [IndexError]. *)
Theorem broadcast_variables_xla_assigns_in_order (v : Tensor elem)
    (vs : list (Tensor elem)) (root_rank : Z) (scope : string) :
  size O > 1 ->
  let received :=
    map (fun var => fst (broadcast_xla var root_rank scope)) (v :: vs) in
  let names :=
    repeat "throwaway_dummy"%string (List.length (v :: vs))
    ++ map (fun var => snd (broadcast_xla var root_rank scope)) (v :: vs) in
  (forall outs last s0 s1,
      _sync_all_tensors O ((v :: vs) ++ received) names = outs ++ [last] ->
      readable_markers last s0 s1 ->
      broadcast_variables_xla O broadcast_xla (v :: vs) root_rank scope
      = Ok (Some (map (fun var =>
                         (var, corrected s0 s1
                                 (fst (broadcast_xla var root_rank scope))))
                      (v :: vs))))
  /\ broadcast_variables_xla O broadcast_xla [] root_rank scope
     = Raise IndexError.
Proof.
  intros Hsize received names. unfold broadcast_variables_xla.
  destruct (Z.leb_spec (size O) 1) as [|_]; [lia|]. split; [|reflexivity].
  intros outs last s0 s1 Hsync Hread. cbv zeta.
  change (map (fun var => broadcast_xla var root_rank scope) (v :: vs))
    with (broadcast_xla v root_rank scope
          :: map (fun var => broadcast_xla var root_rank scope) vs).
  rewrite zip_star2_Some. cbn [bind].
  change (broadcast_xla v root_rank scope
          :: map (fun var => broadcast_xla var root_rank scope) vs)
    with (map (fun var => broadcast_xla var root_rank scope) (v :: vs)).
  rewrite !map_map. fold received. fold names. rewrite Hsync.
  rewrite last_item_app. cbn [bind]. unfold tf_reshape_flat.
  rewrite (marker_gt_readable last s0 s1 Hread). cbn [bind]. do 2 f_equal.
  unfold received, tf_cond, corrected, tf_identity.
  generalize (v :: vs). intro l.
  destruct (egtb s0 s1); induction l as [|x l IH]; simpl; try reflexivity;
    now rewrite IH.
Qed.

(** X16.  Once [begin] has built the broadcast op in a graph (more than one
    participant, graph mode), calling [begin] again in that graph changes
    nothing, whatever the global variables have become and whether or not
    execution is eager; in another graph the op is built again, in that
    graph. *)
Theorem hook_begin_builds_once_per_graph
    (self : BroadcastGlobalVariablesHook elem) (graph other : Z)
    (vars vars' : list (Tensor elem)) (eager : bool) :
  size O > 1 ->
  other <> graph ->
  exists built op,
    hook_begin O self false graph vars = Returned built
    /\ hook_bcast_op built = Some op
    /\ op_graph op = graph
    /\ hook_after_create_session built = Some op
    /\ hook_begin O built eager graph vars' = Returned built
    /\ exists rebuilt op',
         hook_begin O built false other vars' = Returned rebuilt
         /\ hook_bcast_op rebuilt = Some op'
         /\ op_graph op' = other
         /\ op_assignments op'
            = map (fun var => (var, broadcast O var (hook_root_rank self) ""))
                  vars'.
Proof.
  intros Hsize Hother.
  assert (Hb : forall r vs,
             broadcast_variables O vs r ""
             = Some (map (fun var => (var, broadcast O var r "")) vs)).
  { intros r vs. unfold broadcast_variables, broadcast_variables_regular.
    destruct (Z.leb_spec (size O) 1) as [|_]; [lia|]. reflexivity. }
  assert (Hsame : forall h op,
             hook_bcast_op h = Some op -> op_graph op = graph ->
             hook_begin O h eager graph vars' = Returned h).
  { intros h op Hop Hg. unfold hook_begin. rewrite Hop, Hg, Z.eqb_refl.
    reflexivity. }
  assert (Hre : forall h op,
             hook_bcast_op h = Some op -> op_graph op = graph ->
             hook_root_rank h = hook_root_rank self ->
             exists rebuilt op',
               hook_begin O h false other vars' = Returned rebuilt
               /\ hook_bcast_op rebuilt = Some op'
               /\ op_graph op' = other
               /\ op_assignments op'
                  = map (fun var => (var, broadcast O var (hook_root_rank self) ""))
                        vars').
  { intros h op Hop Hg Hr. unfold hook_begin, broadcast_global_variables.
    rewrite Hop, Hg.
    destruct (Z.eqb_spec graph other) as [Heq|_]; [symmetry in Heq; contradiction|].
    cbn [negb]. rewrite Hb. cbn [option_map]. rewrite Hr.
    eexists _, _. repeat split. }
  unfold hook_begin at 1, broadcast_global_variables.
  destruct (hook_bcast_op self) as [op0|] eqn:Hop0.
  - destruct (Z.eqb_spec (op_graph op0) graph) as [Hg|Hg]; cbn [negb].
    + exists self, op0. repeat split; try assumption.
      * exact (Hsame self op0 Hop0 Hg).
      * exact (Hre self op0 Hop0 Hg eq_refl).
    + rewrite Hb. cbn [option_map]. eexists _, _.
      split; [reflexivity|]. split; [reflexivity|]. split; [reflexivity|].
      split; [reflexivity|]. split.
      * eapply Hsame; reflexivity.
      * eapply Hre; reflexivity.
  - rewrite Hb. cbn [option_map]. eexists _, _.
    split; [reflexivity|]. split; [reflexivity|]. split; [reflexivity|].
    split; [reflexivity|]. split.
    + eapply Hsame; reflexivity.
    + eapply Hre; reflexivity.
Qed.

(** X17.  With a single participant [broadcast_global_variables] returns
    [None], so after [begin] the hook holds no op and
    [after_create_session] hands [None] to [session.run]; in eager
    execution [begin] of a fresh hook raises [RuntimeError] whatever the
    number of participants. *)
Theorem hook_without_an_op (root_rank : Z) (device : string) (graph : Z)
    (vars : list (Tensor elem)) :
  (size O <= 1 ->
   exists built,
     hook_begin O (BroadcastGlobalVariablesHook_init root_rank device) false
       graph vars = Returned built
     /\ hook_bcast_op built = None
     /\ hook_after_create_session built = None
     /\ hook_begin O built false graph vars = Returned built)
  /\ exists msg,
       hook_begin O (BroadcastGlobalVariablesHook_init root_rank device) true
         graph vars = Raised (RuntimeError msg).
Proof.
  split.
  - intro Hsize. unfold hook_begin, broadcast_global_variables,
      broadcast_variables, broadcast_variables_regular.
    cbn [BroadcastGlobalVariablesHook_init hook_bcast_op hook_root_rank
         hook_device].
    destruct (Z.leb_spec (size O) 1) as [_|]; [|lia].
    cbn [option_map]. eexists. repeat split.
  - eexists. reflexivity.
Qed.

End TapeAndBroadcast.

(** * More of the module: construction and the handle-out variant *)

Section ConstructionAndConversion.

Context {elem : Type} {E : Platform elem}.
Variable O : Ops elem.


(** X21.  With the default compression [push_pull_xla_handle_out] computes
    what [push_pull_xla] computes and returns the engine's handle besides:
    dropping the handle from its result gives the result of [push_pull_xla],
    exceptions included. *)
Theorem handle_out_agrees_with_push_pull_xla (t : Tensor elem)
    (scope : string) (average : option bool) (op : option string)
    (async : bool) (idx : Z) :
  push_pull_xla O t scope average Compression_none op async idx
  = (x <- push_pull_xla_handle_out O t scope average Compression_none op
            async idx ;;
     Ok (fst (fst x), snd (fst x)))
  /\ (forall r n h,
         push_pull_xla_handle_out O t scope average Compression_none op async idx
         = Ok (r, n, h) ->
         h = snd (_push_pull_xla O t scope idx)).
Proof.
  unfold push_pull_xla, push_pull_xla_handle_out.
  destruct (handle_average_backwards_compatibility O op average) as [o|e];
    cbn [bind]; [|split; [reflexivity | discriminate]].
  cbn [compress decompress Compression_none].
  destruct (_push_pull_xla O t scope idx) as [s h0]. cbn [fst snd].
  unfold tf_reshape_flat.
  destruct (marker_gt h0) as [pred|e]; cbn [bind];
    [|split; [reflexivity | discriminate]].
  set (x := tf_cond pred (fun _ => tf_add_one (tf_identity s))
                         (fun _ => tf_identity s)).
  destruct (if negb async
            then if String.eqb o Average
                 then _div x (tf_cast_int (size O) (dtype t)) else Ok x
            else Ok x) as [r0|e]; cbn [bind fst snd];
    [|split; [reflexivity | discriminate]].
  split; [reflexivity|]. intros r n h H. now injection H.
Qed.

End ConstructionAndConversion.
(** * Worked instances in the concrete world *)

(** C1 on a TensorFlow without [tf.div], two ranks holding the [int32]
    tensor [3; 5]: the average is a [float64] tensor. *)
Lemma push_pull_average_of_integers_witness :
  exists r,
    @push_pull Q Demo.Q_tf2 (Demo.world 2 0 0 0 0)
      (Demo.vec "g" int32 [3%Q; 5%Q]) "s" None Compression_none (Some Average)
      false = Ok r
    /\ dtype r = float64
    /\ dtype r <> int32
    /\ values r = [(6 # 2)%Q; (10 # 2)%Q].
Proof.
  exact (@push_pull_average_of_integers Q Demo.Q_tf2 (Demo.world 2 0 0 0 0)
           (Demo.vec "g" int32 [3%Q; 5%Q]) "s"
           [Demo.vec "g" int32 [3%Q; 5%Q]]
           eq_refl eq_refl eq_refl eq_refl).
Defined.

(** The same call on a TensorFlow with [tf.div] keeps [int32]. *)
Example push_pull_average_of_integers_with_tf_div :
  @push_pull Q Demo.Q_elem (Demo.world 2 0 0 0 0)
    (Demo.vec "g" int32 [3%Q; 5%Q]) "s" None Compression_none (Some Average)
    false
  = Ok (Demo.vec "g" int32 [3%Q; 5%Q])
  /\ @push_pull Q Demo.Q_tf2 (Demo.world 2 0 0 0 0)
       (Demo.vec "g" int32 [3%Q; 5%Q]) "s" None Compression_none (Some Average)
       false
     = Ok (Demo.vec "g" float64 [(6 # 2)%Q; (10 # 2)%Q]).
Proof. split; reflexivity. Qed.

(** X22 at two ranks holding [4; 6]: the sum is [8; 12], the average
    [8/2; 12/2]. *)
Lemma push_pull_sum_and_average_witness :
  push_pull (Demo.world 2 0 0 0 0) (Demo.vec "g" float32 [4%Q; 6%Q]) "s" None
    Compression_none (Some Sum) false
  = Ok (Demo.vec "g" float32 [8%Q; 12%Q])
  /\ push_pull (Demo.world 2 0 0 0 0) (Demo.vec "g" float32 [4%Q; 6%Q]) "s"
       None Compression_none (Some Average) false
     = Ok (Demo.vec "g" float32 [(8 # 2)%Q; (12 # 2)%Q]).
Proof.
  destruct (push_pull_sum_and_average (Demo.world 2 0 0 0 0)
              (Demo.vec "g" float32 [4%Q; 6%Q]) "s"
              [Demo.vec "g" float32 [4%Q; 6%Q]])
    as (Hsum & Havg & _).
  - left. reflexivity.
  - intro op. reflexivity.
  - reflexivity.
  - repeat constructor.
  - split; [exact Hsum | exact Havg].
Defined.

(** C2 at the same input: [Adasum] returns the sum [8; 12]. *)
Lemma push_pull_runs_Adasum_as_Sum_witness :
  push_pull (Demo.world 2 0 0 0 0) (Demo.vec "g" float32 [4%Q; 6%Q]) "s" None
    Compression_none (Some Adasum) false
  = Ok (Demo.vec "g" float32 [8%Q; 12%Q]).
Proof.
  destruct (push_pull_runs_Adasum_as_Sum (Demo.world 2 0 0 0 0)
              (Demo.vec "g" float32 [4%Q; 6%Q]) "s" Compression_none false)
    as (H & _).
  - reflexivity.
  - reflexivity.
  - exact H.
Defined.

(** C3 at the same input with async on: [Average] returns [8; 12]. *)
Lemma async_average_is_not_divided_witness :
  push_pull (Demo.world 2 0 0 0 0) (Demo.vec "g" float32 [4%Q; 6%Q]) "s" None
    Compression_none (Some Average) true
  = Ok (Demo.vec "g" float32 [8%Q; 12%Q]).
Proof.
  destruct (async_average_is_not_divided (Demo.world 2 0 0 0 0) Average)
    as (_ & H & _).
  - reflexivity.
  - reflexivity.
  - exact (H (Demo.vec "g" float32 [4%Q; 6%Q]) "s"%string).
Defined.

(** C4 at one rank on a TensorFlow without [tf.div]: the [int32] tensor
    [3; 5] comes back as a [float64] tensor. *)
Lemma single_participant_average_of_integers_witness :
  (exists r,
      @push_pull Q Demo.Q_tf2 (Demo.world 1 0 0 0 0)
        (Demo.vec "g" int32 [3%Q; 5%Q]) "s" None Compression_none
        (Some Average) false = Ok r
      /\ dtype r = float64
      /\ r <> Demo.vec "g" int32 [3%Q; 5%Q]
      /\ values r = [3%Q; 5%Q])
  /\ @broadcast_variables Q (Demo.world 1 0 0 0 0)
       [Demo.vec "w" float32 [1%Q]] 0 "s" = None.
Proof.
  destruct (@single_participant_average_of_integers Q Demo.Q_tf2
              (Demo.world 1 0 0 0 0) eq_refl (fun t scope => eq_refl) eq_refl)
    as (Hpp & _ & _ & Hb).
  split.
  - exact (Hpp (Demo.vec "g" int32 [3%Q; 5%Q]) "s"%string eq_refl eq_refl).
  - apply Hb.
Defined.

(** X23 at one rank, with the half-precision strategy and async on or off. *)
Lemma single_participant_is_identity_witness :
  push_pull (Demo.world 1 0 0 0 0) (Demo.vec "g" float32 [4%Q; 6%Q]) "s" None
    Demo.Compression_fp16 (Some Average) false
  = Ok (Demo.vec "g" float32 [4%Q; 6%Q])
  /\ push_pull (Demo.world 1 0 0 0 0) (Demo.vec "g" float32 [4%Q; 6%Q]) "s"
       None Compression_none (Some Sum) true
     = Ok (Demo.vec "g" float32 [4%Q; 6%Q]).
Proof.
  split.
  - apply (single_participant_is_identity (Demo.world 1 0 0 0 0)
             (Demo.vec "g" float32 [4%Q; 6%Q]) "s" Demo.Compression_fp16
             (Some Average) Average false);
      try reflexivity; [now right | repeat constructor].
  - apply (single_participant_is_identity (Demo.world 1 0 0 0 0)
             (Demo.vec "g" float32 [4%Q; 6%Q]) "s" Compression_none
             (Some Sum) Sum true);
      try reflexivity; [now right | repeat constructor].
Defined.

(** C5 in a world whose per-tensor handles carry the markers 1 and 0. *)
Lemma marker_correction_by_path_witness :
  push_pull_xla (Demo.world 2 1 0 1 0) (Demo.vec "g" float32 [4%Q; 6%Q]) "s"
    None Compression_none (Some Sum) false 1
  = Ok (Demo.vec "g" float32 [9%Q; 13%Q], "g"%string)
  /\ push_pull_all_grads_sync_one_shot_xla (Demo.world 2 0 0 1 0)
       [Some (Demo.vec "g" float32 [4%Q; 6%Q])] Compression_none false
     = Ok [Demo.vec "g" float32 [(10 # 2)%Q; (14 # 2)%Q]].
Proof.
  destruct (marker_correction_by_path (Demo.world 2 1 0 1 0) Compression_none)
    as (_ & H & _).
  destruct (marker_correction_by_path (Demo.world 2 0 0 1 0) Compression_none)
    as (_ & _ & H1 & _).
  split.
  - destruct (H (Demo.vec "g" float32 [4%Q; 6%Q]) "s"%string (Some Sum) Sum
                false 1
                (Demo.vec "g" float32 [8%Q; 12%Q]) (Demo.markers 1 0) 1%Q 0%Q)
      as (Hx & _).
    + reflexivity.
    + reflexivity.
    + exists []. reflexivity.
    + exact Hx.
  - apply (H1 false (Demo.vec "g" float32 [4%Q; 6%Q]) []
             [(Demo.vec "g" float32 [(8 # 2)%Q; (12 # 2)%Q], "g"%string)]
             [Demo.vec "g" float32 [(8 # 2)%Q; (12 # 2)%Q]]
             (Demo.markers 1 0) 1%Q 0%Q).
    + constructor; [reflexivity | constructor].
    + reflexivity.
    + exists []. reflexivity.
Defined.

(** C6 with the half-precision strategy and the default operator: the empty
    batch, a batch holding a [None], and a batch of one [float32]
    gradient. *)
Lemma barrier_sync_raises_on_some_batches_witness :
  push_pull_all_grads_handle_xla_v2 (Demo.world 2 0 0 0 0) []
    Demo.Compression_fp16 false = Raise IndexError
  /\ push_pull_all_grads_handle_xla_v2 (Demo.world 2 0 0 0 0)
       [Some (Demo.vec "g" float32 [4%Q; 6%Q]); None] Demo.Compression_fp16
       false = Raise TypeError
  /\ push_pull_all_grads_handle_xla_v2 (Demo.world 2 0 0 0 0)
       [Some (Demo.vec "g" float32 [4%Q; 6%Q])] Demo.Compression_fp16 false
     = Raise TypeError.
Proof.
  destruct (barrier_sync_raises_on_some_batches (Demo.world 2 0 0 0 0)
              Demo.Compression_fp16 false Average eq_refl)
    as (H1 & H2 & H3).
  split; [exact H1|]. split.
  - apply H2. right. left. reflexivity.
  - apply (H3 _ (Demo.vec "g" float32 [4%Q; 6%Q]));
      [left; reflexivity | reflexivity | intros idx; discriminate].
Defined.

(** X24 on a batch of two gradients. *)
Lemma barrier_sync_keeps_positions_witness :
  push_pull_all_grads_handle_xla_v2 (Demo.world 2 1 0 1 0)
    (map Some [Demo.vec "g" float32 [4%Q; 6%Q]; Demo.vec "h" float32 [1%Q]])
    Compression_none false
  = Ok [Demo.vec "g" float32 [(8 # 2)%Q; (12 # 2)%Q];
        Demo.vec "h" float32 [(2 # 2)%Q]].
Proof.
  destruct (barrier_sync_keeps_positions (Demo.world 2 1 0 1 0)
              Compression_none false Average
              (Demo.vec "g" float32 [4%Q; 6%Q]) [Demo.vec "h" float32 [1%Q]]
              eq_refl) as (H & _).
  - repeat constructor.
  - exact H.
Defined.

(** C7 with [BYTEPS_ENABLE_ASYNC=1] and [DMLC_NUM_WORKER=1]. *)
Lemma async_needs_two_workers_witness :
  _DistributedOptimizer_init
    (Demo.environ (Some "1"%string) (Some "1"%string)) Demo.sgd None false
    Compression_none false Average
  = Raise (AssertionError "Async is only valid for distributed training").
Proof.
  destruct (async_needs_two_workers unit (fun _ _ _ _ => Ok tt)
              (Demo.environ (Some "1"%string) (Some "1"%string)) Demo.sgd None
              false Compression_none false Average "1" "1" 1 1)
    as (H & _).
  - reflexivity.
  - reflexivity.
  - lia.
  - reflexivity.
  - reflexivity.
  - lia.
  - exact H.
Defined.

(** C8 with the half-precision strategy: with [Sum] the [float32] gradient
    comes back as the [float16] tensor of the wire, with [Average] the
    function raises. *)
Lemma handle_out_skips_decompress_witness :
  push_pull_xla_handle_out (Demo.world 2 0 0 0 0)
    (Demo.vec "g" float32 [4%Q; 6%Q]) "s" None Demo.Compression_fp16
    (Some Sum) false 1
  = Ok (Demo.vec "g" float16 [8%Q; 12%Q], "g"%string, Demo.markers 0 0)
  /\ push_pull_xla_handle_out (Demo.world 2 0 0 0 0)
       (Demo.vec "g" float32 [4%Q; 6%Q]) "s" None Demo.Compression_fp16
       (Some Average) false 1
     = Raise TypeError
  /\ push_pull_xla (Demo.world 2 0 0 0 0)
       (Demo.vec "g" float32 [4%Q; 6%Q]) "s" None Demo.Compression_fp16
       (Some Average) false 1
     = Ok (Demo.vec "g" float32 [(8 # 2)%Q; (12 # 2)%Q], "g"%string).
Proof.
  destruct (handle_out_skips_decompress (Demo.world 2 0 0 0 0)
              Demo.Compression_fp16 (Demo.vec "g" float32 [4%Q; 6%Q]) "s"
              (Some Sum) Sum false 1 (Demo.vec "g" float16 [8%Q; 12%Q])
              (Demo.markers 0 0) 0%Q 0%Q eq_refl eq_refl
              (ex_intro _ [] eq_refl))
    as (_ & Hsum & _).
  destruct (handle_out_skips_decompress (Demo.world 2 0 0 0 0)
              Demo.Compression_fp16 (Demo.vec "g" float32 [4%Q; 6%Q]) "s"
              (Some Average) Average false 1
              (Demo.vec "g" float16 [8%Q; 12%Q])
              (Demo.markers 0 0) 0%Q 0%Q eq_refl eq_refl
              (ex_intro _ [] eq_refl))
    as (_ & _ & Havg & Hxla).
  split; [exact (proj1 (Hsum eq_refl))|]. split.
  - apply Havg; [reflexivity | discriminate].
  - exact Hxla.
Defined.

(** X26 with the half-precision strategy: [push_pull] returns a [float32]
    tensor, [push_pull_xla_handle_out_v2] too. *)
Lemma compression_bracketing_by_variant_witness :
  push_pull (Demo.world 2 0 0 0 0) (Demo.vec "g" float32 [4%Q; 6%Q]) "s" None
    Demo.Compression_fp16 (Some Sum) false
  = Ok (Demo.vec "g" float32 [8%Q; 12%Q])
  /\ push_pull_xla_handle_out_v2 (Demo.world 2 0 0 0 0)
       (Demo.vec "g" float32 [4%Q; 6%Q]) "s" None Demo.Compression_fp16
       (Some Sum) false 1
     = Ok (Demo.vec "g" float32 [8%Q; 12%Q], "g"%string, Demo.markers 0 0).
Proof.
  destruct (compression_bracketing_by_variant (Demo.world 2 0 0 0 0)
              (Demo.vec "g" float32 [4%Q; 6%Q]) "s" (Some Sum) Sum false 1)
    as (H1 & _ & H3 & _).
  - reflexivity.
  - split; [exact (H1 Demo.Compression_fp16) | exact (H3 Demo.Compression_fp16)].
Defined.

(** C10 at two ranks: [Sum] and [Adasum] agree, [Average] divides. *)
Lemma operator_only_selects_division_witness :
  push_pull (Demo.world 2 0 0 0 0) (Demo.vec "g" float32 [4%Q; 6%Q]) "s" None
    Compression_none (Some Sum) false
  = push_pull (Demo.world 2 0 0 0 0) (Demo.vec "g" float32 [4%Q; 6%Q]) "s" None
      Compression_none (Some Adasum) false
  /\ push_pull (Demo.world 2 0 0 0 0) (Demo.vec "g" float32 [4%Q; 6%Q]) "s"
       None Compression_none (Some Average) false
     = Ok (Demo.vec "g" float32 [(8 # 2)%Q; (12 # 2)%Q]).
Proof.
  destruct (operator_only_selects_division (Demo.world 2 0 0 0 0)
              (Demo.vec "g" float32 [4%Q; 6%Q]) "s" Compression_none false)
    as (H & _ & Hsame & _).
  - intro op. reflexivity.
  - split; [exact Hsame | exact (H Average)].
Defined.

(** ** Where the claims as first stated fail *)

(** C5 as stated fails on the barrier-based paths.  In a world whose
    barrier handle carries the markers 1 and 0 (the first exceeds the
    second) [push_pull_all_grads_handle_xla] and
    [push_pull_all_grads_handle_xla_v2] return the synced tensor, not the
    synced tensor plus one. *)
Lemma barrier_paths_add_nothing :
  let O := Demo.world 2 0 0 1 0 in
  let O2 := Demo.world 2 1 0 1 0 in
  let t := Demo.vec "g" float32 [4%Q; 6%Q] in
  let synced := Demo.vec "g" float32 [(8 # 2)%Q; (12 # 2)%Q] in
  marker_gt (_my_barrier_handle_out O []) = Ok true
  /\ marker_gt (fst (_sync_tensors_handle_out O (_my_barrier_handle_out O [])
                       synced "g")) = Ok true
  /\ push_pull_all_grads_handle_xla O [Some t] Compression_none false
     = Ok [synced]
  /\ push_pull_all_grads_handle_xla O [Some t] Compression_none false
     <> Ok [tf_add_one synced]
  /\ marker_gt (snd (_push_pull_xla_v2 O2 t "s" 1)) = Ok true
  /\ push_pull_all_grads_handle_xla_v2 O2 [Some t] Compression_none false
     = Ok [synced]
  /\ push_pull_all_grads_handle_xla_v2 O2 [Some t] Compression_none false
     <> Ok [tf_add_one synced].
Proof.
  cbv zeta. repeat split; try reflexivity; vm_compute; discriminate.
Qed.

(** C10 as stated fails with async on: the operator is [Average] and the
    result is the undivided sum. *)
Lemma async_average_is_the_sum :
  let O := Demo.world 2 0 0 0 0 in
  let t := Demo.vec "g" float32 [4%Q; 6%Q] in
  let total := Demo.vec "g" float32 [8%Q; 12%Q] in
  push_pull O t "s" None Compression_none (Some Average) true = Ok total
  /\ averaged O t total = Demo.vec "g" float32 [(8 # 2)%Q; (12 # 2)%Q]
  /\ push_pull O t "s" None Compression_none (Some Average) true
     <> Ok (averaged O t total).
Proof.
  cbv zeta. repeat split; try reflexivity. vm_compute. discriminate.
Qed.

(** The one-shot wrapper on a [float32] and a [float16] gradient: two
    tensors come back, with the element types of the input. *)
Example one_shot_wrapper_on_two_gradients :
  push_pull_all_grads_sync_one_shot_xla_wrapper (Demo.world 2 0 0 0 0)
    [Some (Demo.vec "g" float32 [4%Q; 6%Q]); Some (Demo.vec "h" float16 [1%Q])]
    Compression_none false
  = Ok [Demo.vec "g" float32 [(8 # 2)%Q; (12 # 2)%Q];
        Demo.vec "h" float16 [(2 # 2)%Q]].
Proof. reflexivity. Qed.

(** The one-shot wrapper on an [int32] gradient, on a TensorFlow without
    [tf.div]: the tensor that comes back is [float64]. *)
Example one_shot_wrapper_on_an_integer_gradient :
  @push_pull_all_grads_sync_one_shot_xla_wrapper Q Demo.Q_tf2
    (Demo.world 2 0 0 0 0) [Some (Demo.vec "g" int32 [3%Q; 5%Q])]
    Compression_none false
  = Ok [Demo.vec "g" float64 [(6 # 2)%Q; (10 # 2)%Q]].
Proof. reflexivity. Qed.

(** * More worked instances *)

(** X1 on two ranks: the tensor gradient is averaged, the [None] stays. *)
Lemma compute_gradients_reduces_in_place_witness :
  compute_gradients (Demo.world 2 0 0 0 0)
    (DemoRest.wrapped
       (DemoRest.descent [(Some DemoRest.g, DemoRest.w); (None, DemoRest.b)])
       false)
  = Ok [(Some (Demo.vec "g" float32 [(8 # 2)%Q; (12 # 2)%Q]), DemoRest.w);
        (None, DemoRest.b)].
Proof.
  destruct (compute_gradients_reduces_in_place (Demo.world 2 0 0 0 0)
              (DemoRest.wrapped
                 (DemoRest.descent
                    [(Some DemoRest.g, DemoRest.w); (None, DemoRest.b)])
                 false)
              Average (Some DemoRest.g, DemoRest.w) [(None, DemoRest.b)])
    as (H & _).
  - reflexivity.
  - reflexivity.
  - reflexivity.
  - reflexivity.
  - exact H.
Defined.

(** X2 on two ranks with a wrapped optimizer that returns no pair. *)
Lemma empty_pairs_raise_on_the_reducing_paths_witness :
  (exists msg,
      compute_gradients (Demo.world 2 0 0 0 0)
        (DemoRest.wrapped (DemoRest.descent []) false)
      = Raise (ValueError msg))
  /\ compute_gradients (Demo.world 2 0 0 0 0)
       (DemoRest.wrapped (DemoRest.descent []) true) = Ok []
  /\ (exists msg,
         apply_gradients (Demo.world 2 0 0 0 0)
           (DemoRest.wrapped (DemoRest.descent []) true) []
         = Raise (ValueError msg)).
Proof.
  destruct (empty_pairs_raise_on_the_reducing_paths (Demo.world 2 0 0 0 0)
              (DemoRest.wrapped (DemoRest.descent []) false) eq_refl)
    as (H1 & _).
  destruct (empty_pairs_raise_on_the_reducing_paths (Demo.world 2 0 0 0 0)
              (DemoRest.wrapped (DemoRest.descent []) true) eq_refl)
    as (_ & H2 & H3 & _).
  split; [|split].
  - apply H1; [reflexivity | reflexivity].
  - apply H2. right. reflexivity.
  - apply H3. reflexivity.
Defined.

(** X3 on a TensorFlow without [tf.assign]. *)
Lemma apply_gradients_needs_tf_assign_witness :
  @apply_gradients Q Demo.Q_tf2 (Demo.world 2 0 0 0 0)
    (DemoRest.wrapped (DemoRest.descent []) true)
    [(Some DemoRest.g, DemoRest.w)]
  = Raise AttributeError.
Proof.
  exact (@apply_gradients_needs_tf_assign Q Demo.Q_tf2 (Demo.world 2 0 0 0 0)
           (DemoRest.wrapped (DemoRest.descent []) true) Average
           (Some DemoRest.g, DemoRest.w) [] eq_refl eq_refl eq_refl).
Defined.


(** X4: [op=Sum] and [op=Average] build the same optimizer. *)
Lemma DistributedOptimizer_ignores_op_witness :
  DistributedOptimizer unit (fun _ _ _ _ => Ok tt)
    (Demo.environ None None) Demo.sgd None false Compression_none false 1 Sum
  = DistributedOptimizer unit (fun _ _ _ _ => Ok tt)
      (Demo.environ None None) Demo.sgd None false Compression_none false 1
      Average.
Proof.
  apply DistributedOptimizer_ignores_op; discriminate.
Defined.


(** X6 with [BYTEPS_ENABLE_ASYNC= 1 ] (blanks around the digit) and
    [DMLC_NUM_WORKER=1_0]: [int] reads 1 and 10, and the optimizer is built
    in async mode. *)
Lemma constructed_optimizer_invariant_witness :
  _DistributedOptimizer_init
    (Demo.environ (Some " 1 "%string) (Some "1_0"%string)) Demo.sgd None false
    Compression_none false Average
  = Ok (DemoRest.wrapped Demo.sgd true)
  /\ _name (DemoRest.wrapped Demo.sgd true)
     = "DistributedGradientDescentOptimizer"%string
  /\ exists s w, Demo.environ (Some " 1 "%string) (Some "1_0"%string)
                   "DMLC_NUM_WORKER"%string = Some s
                 /\ Demo.int s = Ok w /\ w > 1.
Proof.
  destruct (@constructed_optimizer_invariant Q Demo.Q_elem
              (Demo.environ (Some " 1 "%string) (Some "1_0"%string)) Demo.sgd
              None false Compression_none false Average
              (DemoRest.wrapped Demo.sgd true) eq_refl)
    as (_ & _ & _ & _ & Hname & Hasync & _).
  split; [reflexivity|].
  split; [exact Hname | apply Hasync; reflexivity].
Defined.

(** X7 on a list with a [None] in second place. *)
Lemma xla_wrappers_raise_on_a_None_gradient_witness :
  push_pull_all_grads_sync_one_shot_xla_wrapper (Demo.world 2 0 0 0 0)
    [Some DemoRest.g; None] Compression_none false = Raise AttributeError
  /\ gradient (Demo.world 2 0 0 0 0) (DemoRest.tape [Some DemoRest.g; None] true)
     = Raise AttributeError.
Proof.
  destruct (xla_wrappers_raise_on_a_None_gradient (Demo.world 2 0 0 0 0)
              [Some DemoRest.g; None] Compression_none false
              (DemoRest.tape [Some DemoRest.g; None] true))
    as (H1 & _ & H3).
  - right. left. reflexivity.
  - split; [exact H1 | apply H3; reflexivity].
Defined.

(** X8 on the same list, with the default and with the half-precision
    strategy. *)
Lemma batch_functions_raise_on_a_None_gradient_witness :
  push_pull_all_grads_handle_xla_v2 (Demo.world 2 0 0 0 0)
    [Some DemoRest.g; None] Compression_none false = Raise TypeError
  /\ push_pull_all_grads_sync_one_shot_xla (Demo.world 2 0 0 0 0)
       [Some DemoRest.g; None] Compression_none false = Raise TypeError
  /\ push_pull_all_grads_handle_xla (Demo.world 2 0 0 0 0)
       [Some DemoRest.g; None] Demo.Compression_fp16 false = Raise TypeError.
Proof.
  destruct (batch_functions_raise_on_a_None_gradient (Demo.world 2 0 0 0 0)
              [Some DemoRest.g; None] Compression_none false Average
              (DemoRest.tape [] true))
    as (H1 & _ & _ & H4).
  - reflexivity.
  - right. left. reflexivity.
  - destruct (batch_functions_raise_on_a_None_gradient (Demo.world 2 0 0 0 0)
                [Some DemoRest.g; None] Demo.Compression_fp16 false Average
                (DemoRest.tape [] true))
      as (_ & _ & _ & H5).
    + reflexivity.
    + right. left. reflexivity.
    + split; [exact H1|]. split.
      * apply H4. intros t sc idx. exists 0%Q, 0%Q, []. reflexivity.
      * apply H5. intros t sc idx. exists 0%Q, 0%Q, []. reflexivity.
Defined.

(** X10 in a world where every handle carries the markers 1 and 0: the sum
    [8; 12] is corrected to [9; 13], averaged, and corrected again. *)
Lemma tape_xla_path_returns_the_unsynced_tensors_witness :
  tape_push_pull_grads_xla (Demo.world 2 1 0 1 0) (DemoRest.tape [] true)
    [Some DemoRest.g]
  = Ok [Demo.vec "g" float32 [(11 # 2)%Q; (15 # 2)%Q]].
Proof.
  refine (proj1 (tape_xla_path_returns_the_unsynced_tensors
                   (Demo.world 2 1 0 1 0)
                   (DemoRest.tape [] true) DemoRest.g []
                   [(Demo.vec "g" float32 [(9 # 2)%Q; (13 # 2)%Q], "g"%string)]
                   [Demo.vec "g" float32 [(9 # 2)%Q; (13 # 2)%Q]]
                   (Demo.markers 1 0) 1%Q 0%Q _ _ _)).
  - constructor; [reflexivity | constructor].
  - reflexivity.
  - exists []. reflexivity.
Defined.

(** X11 with [BYTEPS_ENABLE_XLA] unset. *)
Lemma push_pull_all_grads_without_xla_witness :
  push_pull_all_grads (Demo.world 2 0 0 0 0) (Demo.environ None None)
    [Some DemoRest.g] Compression_none false = Raised (NameError "hvd")
  /\ push_pull_all_grads (Demo.world 2 0 0 0 0) (Demo.environ None None)
       [None; None] Compression_none false = Returned [None; None].
Proof.
  destruct (push_pull_all_grads_without_xla (Demo.world 2 0 0 0 0)
              (Demo.environ None None) [Some DemoRest.g] Compression_none false
              eq_refl) as (H1 & _).
  destruct (push_pull_all_grads_without_xla (Demo.world 2 0 0 0 0)
              (Demo.environ None None) [None; None] Compression_none false
              eq_refl) as (_ & H2).
  split.
  - apply H1. exists DemoRest.g. left. reflexivity.
  - apply H2. intros x [<- | [<- | []]]; reflexivity.
Defined.

(** X12 on two tensors. *)
Lemma half_xla_half_tf_syncs_each_kickoff_witness :
  push_pull_all_grads_half_xla_half_tf (Demo.world 2 0 0 0 0)
    (map Some [DemoRest.g; DemoRest.w]) Demo.Compression_fp16 false
  = Ok [DemoRest.g; DemoRest.w].
Proof.
  destruct (half_xla_half_tf_syncs_each_kickoff (Demo.world 2 0 0 0 0)
              Demo.Compression_fp16 false Average [DemoRest.g; DemoRest.w]
              eq_refl) as (H & _).
  exact H.
Defined.

(** X13 at positions 1 and 2. *)
Lemma kickoff_names_differ_by_position_witness :
  push_pull_kickoff (Demo.world 2 0 0 0 0) DemoRest.g "s" None
    Compression_none None false 1 = Ok (DemoRest.g, "g1"%string)
  /\ push_pull_kickoff (Demo.world 2 0 0 0 0) DemoRest.g "s" None
       Compression_none None false 2 = Ok (DemoRest.g, "g2"%string)
  /\ "g1"%string <> "g2"%string.
Proof.
  split; [reflexivity|]. split; [reflexivity|].
  apply (kickoff_names_differ_by_position (Demo.world 2 0 0 0 0)
           DemoRest.g DemoRest.g "s" Compression_none None Average false 1 2
           DemoRest.g DemoRest.g "g1" "g2");
    [reflexivity | reflexivity | reflexivity | reflexivity | lia].
Defined.

(** X14 on two variables, the bulk sync's handle carrying 1 and 0. *)
Lemma broadcast_variables_xla_assigns_in_order_witness :
  broadcast_variables_xla (Demo.world 2 0 0 1 0) DemoRest.broadcast_xla
    [DemoRest.w; DemoRest.b] 0 "s"
  = Ok (Some [(DemoRest.w, Demo.vec "w" float32 [2%Q; 2%Q]);
              (DemoRest.b, Demo.vec "b" float32 [1%Q])]).
Proof.
  destruct (broadcast_variables_xla_assigns_in_order (Demo.world 2 0 0 1 0)
              DemoRest.broadcast_xla DemoRest.w [DemoRest.b] 0 "s")
    as (H & _).
  - reflexivity.
  - exact (H [DemoRest.w; DemoRest.b] (Demo.markers 1 0) 1%Q 0%Q eq_refl
             (ex_intro _ [] eq_refl)).
Defined.


(** X16 on two ranks, graphs 1 and 2. *)
Lemma hook_begin_builds_once_per_graph_witness :
  exists built op,
    hook_begin (Demo.world 2 0 0 0 0)
      (BroadcastGlobalVariablesHook_init 0 "") false 1 [DemoRest.w]
    = Returned built
    /\ hook_bcast_op built = Some op
    /\ op_graph op = 1
    /\ hook_after_create_session built = Some op
    /\ hook_begin (Demo.world 2 0 0 0 0) built true 1 [DemoRest.w; DemoRest.b]
       = Returned built
    /\ exists rebuilt op',
         hook_begin (Demo.world 2 0 0 0 0) built false 2 [DemoRest.w; DemoRest.b]
         = Returned rebuilt
         /\ hook_bcast_op rebuilt = Some op'
         /\ op_graph op' = 2
         /\ op_assignments op'
            = map (fun var =>
                     (var, broadcast (Demo.world 2 0 0 0 0) var 0 ""))
                  [DemoRest.w; DemoRest.b].
Proof.
  apply (hook_begin_builds_once_per_graph (Demo.world 2 0 0 0 0)
           (BroadcastGlobalVariablesHook_init 0 "") 1 2 [DemoRest.w]
           [DemoRest.w; DemoRest.b] true); [reflexivity | lia].
Defined.

(** X17 on one rank. *)
Lemma hook_without_an_op_witness :
  exists built,
    hook_begin (Demo.world 1 0 0 0 0)
      (BroadcastGlobalVariablesHook_init 0 "") false 1 [DemoRest.w]
    = Returned built
    /\ hook_bcast_op built = None
    /\ hook_after_create_session built = None
    /\ hook_begin (Demo.world 1 0 0 0 0) built false 1 [DemoRest.w]
       = Returned built.
Proof.
  destruct (hook_without_an_op (Demo.world 1 0 0 0 0) 0 "" 1 [DemoRest.w])
    as (H & _).
  apply H. reflexivity.
Defined.

(** X18 on two ranks. *)
Lemma tape_gradient_reduces_in_place_witness :
  gradient (Demo.world 2 0 0 0 0) (DemoRest.tape [Some DemoRest.g; None] false)
  = Ok [Some (Demo.vec "g" float32 [(8 # 2)%Q; (12 # 2)%Q]); None].
Proof.
  destruct (tape_gradient_reduces_in_place (Demo.world 2 0 0 0 0)
              (DemoRest.tape [Some DemoRest.g; None] false) Average)
    as (H & _).
  - reflexivity.
  - reflexivity.
  - reflexivity.
  - exact H.
Defined.

Lemma Demo_bulk_sync_contract (n : nat) (m0 m1 s0 s1 : Q)
    (tensors avg : list (Tensor Q)) (names : list string) :
  List.length tensors = List.length avg ->
  exists synced last t0 t1,
    _sync_all_tensors (Demo.world n m0 m1 s0 s1) (tensors ++ avg) names
    = synced ++ [last]
    /\ readable_markers last t0 t1
    /\ Forall2 (fun a s => dtype s = dtype a) avg synced.
Proof.
  intro Hlen. exists avg, (Demo.markers s0 s1), s0, s1.
  split; [|split].
  - cbn [_sync_all_tensors Demo.world]. f_equal.
    rewrite length_app, Hlen.
    replace (List.length avg + List.length avg)%nat
      with (2 * List.length avg)%nat by lia.
    rewrite Nat.div2_double, skipn_app, <- Hlen, skipn_all, Nat.sub_diag.
    reflexivity.
  - exists []. reflexivity.
  - clear Hlen. induction avg; constructor; auto.
Qed.

(** X19 on a [float32] and a [float16] gradient. *)
Lemma one_shot_wrapper_keeps_dtypes_witness :
  exists ret,
    push_pull_all_grads_sync_one_shot_xla_wrapper (Demo.world 2 0 0 0 0)
      (map Some [DemoRest.g; Demo.vec "h" float16 [1%Q]]) Compression_none false
    = Ok ret
    /\ Forall2 (fun t r => dtype r = dtype t)
               [DemoRest.g; Demo.vec "h" float16 [1%Q]] ret
    /\ List.length ret = 2%nat.
Proof.
  apply (one_shot_wrapper_keeps_dtypes (Demo.world 2 0 0 0 0) false Average
           DemoRest.g [Demo.vec "h" float16 [1%Q]]).
  - right. right. repeat constructor.
  - reflexivity.
  - intros t sc idx. exists 0%Q, 0%Q, []. reflexivity.
  - intros t sc idx. cbn [_push_pull_xla Demo.world fst].
    apply all_reduce_sum_dtype.
  - intros tensors avg names. apply Demo_bulk_sync_contract.
Defined.

(** X25 in a world whose handles carry the markers 1 and 0: the per-tensor
    results [9/2; 13/2] come back from the sync as they are. *)
Lemma handle_xla_returns_synced_witness :
  push_pull_all_grads_handle_xla (Demo.world 2 1 0 1 0) [Some DemoRest.g]
    Compression_none false
  = Ok [Demo.vec "g" float32 [(9 # 2)%Q; (13 # 2)%Q]].
Proof.
  refine (proj1 (handle_xla_returns_synced (Demo.world 2 1 0 1 0)
                   Compression_none false DemoRest.g []
                   [(Demo.vec "g" float32 [(9 # 2)%Q; (13 # 2)%Q], "g"%string,
                     Demo.markers 1 0)] _ _)).
  - constructor; [reflexivity | constructor].
  - intros b t nm. exists 1%Q, 0%Q, []. reflexivity.
Defined.
